(** * Serpent-to-OpenMC geometry helpers: a shallow embedding

    This development embeds the helper functions of
    [scripts/preprocessors/generate_geometry/_script_helpers.py] and states
    the properties of the geometry translator against them.

    Conventions of the embedding:
    - Python [str] is [string]; [float] is the kernel's binary64
      ([PrimFloat]); [int] is [Z].
    - The module-level dictionaries are the fields of [State]; a function
      that reads or writes them is a computation in the monad [M], which
      threads the state and keeps it when an exception is raised (Python does
      not roll back the globals on [raise]).
    - The calls into [re], [numpy] and [openmc] are modelled by the modules
      [Re], [Np] and [NpArr] and by the definitions under "OpenMC objects"
      and "The OpenMC side of a surface card". *)

From Stdlib Require Import ZArith String Ascii List Bool Lia.
From Stdlib Require Import Floats SpecFloat DecimalString.
From stdpp Require Import gmap strings list.

Local Open Scope string_scope.
Local Open Scope Z_scope.

(* ===================================================================== *)
(** * Exceptions and results *)
(* ===================================================================== *)

(** The exceptions the helpers can end in. [ValueError msg] is a [raise
    ValueError(msg)] written in the source, with its message; [RaisedBy f]
    is an exception raised inside the library callable [f]; the others are
    raised by the interpreter itself. *)
Inductive exn : Type :=
| ValueError (msg : string)
| KeyError (key : string)
| IndexError
| TypeError
| AttributeError (attr : string)
| UnboundLocalError (var : string)
| RaisedBy (callee : string).

Inductive result (A : Type) : Type :=
| Ok (a : A)
| Err (e : exn).
Arguments Ok {A} a.
Arguments Err {A} e.

Definition rbind {A B} (r : result A) (f : A -> result B) : result B :=
  match r with
  | Ok a => f a
  | Err e => Err e
  end.

Definition is_ok {A} (r : result A) : bool :=
  match r with Ok _ => true | Err _ => false end.

Notation "'let?' x ':=' c 'in' k" := (rbind c (fun x => k))
  (at level 10, x pattern, c at level 100, k at level 200).

(** [l[i]] for a list and a non-negative index. *)
Definition py_index {A} (l : list A) (i : nat) : result A :=
  match nth_error l i with
  | Some a => Ok a
  | None => Err IndexError
  end.

(** [l[i:]]: a slice never raises. *)
Definition py_slice_from {A} (l : list A) (i : nat) : list A := skipn i l.

(* ===================================================================== *)
(** * Python strings *)
(* ===================================================================== *)

Module PyStr.

(** The ASCII characters for which [str.isspace] holds; they are also the
    ASCII range of the class [\s] of [re]. *)
Definition is_space (c : ascii) : bool :=
  let n := nat_of_ascii c in
  (((9 <=? n) && (n <=? 13)) || ((28 <=? n) && (n <=? 32)))%nat.

Definition is_digit (c : ascii) : bool :=
  let n := nat_of_ascii c in ((48 <=? n) && (n <=? 57))%nat.

Definition is_lower (c : ascii) : bool :=
  let n := nat_of_ascii c in ((97 <=? n) && (n <=? 122))%nat.

Definition is_upper (c : ascii) : bool :=
  let n := nat_of_ascii c in ((65 <=? n) && (n <=? 90))%nat.

Definition is_alnum (c : ascii) : bool :=
  is_lower c || is_upper c || is_digit c.

Definition snoc (s : string) (c : ascii) : string :=
  String.append s (String c EmptyString).

Definition is_empty (s : string) : bool :=
  match s with EmptyString => true | _ => false end.

(** [s.split()]: the maximal runs of characters that are not white space.
    [cur] is the run being read. *)
Fixpoint split_aux (cur : string) (s : string) : list string :=
  match s with
  | EmptyString => if is_empty cur then [] else [cur]
  | String c s' =>
      if is_space c
      then (if is_empty cur then split_aux EmptyString s'
            else cur :: split_aux EmptyString s')
      else split_aux (snoc cur c) s'
  end.

Definition split (s : string) : list string := split_aux EmptyString s.

(** [s.replace(old, new)] for a non-empty [old]: every occurrence, from
    the left, without overlap. [skip] counts the characters of an
    occurrence still to pass over. *)
Fixpoint replace_aux (old new : string) (skip : nat) (s : string) : string :=
  match s with
  | EmptyString => EmptyString
  | String c s' =>
      match skip with
      | S k => replace_aux old new k s'
      | O =>
          if String.prefix old s
          then String.append new
                 (replace_aux old new (Nat.pred (String.length old)) s')
          else String c (replace_aux old new O s')
      end
  end.

(** With an empty [old], Python puts [new] before every character and at
    the end. *)
Fixpoint intersperse (new : string) (s : string) : string :=
  match s with
  | EmptyString => new
  | String c s' => String.append new (String c (intersperse new s'))
  end.

Definition replace (s old new : string) : string :=
  if is_empty old then intersperse new s else replace_aux old new O s.

(** [s[:-1]] *)
Fixpoint drop_last (s : string) : string :=
  match s with
  | EmptyString => EmptyString
  | String c EmptyString => EmptyString
  | String c s' => String c (drop_last s')
  end.

Fixpoint lstrip (s : string) : string :=
  match s with
  | String c s' => if is_space c then lstrip s' else s
  | EmptyString => EmptyString
  end.

Fixpoint rstrip (s : string) : string :=
  match s with
  | EmptyString => EmptyString
  | String c s' =>
      let t := rstrip s' in
      if is_empty t && is_space c then EmptyString else String c t
  end.

Definition strip (s : string) : string := rstrip (lstrip s).

Definition digit_val (c : ascii) : Z := Z.of_nat (nat_of_ascii c) - 48.

(** The digits of a decimal literal, where single underscores may stand
    between digits. [seen] tells whether the previous character was a
    digit. *)
Fixpoint digits_aux (acc : Z) (seen : bool) (s : string) : option Z :=
  match s with
  | EmptyString => if seen then Some acc else None
  | String c s' =>
      if is_digit c then digits_aux (10 * acc + digit_val c) true s'
      else if Ascii.eqb c "_"
           then (if seen then digits_aux acc false s' else None)
           else None
  end.

Definition split_sign (s : string) : bool * string :=
  match s with
  | String "-" s' => (true, s')
  | String "+" s' => (false, s')
  | _ => (false, s)
  end.

(** [int(s)] on ASCII text in base 10: surrounding white space, a sign,
    digits. [None] stands for the [ValueError] of [int]. *)
Definition int (s : string) : option Z :=
  let (neg, body) := split_sign (strip s) in
  match digits_aux 0 false body with
  | Some n => Some (if neg then - n else n)
  | None => None
  end.

(** [str(n)] of an integer. *)
Definition of_int (n : Z) : string :=
  NilZero.string_of_int (Z.to_int n).

End PyStr.

(* ===================================================================== *)
(** * Python floats *)
(* ===================================================================== *)

Module PyFloat.

(** The binary64 number nearest to [m * 2^e] (ties to even). *)
Definition of_scaled (m e : Z) : float :=
  SF2Prim (binary_normalize prec emax m e false).

(** [float(n)] of an integer; an integer beyond the binary64 range raises
    [OverflowError] in Python. *)
Definition of_int (n : Z) : result float :=
  let f := of_scaled n 0 in
  if PrimFloat.is_infinity f then Err (RaisedBy "float") else Ok f.

Fixpoint all_digits (s : string) : bool :=
  match s with
  | EmptyString => true
  | String c s' => PyStr.is_digit c && all_digits s'
  end.

Fixpoint digits_val (acc : Z) (s : string) : Z :=
  match s with
  | EmptyString => acc
  | String c s' => digits_val (10 * acc + PyStr.digit_val c) s'
  end.

(** The text before the first ["."] and, when there is one, the text after
    it. *)
Fixpoint cut_point (s : string) : string * option string :=
  match s with
  | EmptyString => (EmptyString, None)
  | String c s' =>
      if Ascii.eqb c "."
      then (EmptyString, Some s')
      else let (a, b) := cut_point s' in (String c a, b)
  end.

(** The binary64 number nearest to [m / 10^k], for [0 <= m]: the quotient
    is taken with 64 spare bits and a sticky bit, so the single rounding of
    [of_scaled] is the rounding of the exact value. *)
Definition of_decimal (m : Z) (k : nat) : float :=
  let d := 10 ^ Z.of_nat k in
  let s := 65 + Z.log2 d in
  let q := (m * 2 ^ s) / d in
  let r := (m * 2 ^ s) mod d in
  of_scaled (2 * q + (if r =? 0 then 0 else 1)) (- (s + 1)).

(** [float(s)] on a plain decimal literal: surrounding white space, a
    sign, digits, and a fraction after a point. These are the literals the
    card patterns admit ([NUM_REGEX]); for any other spelling that Python
    reads (an exponent, [inf], [nan], underscores) the model answers
    [None], and no statement below relies on that answer. [None] otherwise
    stands for the [ValueError] of [float]. *)
Definition of_string (s : string) : option float :=
  let (neg, body) := PyStr.split_sign (PyStr.strip s) in
  let (ip, fp) := cut_point body in
  let fs := match fp with Some f => f | None => EmptyString end in
  if all_digits ip && all_digits fs
     && negb (PyStr.is_empty ip && PyStr.is_empty fs)
  then
    let m := digits_val (digits_val 0 ip) fs in
    let x := of_decimal m (String.length fs) in
    Some (if neg then PrimFloat.opp x else x)
  else None.

Definition parse (s : string) : result float :=
  match of_string s with
  | Some x => Ok x
  | None => Err (RaisedBy "float")
  end.

End PyFloat.

(* ===================================================================== *)
(** * Regular expressions: the part of [re] the helpers use *)
(* ===================================================================== *)

Module Re.

(** Pattern syntax: the operators that occur in the patterns of the
    source. [Rep a lo hi] is the greedy [a{lo,hi}] ([hi = None] for no
    upper bound); [NotAhead a] is [(?!a)]. *)
Inductive regex : Type :=
| Eps
| Bol
| Chr (p : ascii -> bool)
| Cat (a b : regex)
| Alt (a b : regex)
| Rep (a : regex) (lo : nat) (hi : option nat)
| NotAhead (a : regex).

Definition Star (a : regex) : regex := Rep a 0 None.
Definition Plus (a : regex) : regex := Rep a 1 None.
Definition Opt (a : regex) : regex := Rep a 0 (Some 1%nat).

Fixpoint Lit (s : string) : regex :=
  match s with
  | EmptyString => Eps
  | String c EmptyString => Chr (Ascii.eqb c)
  | String c s' => Cat (Chr (Ascii.eqb c)) (Lit s')
  end.

Definition room_left (room : option nat) : bool :=
  match room with Some O => false | _ => true end.

Definition room_pred (room : option nat) : option nat :=
  match room with Some n => Some (Nat.pred n) | None => None end.

Definition cont : Type := nat -> string -> option nat.

(** The rounds of a repetition beyond the required ones, greedy: one more
    round of the body [ma] is tried before stopping; a round that consumes
    nothing is not taken. [room] is the number of rounds still allowed
    ([None] for no bound); [fuel] exceeds the length of the text. *)
Fixpoint rep_more (ma : nat -> string -> cont -> option nat) (k : cont)
         (fuel : nat) (room : option nat) (i : nat) (s : string)
  : option nat :=
  match fuel with
  | O => k i s
  | S fuel' =>
      if room_left room then
        match ma i s (fun j t => if Nat.ltb i j
                                 then rep_more ma k fuel' (room_pred room)
                                               j t
                                 else None) with
        | Some e => Some e
        | None => k i s
        end
      else k i s
  end.

(** The [n] required rounds of a repetition, then [k]. *)
Fixpoint rep_need (ma : nat -> string -> cont -> option nat) (k : cont)
         (n : nat) (i : nat) (s : string) : option nat :=
  match n with
  | O => k i s
  | S n' => ma i s (fun j t => rep_need ma k n' j t)
  end.

(** Backtracking matcher, as [re] runs a pattern: [rmatch r i s k] matches
    [r] at offset [i], where [s] is the text from [i] on, and hands the
    offset and the text after the match to the continuation [k]; the first
    alternative whose continuation succeeds wins. The result is the end
    offset of the whole match. *)
Fixpoint rmatch (r : regex) (i : nat) (s : string) (k : cont)
         {struct r} : option nat :=
  match r with
  | Eps => k i s
  | Bol => if Nat.eqb i 0 then k i s else None
  | Chr p =>
      match s with
      | String c s' => if p c then k (S i) s' else None
      | EmptyString => None
      end
  | Cat a b => rmatch a i s (fun j t => rmatch b j t k)
  | Alt a b =>
      match rmatch a i s k with
      | Some e => Some e
      | None => rmatch b i s k
      end
  | Rep a lo hi =>
      rep_need (rmatch a)
        (fun j t =>
           rep_more (rmatch a) k (S (String.length t))
                    (match hi with
                     | Some h => Some (h - lo)%nat
                     | None => None
                     end) j t)
        lo i s
  | NotAhead a =>
      match rmatch a i s (fun j _ => Some j) with
      | Some _ => None
      | None => k i s
      end
  end.

Definition match_at (r : regex) (i : nat) (s : string) : option nat :=
  rmatch r i s (fun j _ => Some j).

(** The leftmost match at or after offset [i]: its start and end. *)
Fixpoint search_from (r : regex) (i : nat) (s : string)
  : option (nat * nat) :=
  match match_at r i s with
  | Some e => Some (i, e)
  | None =>
      match s with
      | String _ s' => search_from r (S i) s'
      | EmptyString => None
      end
  end.

(** [re.search(r, s).group(0)], or [None] when nothing matches. *)
Definition search (r : regex) (s : string) : option string :=
  match search_from r 0 s with
  | Some (b, e) => Some (String.substring b (e - b) s)
  | None => None
  end.

(** [bool(re.match(r, s))]: a match at the start of [s]. *)
Definition matches_start (r : regex) (s : string) : bool :=
  match match_at r 0 s with Some _ => true | None => false end.

Fixpoint drop (n : nat) (s : string) : string :=
  match n, s with
  | O, _ => s
  | S n', String _ s' => drop n' s'
  | S _, EmptyString => EmptyString
  end.

(** The leftmost match at or after [i] that is not empty. *)
Fixpoint search_nonempty (r : regex) (i : nat) (s : string)
  : option (nat * nat) :=
  match match_at r i s with
  | Some e =>
      if Nat.ltb i e then Some (i, e)
      else match s with
           | String _ s' => search_nonempty r (S i) s'
           | EmptyString => None
           end
  | None =>
      match s with
      | String _ s' => search_nonempty r (S i) s'
      | EmptyString => None
      end
  end.

(** [re.split(r, s)[-1]]: the text after the last of the successive
    matches of [r], or all of [s] when there is none. The model covers the
    patterns that match no empty string, which is the case of every
    splitter the translator passes (they start with the word [cell]); an
    empty match is passed over. *)
Fixpoint split_last_from (fuel : nat) (r : regex) (i : nat) (s : string)
  : string :=
  match fuel with
  | O => s
  | S fuel' =>
      match search_nonempty r i s with
      | Some (_, e) => split_last_from fuel' r e (drop (e - i) s)
      | None => s
      end
  end.

Definition split_last (r : regex) (s : string) : string :=
  split_last_from (S (String.length s)) r 0 s.

(** Character classes. *)
Definition space : regex := Chr PyStr.is_space.
Definition alnum : regex := Chr PyStr.is_alnum.
Definition digit : regex := Chr PyStr.is_digit.
Definition not_percent : regex := Chr (fun c => negb (Ascii.eqb c "%")).
(** [.]: any character but a newline. *)
Definition dot : regex := Chr (fun c => negb (Ascii.eqb c "010")).

Fixpoint seq (l : list regex) : regex :=
  match l with
  | [] => Eps
  | [a] => a
  | a :: l' => Cat a (seq l')
  end.

End Re.

(* ===================================================================== *)
(** * The card patterns of the source *)
(* ===================================================================== *)

Import Re.

(** [NUM_REGEX = '-?[0-9]+(\.[0-9]+)?'] *)
Definition NUM_REGEX : regex :=
  seq [Opt (Lit "-"); Plus digit; Opt (Cat (Lit ".") (Plus digit))].

(** [COMMENT_IGNORE_BEG_REGEX = '^\s*[^%]*\s*'] *)
Definition COMMENT_IGNORE_BEG_REGEX : regex :=
  seq [Bol; Star space; Star not_percent; Star space].

(** [COMMENT_IGNORE_END_REGEX = '\s*[^%]*'] *)
Definition COMMENT_IGNORE_END_REGEX : regex :=
  seq [Star space; Star not_percent].

(** [BC_REGEX_CORE =
      'set\s+bc(\s+([1-3]|black|reflective|periodic)){1,3}'] *)
Definition BC_REGEX_CORE : regex :=
  seq [Lit "set"; Plus space; Lit "bc";
       Rep (Cat (Plus space)
                (Alt (Chr (fun c => (Ascii.leb "1" c && Ascii.leb c "3")%bool))
                (Alt (Lit "black")
                (Alt (Lit "reflective") (Lit "periodic")))))
           1 (Some 3%nat)].

(** [CELL_REGEX1_CORE = 'cell(\s+[a-zA-Z0-9]+){3}'] *)
Definition CELL_REGEX1_CORE : regex :=
  seq [Lit "cell"; Rep (Cat (Plus space) (Plus alnum)) 3 (Some 3%nat)].

(** [CELL_REGEX2_CORE = 'cell(\s+[a-zA-Z0-9]+){2}\s+fill\s+[a-zA-Z0-9]+'] *)
Definition CELL_REGEX2_CORE : regex :=
  seq [Lit "cell"; Rep (Cat (Plus space) (Plus alnum)) 2 (Some 2%nat);
       Plus space; Lit "fill"; Plus space; Plus alnum].

(** [CELL_REGEX3_CORE = 'cell(\s+[a-zA-Z0-9]+){2}\s+outside'] *)
Definition CELL_REGEX3_CORE : regex :=
  seq [Lit "cell"; Rep (Cat (Plus space) (Plus alnum)) 2 (Some 2%nat);
       Plus space; Lit "outside"].

(** [ROOT_REGEX_CORE = 'set\s+root\s+[a-zA-Z0-9]+'] *)
Definition ROOT_REGEX_CORE : regex :=
  seq [Lit "set"; Plus space; Lit "root"; Plus space; Plus alnum].

(** [(?!.*w)] *)
Definition not_later (w : string) : regex :=
  NotAhead (Cat (Star dot) (Lit w)).

(** [CARD_IGNORE_REGEX = '^\s*(?!.*%)(?!.*lat)(?!.*cell)(?!.*set)
      (?!.*surf)(?!.*dtrans)(?!.*ftrans)(?!.*ltrans)(?!.*pin)(?!.*solid)
      (?!.*strans)(?!.*trans)'] *)
Definition CARD_IGNORE_REGEX : regex :=
  seq [Bol; Star space;
       not_later "%"; not_later "lat"; not_later "cell"; not_later "set";
       not_later "surf"; not_later "dtrans"; not_later "ftrans";
       not_later "ltrans"; not_later "pin"; not_later "solid";
       not_later "strans"; not_later "trans"].

(** [LAT_MULTILINE_REGEX_CORE =
      '((' + NUM_REGEX + '){0,2}[a-zA-Z0-9]{1,3}\s+)+'] *)
Definition LAT_MULTILINE_REGEX_CORE : regex :=
  Plus (seq [Rep NUM_REGEX 0 (Some 2%nat); Rep alnum 1 (Some 3%nat);
             Plus space]).

Definition BC_REGEX : regex :=
  seq [COMMENT_IGNORE_BEG_REGEX; BC_REGEX_CORE; COMMENT_IGNORE_END_REGEX].

Definition ROOT_REGEX : regex :=
  seq [COMMENT_IGNORE_BEG_REGEX; ROOT_REGEX_CORE; COMMENT_IGNORE_END_REGEX].

Definition LAT_MULTILINE_REGEX : regex :=
  seq [CARD_IGNORE_REGEX; LAT_MULTILINE_REGEX_CORE; COMMENT_IGNORE_END_REGEX].

(* ===================================================================== *)
(** * OpenMC objects *)
(* ===================================================================== *)

(** The callables in the values of [geo_dict['surf']]. *)
Inductive surf_class : Type :=
| XPlane | YPlane | ZPlane | Plane
| XCylinder | YCylinder | ZCylinder
| cylinder_from_points
| Sphere | ZCone | Quadric
| XTorus | YTorus | ZTorus
| rectangular_prism | hexagonal_prism
| RectangularParallelepiped.

Definition surf_class_eqb (a b : surf_class) : bool :=
  match a, b with
  | XPlane, XPlane | YPlane, YPlane | ZPlane, ZPlane | Plane, Plane
  | XCylinder, XCylinder | YCylinder, YCylinder | ZCylinder, ZCylinder
  | cylinder_from_points, cylinder_from_points
  | Sphere, Sphere | ZCone, ZCone | Quadric, Quadric
  | XTorus, XTorus | YTorus, YTorus | ZTorus, ZTorus
  | rectangular_prism, rectangular_prism
  | hexagonal_prism, hexagonal_prism
  | RectangularParallelepiped, RectangularParallelepiped => true
  | _, _ => false
  end.

(** Argument values handed to the OpenMC callables: a float, a string
    (an axis or an orientation), or a tuple or list of floats. *)
Inductive pyval : Type :=
| VFloat (x : float)
| VStr (s : string)
| VSeq (l : list float).

(** A surface object. The model records the call that built it ([s_class],
    [s_args]); for a face of a prism these are the class of the face and the
    arguments of the prism, and [s_face] tells which face it is. [s_id] is
    [None] for an object without an [id] attribute. Of the checks OpenMC
    makes on the arguments the model has the one on their number (see
    [accepts] below); the checks on their values are not part of it. *)
Record Surface : Type := mkSurface {
  s_class : surf_class;
  s_args : list pyval;
  s_face : option nat;
  s_name : string;
  s_id : option Z;
  s_boundary_type : string
}.

Definition set_s_name (n : string) (s : Surface) : Surface :=
  mkSurface (s_class s) (s_args s) (s_face s) n (s_id s) (s_boundary_type s).

Definition set_s_id (i : Z) (s : Surface) : Surface :=
  mkSurface (s_class s) (s_args s) (s_face s) (s_name s) (Some i)
            (s_boundary_type s).

Definition set_s_boundary_type (b : string) (s : Surface) : Surface :=
  mkSurface (s_class s) (s_args s) (s_face s) (s_name s) (s_id s) b.

(** [openmc.Universe(name=...)]: [u_id] is the id OpenMC gives every new
    universe, so two universe objects are the same object exactly when
    their ids agree. *)
Record Universe : Type := mkUniverse { u_id : Z; u_name : string }.

(** An entry of the resolved material table. *)
Record Material : Type := mkMaterial { m_name : string }.

(** [openmc.Cell()] *)
Record Cell : Type := mkCell { c_id : Z }.

(** The value of [openmc.Region.from_expression(expression, surfaces)]: the
    parse belongs to OpenMC, the model keeps its two arguments. *)
Record Region : Type := mkRegion {
  r_expression : string;
  r_surfaces : gmap Z Surface
}.

(** What [surf_dict] holds under a name: the string of a special-case
    surface, a surface object, or the ordered dictionary of the faces of a
    prism, keyed by their ids. *)
Inductive surf_entry : Type :=
| SEStr (s : string)
| SEObj (o : Surface)
| SESubs (od : list (Z * Surface)).

(** The fill a cell card resolves to. *)
Inductive fill : Type :=
| FillNone
| FillMaterial (m : Material)
| FillUniverse (u : Universe).

(* ===================================================================== *)
(** * The module-level state *)
(* ===================================================================== *)

(** The globals of the module. [n_bcs], [surface_bc] and [root_name] are
    declared global in the module and assigned by the driver before a card
    is translated. The three counters are OpenMC's next free ids. *)
Record State : Type := mkState {
  surf_dict : gmap string surf_entry;
  cell_dict : gmap string Cell;
  mat_dict : gmap string Material;
  universe_dict : gmap string Universe;
  universe_to_cell_names_dict : gmap string (list string);
  geo_data : list string;
  n_bcs : Z;
  surface_bc : list string;
  root_name : string;
  next_surface_id : Z;
  next_universe_id : Z;
  next_cell_id : Z
}.

Definition with_surf_dict (d : gmap string surf_entry) (st : State) : State :=
  mkState d (cell_dict st) (mat_dict st) (universe_dict st)
          (universe_to_cell_names_dict st) (geo_data st) (n_bcs st)
          (surface_bc st) (root_name st) (next_surface_id st)
          (next_universe_id st) (next_cell_id st).

Definition with_universe_dict (d : gmap string Universe) (st : State)
  : State :=
  mkState (surf_dict st) (cell_dict st) (mat_dict st) d
          (universe_to_cell_names_dict st) (geo_data st) (n_bcs st)
          (surface_bc st) (root_name st) (next_surface_id st)
          (next_universe_id st) (next_cell_id st).

Definition with_universe_to_cell_names_dict
           (d : gmap string (list string)) (st : State) : State :=
  mkState (surf_dict st) (cell_dict st) (mat_dict st) (universe_dict st)
          d (geo_data st) (n_bcs st)
          (surface_bc st) (root_name st) (next_surface_id st)
          (next_universe_id st) (next_cell_id st).

Definition with_next_surface_id (n : Z) (st : State) : State :=
  mkState (surf_dict st) (cell_dict st) (mat_dict st) (universe_dict st)
          (universe_to_cell_names_dict st) (geo_data st) (n_bcs st)
          (surface_bc st) (root_name st) n
          (next_universe_id st) (next_cell_id st).

Definition with_next_universe_id (n : Z) (st : State) : State :=
  mkState (surf_dict st) (cell_dict st) (mat_dict st) (universe_dict st)
          (universe_to_cell_names_dict st) (geo_data st) (n_bcs st)
          (surface_bc st) (root_name st) (next_surface_id st)
          n (next_cell_id st).

Definition with_next_cell_id (n : Z) (st : State) : State :=
  mkState (surf_dict st) (cell_dict st) (mat_dict st) (universe_dict st)
          (universe_to_cell_names_dict st) (geo_data st) (n_bcs st)
          (surface_bc st) (root_name st) (next_surface_id st)
          (next_universe_id st) n.

(** Computations over the state that may raise. The state at the raise is
    kept. *)
Definition M (A : Type) : Type := State -> State * result A.

Definition ret {A} (a : A) : M A := fun st => (st, Ok a).

Definition raise {A} (e : exn) : M A := fun st => (st, Err e).

Definition bind {A B} (m : M A) (f : A -> M B) : M B :=
  fun st =>
    match m st with
    | (st', Ok a) => f a st'
    | (st', Err e) => (st', Err e)
    end.

Definition lift {A} (r : result A) : M A := fun st => (st, r).

Definition get : M State := fun st => (st, Ok st).

Definition modify (f : State -> State) : M unit := fun st => (f st, Ok tt).

Notation "'let!' x ':=' c 'in' k" := (bind c (fun x => k))
  (at level 10, x pattern, c at level 100, k at level 200).

Notation "c ';;;' k" := (bind c (fun _ => k))
  (at level 100, k at level 200, right associativity).

(** [d[key]] for a dictionary with string keys. *)
Definition dict_get {V} (d : gmap string V) (key : string) : result V :=
  match d !! key with
  | Some v => Ok v
  | None => Err (KeyError key)
  end.

(** [openmc.Universe(name=n)] *)
Definition new_universe (n : string) : M Universe :=
  fun st =>
    (with_next_universe_id (next_universe_id st + 1) st,
     Ok (mkUniverse (next_universe_id st) n)).

(** [openmc.Cell()] *)
Definition new_cell : M Cell :=
  fun st =>
    (with_next_cell_id (next_cell_id st + 1) st,
     Ok (mkCell (next_cell_id st))).

(* ===================================================================== *)
(** * Universe registry *)
(* ===================================================================== *)

(** [add_cell_name_to_universe(univ_name, cell_name)]. The test is
    [bool(universe_to_cell_names_dict.get(univ_name))]: true for a name
    bound to a non-empty list. *)
Definition add_cell_name_to_universe (univ_name cell_name : string)
  : M unit :=
  let! st := get in
  match universe_to_cell_names_dict st !! univ_name with
  | Some (c :: cs) =>
      modify (with_universe_to_cell_names_dict
                (<[univ_name := ((c :: cs) ++ [cell_name])%list]>
                   (universe_to_cell_names_dict st)))
  | _ =>
      modify (with_universe_to_cell_names_dict
                (<[univ_name := [cell_name]]>
                   (universe_to_cell_names_dict st))) ;;;
      let! u := new_universe univ_name in
      modify (fun st' =>
                with_universe_dict (<[univ_name := u]> (universe_dict st'))
                                   st')
  end.

(* ===================================================================== *)
(** * Boundary conditions and root universe *)
(* ===================================================================== *)

(** The loop of [get_boundary_conditions_and_root] over the lines: the
    cards found so far are [bc_card] and [root_card]; the loop stops once
    both are found. *)
Fixpoint scan_cards (lines : list string) (bc_card root_card : string)
  : string * string :=
  match lines with
  | [] => (bc_card, root_card)
  | line :: rest =>
      let '(bc_card', root_card') :=
        match Re.search BC_REGEX line with
        | Some m => (m, root_card)
        | None =>
            match Re.search ROOT_REGEX line with
            | Some m => (bc_card, m)
            | None => (bc_card, root_card)
            end
        end in
      if negb (PyStr.is_empty root_card') && negb (PyStr.is_empty bc_card')
      then (bc_card', root_card')
      else scan_cards rest bc_card' root_card'
  end.

(** One round of the loop over [bc_data]. *)
Definition bc_of_token (bc : string) : result string :=
  if String.eqb bc "1" || String.eqb bc "black" then Ok "vacuum"
  else if String.eqb bc "2" || String.eqb bc "reflective" then Ok "reflective"
  else if String.eqb bc "3" || String.eqb bc "periodic" then Ok "periodic"
  else Err (ValueError ("Boundary type " ++ bc ++ " is invalid")).

Fixpoint bc_of_tokens (bc_data : list string) (surface_bc : list string)
  : result (list string) :=
  match bc_data with
  | [] => Ok surface_bc
  | bc :: rest =>
      let? b := bc_of_token bc in
      bc_of_tokens rest (surface_bc ++ [b])%list
  end.

(** The second part of the function: [surface_bc] from [bc_card]. *)
Definition surface_bc_of_card (bc_card : string) : result (list string) :=
  if PyStr.is_empty bc_card then Ok ([] ++ ["vacuum"])%list
  else bc_of_tokens (py_slice_from (PyStr.split bc_card) 2) [].

(** The last part: [root_name] from [root_card]. *)
Definition root_name_of_card (root_card : string) : result string :=
  if PyStr.is_empty root_card then Ok "0"
  else py_index (PyStr.split root_card) 2.

(** [get_boundary_conditions_and_root(geo_data)] *)
Definition get_boundary_conditions_and_root (geo_data : list string)
  : result (list string * string) :=
  let '(bc_card, root_card) := scan_cards geo_data "" "" in
  let? surface_bc := surface_bc_of_card bc_card in
  let? root_name := root_name_of_card root_card in
  Ok (surface_bc, root_name).

(* ===================================================================== *)
(** * numpy: the array operations of the plane card *)
(* ===================================================================== *)

Module Np.

Local Open Scope float_scope.

(** What [np.dot] returns: a scalar for two vectors. *)
Inductive value : Type :=
| Scalar (x : float)
| Vector (v : list float).

(** [v[i]]: a numpy scalar cannot be indexed. *)
Definition getitem (v : value) (i : nat) : result float :=
  match v with
  | Scalar _ => Err IndexError
  | Vector l => py_index l i
  end.

(** [a - b], element by element. *)
Fixpoint sub (a b : list float) : list float :=
  match a, b with
  | x :: a', y :: b' => (x - y) :: sub a' b'
  | _, _ => []
  end.

(** [-a] *)
Definition neg (a : list float) : list float := List.map PrimFloat.opp a.

(** [np.cross(a, b)] of two vectors of three components. *)
Definition cross (a b : list float) : result (list float) :=
  match a, b with
  | [a0; a1; a2], [b0; b1; b2] =>
      Ok [a1 * b2 - a2 * b1; a2 * b0 - a0 * b2; a0 * b1 - a1 * b0]
  | _, _ => Err (RaisedBy "numpy.cross")
  end.

Fixpoint dot_sum (acc : float) (a b : list float) : float :=
  match a, b with
  | x :: a', y :: b' => dot_sum (acc + x * y) a' b'
  | _, _ => acc
  end.

(** [np.dot(a, b)] of two vectors of the same length: a scalar. *)
Definition dot (a b : list float) : value :=
  match a, b with
  | x :: a', y :: b' => Scalar (dot_sum (x * y) a' b')
  | _, _ => Scalar 0
  end.

End Np.

(* ===================================================================== *)
(** * Surface builder *)
(* ===================================================================== *)

(** [geo_dict['surf'].get(surf_type)]: [None] for a missing key, [Some
    None] for the keys bound to [None] ([octa], [pad]). *)
Definition geo_dict_surf (surf_type : string) : option (option surf_class) :=
  if String.eqb surf_type "px" then Some (Some XPlane)
  else if String.eqb surf_type "py" then Some (Some YPlane)
  else if String.eqb surf_type "pz" then Some (Some ZPlane)
  else if String.eqb surf_type "plane" then Some (Some Plane)
  else if String.eqb surf_type "cylx" then Some (Some XCylinder)
  else if String.eqb surf_type "cyly" then Some (Some YCylinder)
  else if String.eqb surf_type "cylz" then Some (Some ZCylinder)
  else if String.eqb surf_type "cyl" then Some (Some ZCylinder)
  else if String.eqb surf_type "cylv" then Some (Some cylinder_from_points)
  else if String.eqb surf_type "sph" then Some (Some Sphere)
  else if String.eqb surf_type "cone" then Some (Some ZCone)
  else if String.eqb surf_type "quadratic" then Some (Some Quadric)
  else if String.eqb surf_type "torx" then Some (Some XTorus)
  else if String.eqb surf_type "tory" then Some (Some YTorus)
  else if String.eqb surf_type "torz" then Some (Some ZTorus)
  else if String.eqb surf_type "sqc" then Some (Some rectangular_prism)
  else if String.eqb surf_type "rect" then Some (Some rectangular_prism)
  else if String.eqb surf_type "hexxc" then Some (Some hexagonal_prism)
  else if String.eqb surf_type "hexyc" then Some (Some hexagonal_prism)
  else if String.eqb surf_type "cube"
       then Some (Some RectangularParallelepiped)
  else if String.eqb surf_type "cuboid"
       then Some (Some RectangularParallelepiped)
  else if String.eqb surf_type "octa" then Some None
  else if String.eqb surf_type "pad" then Some None
  else None.

(** [special_case_surfaces = tuple(['inf'])] *)
Definition special_case_surfaces : list string := ["inf"].

Definition count_eq (l : list string) (x : string) : nat :=
  List.length (List.filter (String.eqb x) l).

Definition vfloats (l : list float) : list pyval := List.map VFloat l.

Section SurfaceParams.

Local Open Scope float_scope.

(** The branch of the 9-parameter [plane] card. *)
Definition plane_from_points (surf_params : list float)
  : result (list pyval) :=
  let? a0 := py_index surf_params 0 in
  let? a3 := py_index surf_params 3 in
  let? a6 := py_index surf_params 6 in
  let p1 := [a0; a3; a6] in
  let? a1 := py_index surf_params 1 in
  let? a4 := py_index surf_params 4 in
  let? a7 := py_index surf_params 7 in
  let p2 := [a1; a4; a7] in
  let? a2 := py_index surf_params 2 in
  let? a5 := py_index surf_params 5 in
  let? a8 := py_index surf_params 8 in
  let p3 := [a2; a5; a8] in
  let? n := Np.cross (Np.sub p2 p1) (Np.sub p3 p1) in
  let n0 := Np.neg p1 in
  let? A := py_index n 0 in
  let? B := py_index n 1 in
  let? C := py_index n 2 in
  let? D := Np.getitem (Np.dot n n0) 0 in
  Ok (vfloats [A; B; C; D]).

(** [l[-1]] *)
Definition py_last (l : list float) : result float :=
  match List.rev l with
  | x :: _ => Ok x
  | [] => Err IndexError
  end.

(** [_get_openmc_surface_params(surf_type, surf_params)]: the triple
    [(surface_params, set_attributes, has_subsurfaces)], where
    [surface_params] may be Python's [None]. *)
Definition _get_openmc_surface_params (surf_type : string)
           (surf_params : list float)
  : result (option (list pyval) * bool * bool) :=
  if (0 <? count_eq special_case_surfaces surf_type)%nat
  then Ok (None, false, false)
  else
    match geo_dict_surf surf_type with
    | Some (Some _) =>
        if String.eqb surf_type "plane" then
          if (List.length surf_params =? 9)%nat
          then let? ps := plane_from_points surf_params in
               Ok (Some ps, true, false)
          else Ok (None, true, false)
        else if String.eqb surf_type "cylv" then
          let p1 := firstn 3 surf_params in
          let p2 := firstn 3 (skipn 3 surf_params) in
          let? r := py_last surf_params in
          Ok (Some [VSeq p1; VSeq p2; VFloat r], true, false)
        else if String.eqb surf_type "sqc" then
          let? a := py_index surf_params 2 in
          let width := a * 2 in
          let height := a * 2 in
          let origin := firstn 2 surf_params in
          Ok (Some [VFloat width; VFloat height; VStr "z"; VSeq origin],
              true, true)
        else if String.eqb surf_type "rect" then
          let? a3 := py_index surf_params 3 in
          let? a2 := py_index surf_params 2 in
          let width := a3 - a2 in
          let? a1 := py_index surf_params 1 in
          let? a0 := py_index surf_params 0 in
          let height := a1 - a0 in
          let xc := a3 - (width / 2) in
          let yc := a1 - (height / 2) in
          Ok (Some [VFloat width; VFloat height; VStr "z"; VSeq [xc; yc]],
              true, true)
        else if String.eqb surf_type "hexxc" || String.eqb surf_type "hexyc"
        then
          let? x0 := py_index surf_params 0 in
          let? y0 := py_index surf_params 1 in
          let? d := py_index surf_params 2 in
          let edge_length := 2 * d / PrimFloat.sqrt 3 in
          let orientation :=
            if String.eqb surf_type "hexxc" then "y"%string
            else "x"%string in
          Ok (Some [VFloat edge_length; VStr orientation; VSeq [x0; y0]],
              true, true)
        else if String.eqb surf_type "cube" then
          let? x0 := py_index surf_params 0 in
          let? y0 := py_index surf_params 1 in
          let? z0 := py_index surf_params 2 in
          let? d := py_index surf_params 3 in
          Ok (Some (vfloats [x0 - d; x0 + d; y0 - d; y0 + d;
                             z0 - d; z0 + d]),
              true, false)
        else Ok (Some (vfloats surf_params), true, false)
    | _ =>
        Err (ValueError ("Surfaces of type " ++ surf_type
                         ++ " are currently unsupported"))
    end.

End SurfaceParams.

(** ** The OpenMC side of a surface card *)

(** [hasattr(obj, 'id')] for the object the callable returns: the surface
    classes carry an id; the region returned by the two prism functions and
    the composite [RectangularParallelepiped] do not. *)
Definition has_id_attr (c : surf_class) : bool :=
  match c with
  | rectangular_prism | hexagonal_prism | RectangularParallelepiped => false
  | _ => true
  end.

(** The faces [get_surfaces()] lists for the region of a prism, in the order
    of the region, each with its class and the name OpenMC gives it:
    [rectangular_prism] along the z axis is [+min_x & -max_x & +min_y &
    -max_y]; [hexagonal_prism] starts with its two planes normal to x for
    the orientation ['y'] and with its two planes normal to y for ['x'],
    followed by four general planes. *)
Definition prism_faces (c : surf_class) (args : list pyval)
  : list (surf_class * string) :=
  match c with
  | rectangular_prism =>
      [(XPlane, "minimum x"); (XPlane, "maximum x");
       (YPlane, "minimum y"); (YPlane, "maximum y")]
  | hexagonal_prism =>
      match nth_error args 1 with
      | Some (VStr o) =>
          if String.eqb o "x"
          then [(YPlane, ""); (YPlane, ""); (Plane, ""); (Plane, "");
                (Plane, ""); (Plane, "")]
          else [(XPlane, ""); (XPlane, ""); (Plane, ""); (Plane, "");
                (Plane, ""); (Plane, "")]
      | _ => []
      end
  | _ => []
  end.

(** The number of surface ids a call uses up. *)
Definition ids_used (c : surf_class) (args : list pyval) : nat :=
  match c with
  | rectangular_prism | hexagonal_prism => List.length (prism_faces c args)
  | RectangularParallelepiped => 6
  | _ => 1
  end.

Fixpoint number_faces (args : list pyval) (first : Z) (k : nat)
         (faces : list (surf_class * string)) : list Surface :=
  match faces with
  | [] => []
  | (c, n) :: rest =>
      mkSurface c args (Some k) n (Some first) "transmission"
      :: number_faces args (first + 1) (S k) rest
  end.

(** The number of coefficients the constructor of a surface class takes by
    position, as in [openmc.Plane(1.0, 1.0, 0.0, 0.0)]; the box takes its
    six bounds. The three functions are called with the arguments the
    script builds for them. *)
Definition coefficients (c : surf_class) : option nat :=
  match c with
  | XPlane | YPlane | ZPlane => Some 1%nat
  | Plane => Some 4%nat
  | XCylinder | YCylinder | ZCylinder => Some 3%nat
  | Sphere | ZCone => Some 4%nat
  | Quadric => Some 10%nat
  | XTorus | YTorus | ZTorus => Some 6%nat
  | RectangularParallelepiped => Some 6%nat
  | cylinder_from_points | rectangular_prism | hexagonal_prism => None
  end.

(** Whether the call of [c] with the arguments [args] is accepted. A surface class takes at most
    its coefficients by position: a further positional argument is taken
    as the [surface_id], which has to be an integer, and a float of a card
    is refused. The six bounds of the box are all required. *)
Definition accepts (c : surf_class) (args : list pyval) : bool :=
  match c, coefficients c with
  | RectangularParallelepiped, _ => (List.length args =? 6)%nat
  | _, Some k => (List.length args <=? k)%nat
  | _, None => true
  end.

(** The object a callable of [geo_dict['surf']] returns, with the faces its
    [get_surfaces()] lists when it is the region of a prism. A call that is
    not accepted raises [TypeError] before an id is used. *)
Definition openmc_call (c : surf_class) (args : list pyval)
  : M (Surface * list Surface) :=
  fun st =>
    if accepts c args then
      let first := next_surface_id st in
      let st' :=
        with_next_surface_id (first + Z.of_nat (ids_used c args)) st in
      let obj :=
        mkSurface c args None ""
                  (if has_id_attr c then Some first else None)
                  "transmission" in
      (st', Ok (obj, number_faces args first 0 (prism_faces c args)))
    else (st, Err TypeError).

(** [int.from_bytes(b, byteorder)] *)
Fixpoint bytes_little (b : string) : Z :=
  match b with
  | EmptyString => 0
  | String c b' => Z.of_nat (nat_of_ascii c) + 256 * bytes_little b'
  end.

Fixpoint bytes_big (acc : Z) (b : string) : Z :=
  match b with
  | EmptyString => acc
  | String c b' => bytes_big (256 * acc + Z.of_nat (nat_of_ascii c)) b'
  end.

Definition int_from_bytes (b : string) (byteorder : string) : result Z :=
  if String.eqb byteorder "little" then Ok (bytes_little b)
  else if String.eqb byteorder "big" then Ok (bytes_big 0 b)
  else Err (RaisedBy "int.from_bytes").

(** The [try]/[except BaseException] that derives an id from the name. *)
Definition surface_id_of_name (surf_name : string) : result Z :=
  match PyStr.int surf_name with
  | Some n => Ok n
  | None => int_from_bytes surf_name "litle"
  end.

Fixpoint parse_floats (l : list string) : result (list float) :=
  match l with
  | [] => Ok []
  | p :: rest =>
      let? x := PyFloat.parse p in
      let? xs := parse_floats rest in
      Ok (x :: xs)
  end.

Definition rename_sub (surf_name : string) (s : Surface) : Surface :=
  set_s_name (s_name s ++ "_" ++ surf_name ++ "_sub") s.

Definition key_by_id (s : Surface) : Z * Surface :=
  (match s_id s with Some i => i | None => 0 end, s).

(** [construct_and_store_openmc_surface(surf_card)] *)
Definition construct_and_store_openmc_surface (surf_card : string)
  : M unit :=
  let surf_data := PyStr.split surf_card in
  let! surf_name := lift (py_index surf_data 1) in
  let! surf_type := lift (py_index surf_data 2) in
  let surf_args := py_slice_from surf_data 3 in
  let! surf_params := lift (parse_floats surf_args) in
  let! (surface_params, set_attributes, has_subsurfaces) :=
    lift (_get_openmc_surface_params surf_type surf_params) in
  let! entry :=
    if (set_attributes : bool) then
      match surface_params with
      | None => raise TypeError
      | Some args =>
          let! c := lift (match geo_dict_surf surf_type with
                          | Some (Some c) => Ok c
                          | Some None => Err TypeError
                          | None => Err (KeyError surf_type)
                          end) in
          let! (obj, faces) := openmc_call c args in
          let obj := set_s_name surf_name obj in
          let! obj :=
            match s_id obj with
            | Some _ => ret obj
            | None =>
                let! surface_id := lift (surface_id_of_name surf_name) in
                ret (set_s_id surface_id obj)
            end in
          if (has_subsurfaces : bool)
          then ret (SESubs (List.map key_by_id
                              (List.map (rename_sub surf_name) faces)))
          else ret (SEObj obj)
      end
    else
      if (has_subsurfaces : bool)
      then raise (AttributeError "get_surfaces")
      else ret (SEStr surf_type) in
  modify (fun st => with_surf_dict (<[surf_name := entry]> (surf_dict st)) st).

(* ===================================================================== *)
(** * Region and cell builder *)
(* ===================================================================== *)

(** [_strip_csg_operators(csg_expression)] *)
Definition _strip_csg_operators (csg_expression : string) : list string :=
  let csg_expression := PyStr.replace csg_expression "-" " " in
  let csg_expression := PyStr.replace csg_expression ":" " " in
  let csg_expression := PyStr.replace csg_expression "#" " " in
  let csg_expression := PyStr.replace csg_expression "(" " " in
  let csg_expression := PyStr.replace csg_expression ")" " " in
  PyStr.split csg_expression.

(** The Python values the cell builder tests with [isinstance] and [==]. *)
Inductive dkey : Type :=
| KInt (i : Z)
| KStr (s : string).

Inductive dval : Type :=
| DSurf (s : Surface)
| DStr (s : string).

Inductive pyobj : Type :=
| ObjStr (s : string)
| ObjSurface (s : Surface)
| ObjDict (d : list (dkey * dval))
| ObjClass (c : surf_class).

(** [isinstance(o, openmc.<c>)]: only a surface object is an instance of a
    surface class. *)
Definition isinstance (o : pyobj) (c : surf_class) : bool :=
  match o with
  | ObjSurface s => surf_class_eqb (s_class s) c
  | _ => false
  end.

(** [a == b] between the values compared in the source: two strings by
    their text, two classes by identity; an object of one kind never equals
    an object of another kind (OpenMC's surfaces keep the default [==]). *)
Definition py_eq (a b : pyobj) : bool :=
  match a, b with
  | ObjStr s, ObjStr t => String.eqb s t
  | ObjClass c, ObjClass d => surf_class_eqb c d
  | _, _ => false
  end.

Definition obj_of_entry (e : surf_entry) : pyobj :=
  match e with
  | SEStr s => ObjStr s
  | SEObj o => ObjSurface o
  | SESubs od =>
      ObjDict (List.map (fun p => (KInt (fst p), DSurf (snd p))) od)
  end.

(** [v.id] *)
Definition id_of (v : dval) : result Z :=
  match v with
  | DSurf s =>
      match s_id s with
      | Some i => Ok i
      | None => Err (AttributeError "id")
      end
  | DStr _ => Err (AttributeError "id")
  end.

(** [v.boundary_type = b] *)
Definition assign_boundary_type (v : dval) (b : string) : result dval :=
  match v with
  | DSurf s => Ok (DSurf (set_s_boundary_type b s))
  | DStr _ => Err (AttributeError "boundary_type")
  end.

Definition in_nats (l : list nat) (i : nat) : bool :=
  List.existsb (Nat.eqb i) l.

(** [_get_subsurf_region_expr_helper]: the loop over
    [enumerate(subsurf_names)]. *)
Fixpoint _get_subsurf_region_expr_helper
         (i : nat) (subsurf_names : list Z) (subsurf_dict : list (Z * Surface))
         (match_pos_hs match_neg_hs : nat -> bool) (region_expr : string)
  : result string :=
  match subsurf_names with
  | [] => Ok region_expr
  | subsurf_name :: rest =>
      let? s := match List.find (fun p => Z.eqb (fst p) subsurf_name)
                                subsurf_dict with
                | Some p => Ok (snd p)
                | None => Err (KeyError (PyStr.of_int subsurf_name))
                end in
      let? subsurf_id := id_of (DSurf s) in
      if match_pos_hs i then
        _get_subsurf_region_expr_helper (S i) rest subsurf_dict
          match_pos_hs match_neg_hs
          (region_expr ++ "+" ++ PyStr.of_int subsurf_id ++ " ")
      else if match_neg_hs i then
        _get_subsurf_region_expr_helper (S i) rest subsurf_dict
          match_pos_hs match_neg_hs
          (region_expr ++ "-" ++ PyStr.of_int subsurf_id ++ " ")
      else
        Err (ValueError
               ("Bad index when creating csg "
                ++ "                             "
                ++ "expression for subsurfaces"))
  end.

(** [_get_subsurf_region_expr(subsurf_dict)]. The two lambdas are bound in
    the branches of the [if]; [None] below is the case where no branch bound
    them, and their use then raises [UnboundLocalError]. *)
Definition _get_subsurf_region_expr (subsurf_dict : list (Z * Surface))
  : result string :=
  let subsurf_names := List.map fst subsurf_dict in
  let n_surfs := List.length subsurf_dict in
  let? lambdas :=
    if (n_surfs =? 4)%nat then
      Ok (Some (in_nats [0; 2]%nat, in_nats [1; 3]%nat))
    else if (n_surfs =? 6)%nat then
      let? first := match subsurf_dict with
                    | p :: _ => Ok (snd p)
                    | [] => Err IndexError
                    end in
      if py_eq (ObjSurface first) (ObjClass XPlane) then
        Ok (Some (in_nats [0; 2; 3]%nat, in_nats [1; 4; 5]%nat))
      else if py_eq (ObjSurface first) (ObjClass YPlane) then
        Ok (Some (in_nats [0; 2; 5]%nat, in_nats [1; 4; 3]%nat))
      else Ok None
    else
      Err (ValueError ("There were too many "
                       ++ "                         "
                       ++ "subsurfaces in the region")) in
  match lambdas with
  | None => Err (UnboundLocalError "match_pos_hs")
  | Some (match_pos_hs, match_neg_hs) =>
      let? region_expr :=
        _get_subsurf_region_expr_helper 0 subsurf_names subsurf_dict
                                        match_pos_hs match_neg_hs "" in
      Ok ("(" ++ PyStr.drop_last region_expr ++ ")")
  end.

(** The boundary-condition branch for one entry [v] of the dictionary
    [surface_object] of an [outside] cell. The three [isinstance] tests are
    made on [surface_object], the dictionary. *)
Definition apply_boundary (n_bcs : Z) (surface_bc : list string)
           (surface_object : pyobj) (v : dval) : result dval :=
  if n_bcs =? 1 then
    let? b := py_index surface_bc 0 in assign_boundary_type v b
  else if n_bcs <=? 3 then
    if isinstance surface_object XPlane then
      let? b := py_index surface_bc 0 in assign_boundary_type v b
    else if isinstance surface_object YPlane then
      let? b := py_index surface_bc 1 in assign_boundary_type v b
    else if isinstance surface_object ZPlane then
      let? b := py_index surface_bc 2 in assign_boundary_type v b
    else Ok v
  else Ok v.

Fixpoint apply_boundary_all (n_bcs : Z) (surface_bc : list string)
         (surface_object : pyobj) (d : list (dkey * dval))
  : result (list (dkey * dval)) :=
  match d with
  | [] => Ok []
  | (k, v) :: rest =>
      let? v' := apply_boundary n_bcs surface_bc surface_object v in
      let? rest' := apply_boundary_all n_bcs surface_bc surface_object rest in
      Ok ((k, v') :: rest')
  end.

(** The surfaces of the dictionary, written back to the entry of
    [surf_dict] they are shared with. *)
Definition entry_of_dict (e : surf_entry) (d : list (dkey * dval))
  : surf_entry :=
  match e with
  | SESubs _ =>
      SESubs (List.flat_map
                (fun p => match p with
                          | (KInt i, DSurf s) => [(i, s)]
                          | _ => []
                          end) d)
  | SEObj _ =>
      match d with
      | [(_, DSurf s)] => SEObj s
      | _ => e
      end
  | SEStr _ => e
  end.

(** The loop that stores the surfaces in [cell_surface_dict]. *)
Fixpoint store_surfaces (d : list (dkey * dval))
         (cell_surface_dict : gmap Z Surface) : result (gmap Z Surface) :=
  match d with
  | [] => Ok cell_surface_dict
  | (_, v) :: rest =>
      let? s_id := id_of v in
      match v with
      | DSurf s => store_surfaces rest (<[s_id := s]> cell_surface_dict)
      | DStr _ => Err (AttributeError "id")
      end
  end.

(** The three dictionaries the first loop of the generic case fills. *)
Record cell_tables : Type := mkTables {
  cell_surface_dict : gmap Z Surface;
  surface_name_to_surface_id : gmap string string;
  subsurface_regions : gmap string (list (Z * Surface))
}.

(** One round of the first loop, for [surface_name]. *)
Definition collect_surface (cell_type : string) (surface_name : string)
           (t : cell_tables) : M cell_tables :=
  let! st := get in
  let! entry := lift (dict_get (surf_dict st) surface_name) in
  let has_subsurfaces :=
    match entry with SESubs _ => true | _ => false end in
  let subsurface_regions' :=
    match entry with
    | SESubs od => <[surface_name := od]> (subsurface_regions t)
    | _ => subsurface_regions t
    end in
  let d : list (dkey * dval) :=
    match entry with
    | SESubs od => List.map (fun p => (KInt (fst p), DSurf (snd p))) od
    | SEObj o => [(KStr surface_name, DSurf o)]
    | SEStr s => [(KStr surface_name, DStr s)]
    end in
  let! d :=
    if String.eqb cell_type "outside" then
      let! d' := lift (apply_boundary_all (n_bcs st) (surface_bc st)
                                          (ObjDict d) d) in
      modify (fun st' =>
                with_surf_dict
                  (<[surface_name := entry_of_dict entry d']> (surf_dict st'))
                  st') ;;;
      ret d'
    else ret d in
  let! csd := lift (store_surfaces d (cell_surface_dict t)) in
  let! sid :=
    if (has_subsurfaces : bool) then
      lift (_get_subsurf_region_expr
              (List.flat_map
                 (fun p => match p with
                           | (KInt i, DSurf s) => [(i, s)]
                           | _ => []
                           end) d))
    else
      let! v := lift (match d with
                      | [(_, v)] => Ok v
                      | _ => Err (KeyError surface_name)
                      end) in
      let! i := lift (id_of v) in
      ret (PyStr.of_int i) in
  ret (mkTables csd
                (<[surface_name := sid]> (surface_name_to_surface_id t))
                subsurface_regions').

Fixpoint collect_surfaces (cell_type : string) (surface_names : list string)
         (t : cell_tables) : M cell_tables :=
  match surface_names with
  | [] => ret t
  | surface_name :: rest =>
      let! t' := collect_surface cell_type surface_name t in
      collect_surfaces cell_type rest t'
  end.

(** The second loop: the names of the expression replaced by ids and by
    the expressions of the prisms. *)
Fixpoint substitute_names (surface_names : list string) (t : cell_tables)
         (csg_expression : string) : result string :=
  match surface_names with
  | [] => Ok csg_expression
  | surface_name :: rest =>
      let csg_expression :=
        match subsurface_regions t !! surface_name with
        | Some (_ :: _) =>
            let e := PyStr.replace csg_expression
                                   ("-" ++ surface_name) surface_name in
            PyStr.replace e ("+" ++ surface_name) ("~" ++ surface_name)
        | _ => csg_expression
        end in
      let? surf_id := dict_get (surface_name_to_surface_id t) surface_name in
      substitute_names rest t
                       (PyStr.replace csg_expression surface_name surf_id)
  end.

(** [construct_openmc_cell(cell_card, cell_card_splitter, cell_type)]: the
    tuple [(cell_object, cell_name, cell_fill_object, cell_region)]. *)
Definition construct_openmc_cell (cell_card : string)
           (cell_card_splitter : regex) (cell_type : string)
  : M (Cell * string * fill * option Region) :=
  let cell_data := PyStr.split cell_card in
  let! cell_name := lift (py_index cell_data 1) in
  let! cell_universe_name := lift (py_index cell_data 2) in
  add_cell_name_to_universe cell_universe_name cell_name ;;;
  let! cell_object := new_cell in
  let! cell_fill_object :=
    if String.eqb cell_type "outside" then ret FillNone
    else if String.eqb cell_type "material" then
      let! cell_fill_object_name := lift (py_index cell_data 3) in
      let! st := get in
      let! m := lift (dict_get (mat_dict st) cell_fill_object_name) in
      ret (FillMaterial m)
    else if String.eqb cell_type "fill" then
      let! filling_universe_name := lift (py_index cell_data 4) in
      let! st := get in
      (match universe_dict st !! filling_universe_name with
       | Some _ => ret tt
       | None =>
           if negb (String.eqb filling_universe_name (root_name st)) then
             let! u := new_universe filling_universe_name in
             modify (fun st' =>
                       with_universe_dict
                         (<[filling_universe_name := u]> (universe_dict st'))
                         st')
           else ret tt
       end) ;;;
      let! cell_fill_object_name := lift (py_index cell_data 4) in
      let! st := get in
      let! u := lift (dict_get (universe_dict st) cell_fill_object_name) in
      ret (FillUniverse u)
    else raise (ValueError ("cell_type: " ++ cell_type ++ " is erroneous")) in
  let csg_expression := Re.split_last cell_card_splitter cell_card in
  let surface_names := _strip_csg_operators csg_expression in
  let! null_region :=
    if String.eqb cell_type "material"
       && (List.length surface_names =? 1)%nat then
      let! n0 := lift (py_index surface_names 0) in
      let! st := get in
      let! entry := lift (dict_get (surf_dict st) n0) in
      ret (py_eq (obj_of_entry entry) (ObjStr "inf"))
    else ret false in
  if (null_region : bool) then
    let! mat_null_cell := new_cell in
    ret (mat_null_cell, cell_name, cell_fill_object, None)
  else
    let! t := collect_surfaces cell_type surface_names
                               (mkTables ∅ ∅ ∅) in
    let csg_expression :=
      PyStr.replace csg_expression "\s[a-zA-Z0-9]" "\s\+[a-zA-Z0-9]" in
    let csg_expression := PyStr.replace csg_expression ":" "|" in
    let csg_expression := PyStr.replace csg_expression "#" "~" in
    let! csg_expression :=
      lift (substitute_names surface_names t csg_expression) in
    ret (cell_object, cell_name, cell_fill_object,
         Some (mkRegion csg_expression (cell_surface_dict t))).

(* ===================================================================== *)
(** * numpy: the arrays of the lattice card *)
(* ===================================================================== *)

Module NpArr.

(** An array: its shape and its elements in row-major order. *)
Record ndarray (A : Type) : Type := mkArr {
  arr_shape : list Z;
  arr_data : list A
}.
Arguments mkArr {A} arr_shape arr_data.
Arguments arr_shape {A} n.
Arguments arr_data {A} n.

(** An item of the Python list [lat_univ_names]: a name taken from the
    card, or the list of the names of one continuation line. *)
Inductive item : Type :=
| Name (s : string)
| Row (l : list string).

Fixpoint all_names (l : list item) : option (list string) :=
  match l with
  | [] => Some []
  | Name s :: rest =>
      match all_names rest with
      | Some ns => Some (s :: ns)
      | None => None
      end
  | Row _ :: _ => None
  end.

(** The rows of a list of rows that all have [m] names. *)
Fixpoint all_rows (m : nat) (l : list item) : option (list string) :=
  match l with
  | [] => Some []
  | Row r :: rest =>
      if (List.length r =? m)%nat then
        match all_rows m rest with
        | Some ns => Some (r ++ ns)%list
        | None => None
        end
      else None
  | Name _ :: _ => None
  end.

(** [np.array(l)]: a vector for a list of strings, a matrix for a list of
    lists of one length; a list that mixes the two, or whose lists differ
    in length, has no array shape and [np.array] raises (numpy 1.24 and
    later). *)
Definition array (l : list item) : result (ndarray string) :=
  match all_names l with
  | Some ns => Ok (mkArr [Z.of_nat (List.length ns)] ns)
  | None =>
      match l with
      | Row r :: _ =>
          match all_rows (List.length r) l with
          | Some ns =>
              Ok (mkArr [Z.of_nat (List.length l);
                         Z.of_nat (List.length r)] ns)
          | None => Err (RaisedBy "numpy.array")
          end
      | _ => Err (RaisedBy "numpy.array")
      end
  end.

(** [np.reshape(a, (n0, n1))]: the elements are kept; the sizes must
    agree, where one dimension given as [-1] is inferred. *)
Definition reshape {A} (a : ndarray A) (n0 n1 : Z) : result (ndarray A) :=
  let size := Z.of_nat (List.length (arr_data a)) in
  if (0 <=? n0) && (0 <=? n1) then
    if n0 * n1 =? size then Ok (mkArr [n0; n1] (arr_data a))
    else Err (RaisedBy "numpy.reshape")
  else if (n0 =? -1) && (0 <? n1) && (size mod n1 =? 0) then
    Ok (mkArr [size / n1; n1] (arr_data a))
  else if (n1 =? -1) && (0 <? n0) && (size mod n0 =? 0) then
    Ok (mkArr [n0; size / n0] (arr_data a))
  else Err (RaisedBy "numpy.reshape").

(** The rows of a matrix with [c] columns. *)
Fixpoint rows {A} (r : nat) (c : nat) (data : list A) : list (list A) :=
  match r with
  | O => []
  | S r' => firstn c data :: rows r' c (skipn c data)
  end.

Definition rows_of {A} (a : ndarray A) : list (list A) :=
  match arr_shape a with
  | [r; c] => rows (Z.to_nat r) (Z.to_nat c) (arr_data a)
  | _ => []
  end.

(** [np.flip(a, axis=0)] of a matrix: its rows in reverse order. *)
Definition flip0 {A} (a : ndarray A) : ndarray A :=
  mkArr (arr_shape a) (List.concat (List.rev (rows_of a))).

(** [np.empty(shape, ...)]: every element is unset ([None] for an object
    array, an arbitrary number for a float array). A negative dimension
    raises. *)
Definition empty {A} (shape : list Z) : result (ndarray (option A)) :=
  if List.forallb (Z.leb 0) shape then
    Ok (mkArr shape
              (List.repeat None
                 (Z.to_nat (List.fold_right Z.mul 1 shape))))
  else Err (RaisedBy "numpy.empty").

Fixpoint insert_sorted (x : string) (l : list string) : list string :=
  match l with
  | [] => [x]
  | y :: l' =>
      match String.compare x y with
      | Lt => x :: l
      | Eq => l
      | Gt => y :: insert_sorted x l'
      end
  end.

(** [np.unique(a)]: the distinct elements in increasing order. *)
Definition unique (a : ndarray string) : list string :=
  List.fold_right insert_sorted [] (arr_data a).

(** [out[np.where(names == n)] = u] *)
Fixpoint assign_where {A} (names : list string) (n : string) (u : A)
         (out : list (option A)) : list (option A) :=
  match names, out with
  | m :: names', o :: out' =>
      (if String.eqb m n then Some u else o)
      :: assign_where names' n u out'
  | _, _ => out
  end.

End NpArr.

Import NpArr.

(* ===================================================================== *)
(** * Lattice registry *)
(* ===================================================================== *)

(** The [while] loop of [_get_lattice_universe_names]: [lines] are the
    lines of [geo_data] from the index [i] on, and the line at [i] is known
    to match. Reading [geo_data[i]] past the last line raises. *)
Fixpoint read_multiline_rows (lines : list string) : result (list item) :=
  match lines with
  | [] => Err IndexError
  | next_line :: rest =>
      match Re.search LAT_MULTILINE_REGEX next_line with
      | Some m =>
          let line_data := PyStr.split m in
          let? more := read_multiline_rows rest in
          Ok (Row line_data :: more)
      | None => Ok []
      end
  end.

(** [_get_lattice_universe_names(current_line_idx, lattice_args,
    lat_univ_index)] *)
Definition _get_lattice_universe_names (geo_data : list string)
           (current_line_idx : nat) (lattice_args : list string)
           (lat_univ_index : nat) : result (ndarray string) :=
  let? next_line := py_index geo_data (current_line_idx + 1) in
  let lat_multiline_match := Re.search LAT_MULTILINE_REGEX next_line in
  let lat_univ_names :=
    List.map Name (py_slice_from lattice_args lat_univ_index) in
  let? lat_univ_names :=
    match lat_multiline_match with
    | Some _ =>
        let? more :=
          read_multiline_rows (skipn (current_line_idx + 1) geo_data) in
        Ok (lat_univ_names ++ more)%list
    | None => Ok lat_univ_names
    end in
  NpArr.array lat_univ_names.

Definition parse_int (s : string) : result Z :=
  match PyStr.int s with
  | Some n => Ok n
  | None => Err (RaisedBy "int")
  end.

(** [float(l[i])] and [int(l[i])] *)
Definition read_float (l : list string) (i : nat) : result float :=
  let? a := py_index l i in PyFloat.parse a.

Definition read_int (l : list string) (i : nat) : result Z :=
  let? a := py_index l i in parse_int a.

(** [lattice_elements.index(Ncoord)] for the pair [(Nx, Ny)] *)
Definition pair_index (lattice_elements : Z * Z) (Ncoord : Z) : nat :=
  if fst lattice_elements =? Ncoord then 0%nat else 1%nat.

(** One round of the loop that fills [lattice_origin]. *)
Definition set_origin (lattice_elements : Z * Z)
           (lattice_pitch : float * float) (Ncoord : Z)
           (lattice_origin : list (option float))
  : result (list (option float)) :=
  let index := pair_index lattice_elements Ncoord in
  let? n := PyFloat.of_int Ncoord in
  let p := if (index =? 0)%nat then fst lattice_pitch
           else snd lattice_pitch in
  Ok (<[index := Some (n * 0.5 * p)%float]> lattice_origin).

(** The loop over [np.unique(lattice_universe_name_array)]. *)
Fixpoint fill_universes (universe_dict : gmap string Universe)
         (names : list string) (uniq : list string)
         (out : list (option Universe)) : result (list (option Universe)) :=
  match uniq with
  | [] => Ok out
  | n :: rest =>
      let? u := dict_get universe_dict n in
      fill_universes universe_dict names rest (assign_where names n u out)
  end.

(** [re.match("(1|2|3)", lattice_type)] and
    [re.match("(1|6|11)", lattice_type)] *)
Definition LAT_123 : regex := Alt (Lit "1") (Alt (Lit "2") (Lit "3")).
Definition LAT_1_6_11 : regex := Alt (Lit "1") (Alt (Lit "6") (Lit "11")).

Definition unsupported_type (lattice_type : string) : exn :=
  ValueError ("Type " ++ lattice_type
              ++ " lattices are currently unsupported").

Definition unsupported_lattice (lattice_type : string) : exn :=
  ValueError ("Unsupported lattice type: " ++ lattice_type).

(** [get_lattice_univ_array(lattice_type, lattice_args, current_line_idx)]:
    the triple [(lattice_origin, lattice_pitch, lattice_universe_array)].
    The function reads the globals [geo_data] and [universe_dict] and
    writes none. *)
Definition get_lattice_univ_array (st : State) (lattice_type : string)
           (lattice_args : list string) (current_line_idx : nat)
  : result (list (option float) * (float * float)
            * ndarray (option Universe)) :=
  let? x0 := read_float lattice_args 0 in
  let? y0 := read_float lattice_args 1 in
  if Re.matches_start LAT_123 lattice_type then
    let? Nx := read_int lattice_args 2 in
    let? Ny := read_int lattice_args 3 in
    let? pitch := read_float lattice_args 4 in
    let lat_univ_index := 8%nat in
    let lattice_elements := (Nx, Ny) in
    let lattice_pitch := (pitch, pitch) in
    let? lat_univ_names :=
      _get_lattice_universe_names (geo_data st) current_line_idx
                                  lattice_args lat_univ_index in
    let? lattice_universe_name_array :=
      NpArr.reshape lat_univ_names Nx Ny in
    if Re.matches_start LAT_1_6_11 lattice_type then
      let lattice_universe_name_array := flip0 lattice_universe_name_array in
      let lattice_origin : list (option float) := [None; None] in
      let? lattice_origin :=
        set_origin lattice_elements lattice_pitch Nx lattice_origin in
      let? lattice_origin :=
        set_origin lattice_elements lattice_pitch Ny lattice_origin in
      let? lattice_universe_array := NpArr.empty [Nx; Ny] in
      let? filled :=
        fill_universes (universe_dict st)
                       (arr_data lattice_universe_name_array)
                       (unique lattice_universe_name_array)
                       (arr_data lattice_universe_array) in
      Ok (lattice_origin, lattice_pitch,
          mkArr (arr_shape lattice_universe_array) filled)
    else Err (unsupported_lattice lattice_type)
  else Err (unsupported_type lattice_type).


(* ===================================================================== *)
(** * Definitions used in the statements *)
(* ===================================================================== *)

(** The state at the start of a translation: empty tables, the material
    table and the lines of the geometry file as supplied, the boundary
    entries and the root name as resolved, [n_bcs] their number, and
    OpenMC's id counters at 1. *)
Definition initial_state (mats : gmap string Material) (geo : list string)
           (bcs : list string) (root : string) : State :=
  mkState ∅ ∅ mats ∅ ∅ geo (Z.of_nat (List.length bcs)) bcs root 1 1 1.

(** The state after the surface cards [cards], in order; a card that raises
    leaves the state it reached. *)
Definition after_surfaces (cards : list string) (st : State) : State :=
  List.fold_left (fun s c => fst (construct_and_store_openmc_surface c s))
                 cards st.

Definition boundary_type_of (st : State) (name : string) : option string :=
  match surf_dict st !! name with
  | Some (SEObj o) => Some (s_boundary_type o)
  | _ => None
  end.

Definition sub_boundary_types (st : State) (name : string) : list string :=
  match surf_dict st !! name with
  | Some (SESubs od) => List.map (fun p => s_boundary_type (snd p)) od
  | _ => []
  end.

Definition sub_classes (st : State) (name : string) : list surf_class :=
  match surf_dict st !! name with
  | Some (SESubs od) => List.map (fun p => s_class (snd p)) od
  | _ => []
  end.

(** The four registries a cell card can touch are the same in two states. *)
Definition registries_unchanged (st st' : State) : Prop :=
  surf_dict st' = surf_dict st /\
  cell_dict st' = cell_dict st /\
  universe_dict st' = universe_dict st /\
  universe_to_cell_names_dict st' = universe_to_cell_names_dict st.

(** Three axis planes and a square prism. *)
Definition axis_surfaces : list string :=
  ["surf 1 px 1"; "surf 2 py 1"; "surf 3 pz 1"; "surf 10 sqc 0 0 5"].

Definition outside_card : string := "cell c9 0 outside 1 2 3 10".

Definition one_material : gmap string Material :=
  {[ "m1" := mkMaterial "m1" ]}.

(** A square prism named [10] (faces 1 to 4) and a hexagonal prism named
    [7] (faces 5 to 10). *)
Definition prism_state : State :=
  after_surfaces ["surf 10 sqc 0 0 5"; "surf 7 hexxc 0 0 5"]
                 (initial_state one_material [] ["vacuum"] "0").

Definition region_of (r : State * result (Cell * string * fill * option Region))
  : option string :=
  match snd r with
  | Ok (_, _, _, Some reg) => Some (r_expression reg)
  | _ => None
  end.

Definition forward_reference_state : State :=
  after_surfaces ["surf 1 px 1"]
                 (initial_state one_material [] ["vacuum"] "0").

Definition fill_of (r : State * result (Cell * string * fill * option Region))
  : option fill :=
  match snd r with
  | Ok (_, _, f, _) => Some f
  | Err _ => None
  end.

Definition nl : string := String "010" "".

(** Six universes [A] to [F], as registered before the lattice card. *)
Definition six_universes : gmap string Universe :=
  list_to_map [("A", mkUniverse 1 "A"); ("B", mkUniverse 2 "B");
               ("C", mkUniverse 3 "C"); ("D", mkUniverse 4 "D");
               ("E", mkUniverse 5 "E"); ("F", mkUniverse 6 "F")].

Definition lattice_state (geo : list string) : State :=
  mkState ∅ ∅ ∅ six_universes ∅ geo 1 ["vacuum"] "0" 1 7 1.

(** The card of the specification, [lat L 1 0 0 2 2 10 A B C D], followed
    by another card. *)
Definition inline_lattice : list string :=
  ["lat L 1 0 0 2 2 10 A B C D" ++ nl; "surf 1 px 1" ++ nl].

Definition inline_args : list string :=
  ["0"; "0"; "2"; "2"; "10"; "A"; "B"; "C"; "D"].

(** A card with 2 by 3 elements whose names follow on two lines. *)
Definition multiline_lattice : list string :=
  ["lat L 1 0 0 2 3 10" ++ nl; "A B C" ++ nl; "D E F" ++ nl; nl].

Definition multiline_args : list string := ["0"; "0"; "2"; "3"; "10"].

(** The same with 2 by 2 elements. *)
Definition square_lattice : list string :=
  ["lat L 1 0 0 2 2 10" ++ nl; "A B" ++ nl; "C D" ++ nl; nl].

Definition square_args : list string := ["0"; "0"; "2"; "2"; "10"].

(** A lattice of 2 by 3 elements laid out as the source dialect lays it
    out, in [Ny = 3] rows of [Nx = 2] names. *)
Definition rows_lattice : list string :=
  ["lat L 1 0 0 2 3 10" ++ nl; "A B" ++ nl; "C D" ++ nl; "E F" ++ nl; nl].


Definition shape_of {A B C} (r : result (A * B * ndarray C)) : option (list Z) :=
  match r with
  | Ok (_, _, a) => Some (arr_shape a)
  | Err _ => None
  end.

Definition origin_of {B C} (r : result (list (option float) * B * C))
  : option (list (option float)) :=
  match r with
  | Ok (o, _, _) => Some o
  | Err _ => None
  end.


(** The array in which the names in [done] are resolved and the others are
    unset. *)
Definition resolved (ud : gmap string Universe) (done : list string)
           (names : list string) : list (option Universe) :=
  List.map (fun m => if List.existsb (String.eqb m) done then ud !! m
                     else None) names.

(** The concatenation of a list of words. *)
Fixpoint sconcat (ws : list string) : string :=
  match ws with
  | [] => ""
  | w :: ws' => w ++ sconcat ws'
  end.

(** The words a pattern can match, where the position tests ([^] and the
    look-ahead) are left out. *)
Fixpoint Lang (r : regex) (w : string) : Prop :=
  match r with
  | Eps | Bol | NotAhead _ => w = ""
  | Chr p => exists c, w = String c "" /\ p c = true
  | Cat a b => exists u v, w = u ++ v /\ Lang a u /\ Lang b v
  | Alt a b => Lang a w \/ Lang b w
  | Rep a lo _ =>
      exists ws, w = sconcat ws /\ List.Forall (Lang a) ws
                 /\ (lo <= List.length ws)%nat
  end.

(** A matcher is sound for a set of words [P] when every success consumed
    one of them and went on with the continuation. *)
Definition sound (ma : nat -> string -> cont -> option nat)
           (P : string -> Prop) : Prop :=
  forall i s k e,
    ma i s k = Some e ->
    exists w t, s = w ++ t /\ P w /\ k (i + String.length w)%nat t = Some e.



(* ===================================================================== *)
(** * Definitions used in the further statements *)
(* ===================================================================== *)

(** Everything but the surface table and the surface id counter is the
    same in two states. *)
Definition same_but_surfaces (st st' : State) : Prop :=
  cell_dict st' = cell_dict st /\
  mat_dict st' = mat_dict st /\
  universe_dict st' = universe_dict st /\
  universe_to_cell_names_dict st' = universe_to_cell_names_dict st /\
  geo_data st' = geo_data st /\
  n_bcs st' = n_bcs st /\
  surface_bc st' = surface_bc st /\
  root_name st' = root_name st /\
  next_universe_id st' = next_universe_id st /\
  next_cell_id st' = next_cell_id st.

(** Case analysis on the innermost scrutinee of the goal. *)
Ltac break_match :=
  match goal with
  | |- context [match ?x with _ => _ end] =>
      lazymatch x with
      | context [match _ with _ => _ end] => fail
      | _ => destruct x eqn:?
      end
  end.


(** A computation keeps a property of the state, whether it returns or
    raises. *)
Definition preserves {A} (I : State -> Prop) (m : M A) : Prop :=
  forall st, I st -> I (fst (m st)).

(** [universe_dict[n] = openmc.Universe(name=n)], as the cell builder
    creates a placeholder. *)
Definition register_new_universe (n : string) : M unit :=
  let! u := new_universe n in
  modify (fun st' =>
            with_universe_dict (<[n := u]> (universe_dict st')) st').

(** Every registered universe object was created before the next id. *)
Definition universes_fresh (st : State) : Prop :=
  forall n u, universe_dict st !! n = Some u -> u_id u < next_universe_id st.

(** Every universe with member cells has a universe object. *)
Definition members_registered (st : State) : Prop :=
  forall n c cs,
    universe_to_cell_names_dict st !! n = Some (c :: cs) ->
    is_Some (universe_dict st !! n).

(** What a cell card never touches. *)
Definition cell_frame (st st' : State) : Prop :=
  cell_dict st' = cell_dict st /\
  mat_dict st' = mat_dict st /\
  geo_data st' = geo_data st /\
  n_bcs st' = n_bcs st /\
  surface_bc st' = surface_bc st /\
  root_name st' = root_name st /\
  next_surface_id st' = next_surface_id st /\
  dom (surf_dict st') = dom (surf_dict st) /\
  next_universe_id st <= next_universe_id st' /\
  next_cell_id st <= next_cell_id st'.

(** The member lists only grow, at their end. *)
Definition members_extended (st st' : State) : Prop :=
  forall n l,
    universe_to_cell_names_dict st !! n = Some l ->
    exists l', universe_to_cell_names_dict st' !! n = Some (l ++ l')%list.

(** The universes that have member cells keep their object. *)
Definition populated_universes_kept (st st' : State) : Prop :=
  forall n c cs,
    universe_to_cell_names_dict st !! n = Some (c :: cs) ->
    universe_dict st' !! n = universe_dict st !! n.

(** The state of the universe registry a translation keeps. *)
Definition registry_ok (st : State) : Prop :=
  universes_fresh st /\ members_registered st.

(** How the registry of [st'] continues the one of [st]. *)
Definition registry_grows (st st' : State) : Prop :=
  members_extended st st' /\ populated_universes_kept st st'.

(** The name is bound, in the surface table, to a surface object or to the
    faces of a prism (and not to the name of a surface type). *)
Definition bound_to_surface (st : State) (name : string) : Prop :=
  match surf_dict st !! name with
  | Some (SEObj _) | Some (SESubs _) => True
  | _ => False
  end.

(** The kind of an entry of the surface table: the name of a surface
    type, a surface object, or the faces of a prism. *)
Definition entry_kind (e : surf_entry) : nat :=
  match e with SEStr _ => 0 | SEObj _ => 1 | SESubs _ => 2 end.

(** The two tables bind the same names to entries of the same kind. *)
Definition same_kinds (st st' : State) : Prop :=
  forall n, option_map entry_kind (surf_dict st' !! n)
            = option_map entry_kind (surf_dict st !! n).

(** The characters of a string. *)
Definition chars (s : string) : list ascii := list_ascii_of_string s.

(** The characters [_strip_csg_operators] replaces by a space. *)
Definition csg_operators : list ascii := ["-"; ":"; "#"; "("; ")"]%char.

(** The state after the card [surf 1 inf]. *)
Definition inf_state : State :=
  after_surfaces ["surf 1 inf"] (initial_state one_material [] ["vacuum"] "0").

(** No character class of the pattern accepts [c]. *)
Fixpoint rejects (c : ascii) (r : regex) : bool :=
  match r with
  | Eps | Bol | NotAhead _ => true
  | Chr p => negb (p c)
  | Cat a b | Alt a b => rejects c a && rejects c b
  | Rep a _ _ => rejects c a
  end.

(** The boundary card a file without root card resolves to: the text
    matched on the last line that matches the pattern. *)
Definition last_bc_card (lines : list string) (bc_card : string) : string :=
  List.fold_left (fun bc line => match Re.search BC_REGEX line with
                                 | Some m => m
                                 | None => bc
                                 end) lines bc_card.



(** The card types whose OpenMC object carries no id of its own: the
    prisms and the boxes. *)
Definition composite_types : list string :=
  ["sqc"; "rect"; "hexxc"; "hexyc"; "cube"; "cuboid"].

(** The surface, or every face of the prism, has the boundary type [b]. *)
Definition entry_boundary (b : string) (e : surf_entry) : Prop :=
  match e with
  | SEObj o => s_boundary_type o = b
  | SESubs od => List.Forall (fun p => s_boundary_type (snd p) = b) od
  | SEStr _ => False
  end.

(** The name is bound to a surface, or to faces, of the boundary type
    [b]. *)
Definition name_boundary (st : State) (b name : string) : Prop :=
  match surf_dict st !! name with
  | Some e => entry_boundary b e
  | None => False
  end.

(* ===================================================================== *)
(** * Strings *)
(* ===================================================================== *)

Lemma string_append_assoc (a b c : string) :
  ((a ++ b) ++ c = a ++ (b ++ c))%string.
Proof.
  induction a as [|x a IH]; [reflexivity|].
  change (String x ((a ++ b) ++ c) = String x (a ++ (b ++ c)))%string.
  now rewrite IH.
Qed.

Lemma append_cons (c : ascii) (u v : string) :
  String c u ++ v = String c (u ++ v).
Proof. reflexivity. Qed.

Lemma append_nil_l (u : string) : "" ++ u = u.
Proof. reflexivity. Qed.

Lemma append_nil_r (u : string) : u ++ "" = u.
Proof.
  induction u as [|c u IH]; [reflexivity|]. now rewrite append_cons, IH.
Qed.

Lemma length_append (u v : string) :
  String.length (u ++ v) = (String.length u + String.length v)%nat.
Proof.
  induction u as [|c u IH]; [reflexivity|].
  rewrite append_cons. cbn [String.length]. now rewrite IH.
Qed.

(* ===================================================================== *)
(** * Regular expressions: what a match says about the matched text *)
(* ===================================================================== *)

Lemma rep_more_sound ma P k fuel :
  sound ma P ->
  forall room i s e,
    rep_more ma k fuel room i s = Some e ->
    exists ws t, s = sconcat ws ++ t /\ List.Forall P ws
                 /\ k (i + String.length (sconcat ws))%nat t = Some e.
Proof.
  intros Hma. induction fuel as [|fuel IH]; intros room i s e H;
    cbn [rep_more] in H.
  - exists [], s. cbn [sconcat String.length]. rewrite Nat.add_0_r. repeat split; try reflexivity; auto.
  - assert (Hstop : k i s = Some e ->
                    exists ws t, s = sconcat ws ++ t /\ List.Forall P ws
                      /\ k (i + String.length (sconcat ws))%nat t = Some e).
    { intros Hk. exists [], s. cbn [sconcat String.length].
      rewrite Nat.add_0_r. repeat split; try reflexivity; auto. }
    destruct (room_left room); [|auto].
    destruct (ma i s _) as [e'|] eqn:Hm; [|auto].
    injection H as ->.
    apply Hma in Hm as (w & t & -> & Hw & Hk).
    destruct (Nat.ltb i (i + String.length w)); [|discriminate Hk].
    apply IH in Hk as (ws & t' & -> & Hws & Hk).
    exists (w :: ws), t'. cbn [sconcat].
    rewrite string_append_assoc, length_append, Nat.add_assoc. auto.
Qed.

Lemma rep_need_sound ma P k n :
  sound ma P ->
  forall i s e,
    rep_need ma k n i s = Some e ->
    exists ws t, s = sconcat ws ++ t /\ List.Forall P ws
                 /\ List.length ws = n
                 /\ k (i + String.length (sconcat ws))%nat t = Some e.
Proof.
  intros Hma. induction n as [|n IH]; intros i s e H; cbn [rep_need] in H.
  - exists [], s. cbn [sconcat String.length]. rewrite Nat.add_0_r. repeat split; try reflexivity; auto.
  - apply Hma in H as (w & t & -> & Hw & Hk).
    apply IH in Hk as (ws & t' & -> & Hws & Hlen & Hk).
    exists (w :: ws), t'. cbn [sconcat List.length].
    rewrite string_append_assoc, length_append, Nat.add_assoc. auto.
Qed.

Lemma sconcat_app (a b : list string) :
  sconcat (a ++ b)%list = sconcat a ++ sconcat b.
Proof.
  induction a as [|w a IH]; [reflexivity|].
  cbn [sconcat app]. now rewrite IH, string_append_assoc.
Qed.

Lemma rmatch_sound (r : regex) : sound (rmatch r) (Lang r).
Proof.
  induction r as [| |p|a IHa b IHb|a IHa b IHb|a IHa lo hi|a IHa];
    intros i s k e H; cbn [rmatch Lang] in *.
  - exists "", s. cbn [String.length]. rewrite Nat.add_0_r. repeat split; try reflexivity; auto.
  - destruct (Nat.eqb i 0); [|discriminate H].
    exists "", s. cbn [String.length]. rewrite Nat.add_0_r. repeat split; try reflexivity; auto.
  - destruct s as [|c s]; [discriminate H|].
    destruct (p c) eqn:Hp; [|discriminate H].
    exists (String c ""), s. cbn [String.length].
    rewrite Nat.add_1_r. repeat split; [|exact H]. exists c. auto.
  - apply IHa in H as (u & t & -> & Hu & H).
    apply IHb in H as (v & t' & -> & Hv & H).
    exists (u ++ v), t'.
    rewrite string_append_assoc, length_append, Nat.add_assoc.
    repeat split; [|exact H]. exists u, v. auto.
  - destruct (rmatch a i s k) as [e'|] eqn:Ha.
    + injection H as ->. apply IHa in Ha as (w & t & ? & ? & ?).
      exists w, t. auto.
    + apply IHb in H as (w & t & ? & ? & ?). exists w, t. auto.
  - apply (rep_need_sound _ _ _ _ IHa) in H
      as (ws & t & -> & Hws & Hlen & H).
    apply (rep_more_sound _ _ _ _ IHa) in H as (ws' & t' & -> & Hws' & H).
    exists (sconcat (ws ++ ws')), t'. split; [|split].
    + now rewrite sconcat_app, string_append_assoc.
    + exists (ws ++ ws')%list. split; [reflexivity|]. split.
      * now apply Forall_app.
      * rewrite length_app. lia.
    + now rewrite sconcat_app, length_append, Nat.add_assoc.
  - destruct (rmatch a i s _); [discriminate H|].
    exists "", s. cbn [String.length]. rewrite Nat.add_0_r. repeat split; try reflexivity; auto.
Qed.

Lemma substring_0_append (w t : string) :
  String.substring 0 (String.length w) (w ++ t) = w.
Proof.
  induction w as [|c w IH].
  - cbn [String.length]. rewrite append_nil_l. destruct t; reflexivity.
  - rewrite append_cons. cbn [String.length String.substring]. now rewrite IH.
Qed.

(** A pattern that starts with [^] matches at offset 0 only, and the text
    [re.search] returns for it is a word of the pattern. *)
Lemma search_anchored (r : regex) (s m : string) :
  (forall i t, match_at r (S i) t = None) ->
  Re.search r s = Some m -> Lang r m.
Proof.
  intros Hanch. unfold Re.search.
  assert (Hlater : forall t i, search_from r (S i) t = None).
  { induction t as [|c t IH]; intros i; cbn [search_from];
      rewrite Hanch; [reflexivity|apply IH]. }
  assert (Hstep : search_from r 0 s
                  = match match_at r 0 s with
                    | Some e => Some (0%nat, e)
                    | None => None
                    end).
  { destruct s; cbn [search_from]; destruct (match_at r 0 _);
      try reflexivity. apply Hlater. }
  rewrite Hstep. destruct (match_at r 0 s) as [e|] eqn:Hm; [|discriminate].
  intros [= <-]. unfold match_at in Hm.
  apply rmatch_sound in Hm as (w & t & -> & Hw & [= <-]).
  cbn [Nat.add]. rewrite Nat.sub_0_r, substring_0_append. exact Hw.
Qed.

Lemma root_regex_anchored i t : match_at ROOT_REGEX (S i) t = None.
Proof. reflexivity. Qed.

Lemma bc_regex_anchored i t : match_at BC_REGEX (S i) t = None.
Proof. reflexivity. Qed.

Lemma search_anchored_prefix (r : regex) (s m : string) :
  (forall i t, match_at r (S i) t = None) ->
  Re.search r s = Some m -> exists t, s = m ++ t.
Proof.
  intros Hanch. unfold Re.search.
  assert (Hlater : forall t i, search_from r (S i) t = None).
  { induction t as [|c t IH]; intros i; cbn [search_from];
      rewrite Hanch; [reflexivity|apply IH]. }
  assert (Hstep : search_from r 0 s
                  = match match_at r 0 s with
                    | Some e => Some (0%nat, e)
                    | None => None
                    end).
  { destruct s; cbn [search_from]; destruct (match_at r 0 _);
      try reflexivity. apply Hlater. }
  rewrite Hstep. destruct (match_at r 0 s) as [e|] eqn:Hm; [|discriminate].
  intros [= <-]. unfold match_at in Hm.
  apply rmatch_sound in Hm as (w & t & -> & Hw & [= <-]).
  cbn [Nat.add]. rewrite Nat.sub_0_r, substring_0_append. now exists t.
Qed.




(* ===================================================================== *)
(** * The tokens of a root card *)
(* ===================================================================== *)









(* ===================================================================== *)
(** * Boundary conditions and root universe: properties *)
(* ===================================================================== *)


Lemma is_empty_false (s : string) : PyStr.is_empty s = false <-> s <> "".
Proof.
  destruct s; cbn; split; intros H; try reflexivity; try discriminate H;
    try (intros H'; discriminate H'). now contradiction H.
Qed.

(** Each card the scan returns is the start value or the text matched on
    one of the lines. *)
Lemma scan_cards_found (lines : list string) (bc0 rc0 : string) :
  let r := scan_cards lines bc0 rc0 in
  (fst r = bc0 \/
   exists line, In line lines /\ Re.search BC_REGEX line = Some (fst r)) /\
  (snd r = rc0 \/
   exists line, In line lines /\ Re.search ROOT_REGEX line = Some (snd r)).
Proof.
  revert bc0 rc0. induction lines as [|line rest IH]; intros bc0 rc0;
    cbn [scan_cards]; [cbn; auto|].
  assert (Hlater : forall bc1 rc1,
             (bc1 = bc0 \/ Re.search BC_REGEX line = Some bc1) ->
             (rc1 = rc0 \/ Re.search ROOT_REGEX line = Some rc1) ->
             let r := scan_cards rest bc1 rc1 in
             (fst r = bc0 \/
              exists l, In l (line :: rest)
                        /\ Re.search BC_REGEX l = Some (fst r)) /\
             (snd r = rc0 \/
              exists l, In l (line :: rest)
                        /\ Re.search ROOT_REGEX l = Some (snd r))).
  { intros bc1 rc1 Hb1 Hr1 r.
    destruct (IH bc1 rc1) as [Hb Hr]. fold r in Hb, Hr. split.
    - destruct Hb as [Hb|(l & Hl & Hb)].
      + rewrite Hb. destruct Hb1 as [Hb1|Hb1]; [left; exact Hb1|].
        right. exists line. split; [left; reflexivity|exact Hb1].
      + right. exists l. split; [right; exact Hl|exact Hb].
    - destruct Hr as [Hr|(l & Hl & Hr)].
      + rewrite Hr. destruct Hr1 as [Hr1|Hr1]; [left; exact Hr1|].
        right. exists line. split; [left; reflexivity|exact Hr1].
      + right. exists l. split; [right; exact Hl|exact Hr]. }
  assert (Hnow : forall bc1 rc1,
             (bc1 = bc0 \/ Re.search BC_REGEX line = Some bc1) ->
             (rc1 = rc0 \/ Re.search ROOT_REGEX line = Some rc1) ->
             (bc1 = bc0 \/
              exists l, In l (line :: rest)
                        /\ Re.search BC_REGEX l = Some bc1) /\
             (rc1 = rc0 \/
              exists l, In l (line :: rest)
                        /\ Re.search ROOT_REGEX l = Some rc1)).
  { intros bc1 rc1 Hb1 Hr1. split.
    - destruct Hb1 as [Hb1|Hb1]; [left; exact Hb1|].
      right. exists line. split; [left; reflexivity|exact Hb1].
    - destruct Hr1 as [Hr1|Hr1]; [left; exact Hr1|].
      right. exists line. split; [left; reflexivity|exact Hr1]. }
  destruct (Re.search BC_REGEX line) as [m|] eqn:Hbc.
  - destruct (negb (PyStr.is_empty rc0) && negb (PyStr.is_empty m));
      [apply Hnow|apply Hlater]; auto.
  - destruct (Re.search ROOT_REGEX line) as [m|] eqn:Hroot.
    + destruct (negb (PyStr.is_empty m) && negb (PyStr.is_empty bc0));
        [apply Hnow|apply Hlater]; auto.
    + destruct (negb (PyStr.is_empty rc0) && negb (PyStr.is_empty bc0));
        [apply Hnow|apply Hlater]; auto.
Qed.


Lemma scan_cards_no_root (lines : list string) (bc0 rc0 : string) :
  (forall line, In line lines -> Re.search ROOT_REGEX line = None) ->
  snd (scan_cards lines bc0 rc0) = rc0.
Proof.
  intros Hno. destruct (scan_cards_found lines bc0 rc0) as [_ [H|H]]; [exact H|].
  destruct H as (line & Hin & Hs). rewrite (Hno line Hin) in Hs. discriminate Hs.
Qed.

















(* ===================================================================== *)
(** * Surface builder: properties *)
(* ===================================================================== *)

Section PlaneCard.

Local Open Scope float_scope.

(** The normal and the offset the branch computes for the points
    (1,0,0), (0,1,0), (0,0,1). *)
Lemma plane_normal_example :
  Np.cross (Np.sub [0; 1; 0] [1; 0; 0]) (Np.sub [0; 0; 1] [1; 0; 0])
  = Ok [1; 1; 1]
  /\ Np.dot [1; 1; 1] (Np.neg [1; 0; 0]) = Np.Scalar (-1).
Proof. split; vm_compute; reflexivity. Qed.

(** [np.dot] of two vectors is a scalar, and indexing it raises, whatever
    the nine parameters are. *)
Lemma plane_from_points_raises (surf_params : list float) :
  List.length surf_params = 9%nat ->
  plane_from_points surf_params = Err IndexError.
Proof.
  intros Hlen.
  do 10 (destruct surf_params as [|? surf_params]; try discriminate).
  reflexivity.
Qed.

End PlaneCard.

(** C5 (the code differs): a [plane] card with the nine parameters of the
    points (1,0,0), (0,1,0), (0,0,1) is not reduced to four coefficients:
    the normal (1,1,1) is computed, the offset [np.dot(n, n0)] is the scalar
    -1, and the index [[0]] applied to it raises [IndexError]; nothing is
    stored in the surface table. *)
Theorem plane_card_three_points_raises :
  let st := initial_state ∅ [] ["vacuum"] "0" in
  let r := construct_and_store_openmc_surface
             "surf P plane 1 0 0 0 1 0 0 0 1" st in
  snd r = Err IndexError /\ surf_dict (fst r) !! "P" = None.
Proof. split; vm_compute; reflexivity. Qed.

(** The derivation raises for every name [int] rejects. *)
Lemma surface_id_of_name_not_int (surf_name : string) :
  PyStr.int surf_name = None ->
  surface_id_of_name surf_name = Err (RaisedBy "int.from_bytes").
Proof. intros H. unfold surface_id_of_name. rewrite H. reflexivity. Qed.

(** The derivation is the integer for every name [int] accepts. *)
Lemma surface_id_of_name_int (surf_name : string) (n : Z) :
  PyStr.int surf_name = Some n -> surface_id_of_name surf_name = Ok n.
Proof. intros H. unfold surface_id_of_name. rewrite H. reflexivity. Qed.

(** C9 (the code differs): for a prism, whose object carries no id, a name
    that is an integer literal gives that integer as the id source and the
    card is stored; a name that is not ([sq1]) reaches
    [int.from_bytes(..., 'litle')], whose byte order is neither ['little']
    nor ['big'], and the call raises: no id is derived and nothing is
    stored. *)
Theorem surface_id_of_text_name_raises :
  let st := initial_state ∅ [] ["vacuum"] "0" in
  let r := construct_and_store_openmc_surface "surf sq1 sqc 0 0 5" st in
  surface_id_of_name "10" = Ok 10 /\
  surface_id_of_name "sq1" = Err (RaisedBy "int.from_bytes") /\
  snd r = Err (RaisedBy "int.from_bytes") /\
  surf_dict (fst r) !! "sq1" = None.
Proof. repeat split; vm_compute; reflexivity. Qed.

(* ===================================================================== *)
(** * Outside cells: properties *)
(* ===================================================================== *)

(** With a single boundary entry the branch [n_bcs == 1] gives that entry
    to every surface of the cell, faces of a prism included. *)
Lemma outside_cell_single_bc :
  let st := after_surfaces axis_surfaces
              (initial_state ∅ [] ["reflective"] "0") in
  let r := construct_openmc_cell outside_card CELL_REGEX3_CORE "outside" st in
  is_ok (snd r) = true /\
  List.map (boundary_type_of (fst r)) ["1"; "2"; "3"]
  = [Some "reflective"; Some "reflective"; Some "reflective"] /\
  sub_boundary_types (fst r) "10"
  = ["reflective"; "reflective"; "reflective"; "reflective"].
Proof. repeat split; vm_compute; reflexivity. Qed.

(** The tests [isinstance(surface_object, openmc.XPlane)] of the branch
    [n_bcs <= 3] are made on a dictionary and fail: no entry is changed. *)
Lemma apply_boundary_2_3_unchanged (n : Z) (bcs : list string)
      (d : list (dkey * dval)) (v : dval) :
  n <> 1 -> apply_boundary n bcs (ObjDict d) v = Ok v.
Proof.
  intros Hn. unfold apply_boundary.
  destruct (Z.eqb_spec n 1) as [->|_]; [contradiction|].
  destruct (n <=? 3); reflexivity.
Qed.

(** C4 (the code differs): after the boundary card [set bc 2 2 1] has
    resolved to the three entries reflective, reflective, vacuum, an outside
    cell over an x plane, a y plane, a z plane and a square prism is built
    without error and no boundary type is assigned: every plane and every
    face of the prism keeps OpenMC's default [transmission]. And a card that
    resolves to four entries ([set bc 2 2 1 1]) raises nothing either. *)
Theorem outside_cell_three_bcs_assigns_nothing :
  let bcs := ["reflective"; "reflective"; "vacuum"] in
  let st := after_surfaces axis_surfaces (initial_state ∅ [] bcs "0") in
  let r := construct_openmc_cell outside_card CELL_REGEX3_CORE "outside" st in
  let bcs4 := ["reflective"; "reflective"; "vacuum"; "vacuum"] in
  let st4 := after_surfaces axis_surfaces (initial_state ∅ [] bcs4 "0") in
  let r4 :=
    construct_openmc_cell outside_card CELL_REGEX3_CORE "outside" st4 in
  get_boundary_conditions_and_root ["set bc 2 2 1"] = Ok (bcs, "0") /\
  n_bcs st = 3 /\
  is_ok (snd r) = true /\
  List.map (boundary_type_of (fst r)) ["1"; "2"; "3"]
  = [Some "transmission"; Some "transmission"; Some "transmission"] /\
  sub_classes (fst r) "10" = [XPlane; XPlane; YPlane; YPlane] /\
  sub_boundary_types (fst r) "10"
  = ["transmission"; "transmission"; "transmission"; "transmission"] /\
  get_boundary_conditions_and_root ["set bc 2 2 1 1"] = Ok (bcs4, "0") /\
  n_bcs st4 = 4 /\
  is_ok (snd r4) = true.
Proof. repeat split; vm_compute; reflexivity. Qed.

(* ===================================================================== *)
(** * Composite surfaces in cell expressions: properties *)
(* ===================================================================== *)

(** The sign table of four faces, and the leading [-] of the name. *)
Lemma square_prism_region :
  region_of (construct_openmc_cell "cell c1 0 m1 -10" CELL_REGEX1_CORE
                                   "material" prism_state)
  = Some " (+1 -2 +3 -4)".
Proof. vm_compute. reflexivity. Qed.

(** With four faces the expression signs the faces [+ - + -], whatever the
    faces are. *)
Lemma region_expr_four (i0 i1 i2 i3 : Z) (s0 s1 s2 s3 : Surface) :
  s_id s0 = Some i0 -> s_id s1 = Some i1 ->
  s_id s2 = Some i2 -> s_id s3 = Some i3 ->
  List.NoDup [i0; i1; i2; i3] ->
  _get_subsurf_region_expr [(i0, s0); (i1, s1); (i2, s2); (i3, s3)]
  = Ok ("(" ++ PyStr.drop_last
                 ("+" ++ PyStr.of_int i0 ++ " " ++
                  "-" ++ PyStr.of_int i1 ++ " " ++
                  "+" ++ PyStr.of_int i2 ++ " " ++
                  "-" ++ PyStr.of_int i3 ++ " ") ++ ")").
Proof.
  intros H0 H1 H2 H3 Hnd.
  assert (Hne : i0 <> i1 /\ i0 <> i2 /\ i0 <> i3 /\ i1 <> i2 /\ i1 <> i3
                /\ i2 <> i3).
  { apply NoDup_cons_iff in Hnd as [Ha Hnd].
    apply NoDup_cons_iff in Hnd as [Hb Hnd].
    apply NoDup_cons_iff in Hnd as [Hc _].
    cbn [In] in Ha, Hb, Hc. intuition congruence. }
  destruct Hne as (n01 & n02 & n03 & n12 & n13 & n23).
  unfold _get_subsurf_region_expr.
  cbn [List.length Nat.eqb rbind List.map fst].
  cbn [_get_subsurf_region_expr_helper List.find fst snd].
  rewrite !Z.eqb_refl.
  repeat match goal with
         | |- context [Z.eqb ?a ?b] =>
             destruct (Z.eqb_spec a b); [congruence|]
         end.
  cbn [rbind id_of snd]. rewrite H0. cbn [rbind in_nats List.existsb Nat.eqb orb].
  rewrite H1. cbn [rbind in_nats List.existsb Nat.eqb orb].
  rewrite H2. cbn [rbind in_nats List.existsb Nat.eqb orb].
  rewrite H3. cbn [rbind in_nats List.existsb Nat.eqb orb].
  rewrite !string_append_assoc. reflexivity.
Qed.

(** With six faces neither comparison of the first face with a class holds,
    the two lambdas stay unbound, and the function raises. *)
Lemma region_expr_six_raises (od : list (Z * Surface)) :
  List.length od = 6%nat ->
  _get_subsurf_region_expr od = Err (UnboundLocalError "match_pos_hs").
Proof.
  intros Hlen.
  do 7 (destruct od as [|? od]; try discriminate).
  reflexivity.
Qed.

(** C6 (the code differs): the hexagonal prism [7] has six faces, the first
    an x plane; a cell that names it raises [UnboundLocalError] instead of
    signing the faces by one of the two partitions. And a leading [+] is
    not stripped from the names of the expression: [+10] is looked up as a
    surface name and raises [KeyError] instead of being replaced by the
    complement of the prism's expression. *)
Theorem hexagonal_prism_cell_raises :
  sub_classes prism_state "7"
  = [XPlane; XPlane; Plane; Plane; Plane; Plane] /\
  snd (construct_openmc_cell "cell c1 0 m1 -7" CELL_REGEX1_CORE "material"
                             prism_state)
  = Err (UnboundLocalError "match_pos_hs") /\
  _strip_csg_operators " +10" = ["+10"] /\
  snd (construct_openmc_cell "cell c1 0 m1 +10" CELL_REGEX1_CORE "material"
                             prism_state)
  = Err (KeyError "+10").
Proof. repeat split; vm_compute; reflexivity. Qed.

(* ===================================================================== *)
(** * Universe registry: properties *)
(* ===================================================================== *)

(** A universe without member cells so far gets a new universe object when
    its first cell is added, whether or not one is registered already. *)
Lemma add_cell_name_to_universe_new_object (st : State)
      (univ_name cell_name : string) :
  universe_to_cell_names_dict st !! univ_name = None ->
  universe_dict (fst (add_cell_name_to_universe univ_name cell_name st))
    !! univ_name
  = Some (mkUniverse (next_universe_id st) univ_name).
Proof.
  intros Hnone. unfold add_cell_name_to_universe, bind, get.
  rewrite Hnone. cbn. apply lookup_insert_eq.
Qed.

(** A universe with member cells keeps its object. *)
Lemma add_cell_name_to_universe_keeps_object (st : State)
      (univ_name cell_name c : string) (cs : list string) :
  universe_to_cell_names_dict st !! univ_name = Some (c :: cs) ->
  universe_dict (fst (add_cell_name_to_universe univ_name cell_name st))
  = universe_dict st.
Proof.
  intros Hsome. unfold add_cell_name_to_universe, bind, get.
  rewrite Hsome. reflexivity.
Qed.

(** C7 (the code differs): the universe [U5] is first named as the fill of
    the cell [c1]; a placeholder (universe object 2) is created, registered
    and used as the fill of [c1]. When the first cell of [U5] is parsed,
    [add_cell_name_to_universe] finds no member list for [U5] and registers
    a new universe object (3) under the name: the registered object is no
    longer the placeholder that [c1] is filled with. *)
Theorem forward_reference_replaces_placeholder :
  let r1 := construct_openmc_cell "cell c1 0 fill U5 -1" CELL_REGEX2_CORE
                                  "fill" forward_reference_state in
  let r2 := construct_openmc_cell "cell c2 U5 m1 -1" CELL_REGEX1_CORE
                                  "material" (fst r1) in
  universe_dict forward_reference_state !! "U5" = None /\
  fill_of r1 = Some (FillUniverse (mkUniverse 2 "U5")) /\
  universe_dict (fst r1) !! "U5" = Some (mkUniverse 2 "U5") /\
  is_ok (snd r2) = true /\
  universe_dict (fst r2) !! "U5" = Some (mkUniverse 3 "U5").
Proof. repeat split; vm_compute; reflexivity. Qed.

(* ===================================================================== *)
(** * Material cells with an unknown material *)
(* ===================================================================== *)

(** The card [cell C1 U1 M1 -S1 S2] with an empty material table: the
    lookup of [M1] raises, and the universe registry has changed by then. *)
Lemma material_cell_unknown_material_counterexample :
  let st := initial_state ∅ [] ["vacuum"] "0" in
  let r := construct_openmc_cell "cell C1 U1 M1 -S1 S2" CELL_REGEX1_CORE
                                 "material" st in
  snd r = Err (KeyError "M1") /\ ~ registries_unchanged st (fst r).
Proof.
  split; [vm_compute; reflexivity|].
  intros (_ & _ & _ & H).
  apply (f_equal (fun d => d !! "U1")) in H.
  vm_compute in H. discriminate H.
Qed.

(** C1 (amended): a material cell card that names a material absent from
    the material table raises [KeyError] on that name; the surface, cell and
    material tables are as before; the universe registry is not: the state
    is the one [add_cell_name_to_universe] and the creation of the cell
    object leave, in which the cell name is the last member of the card's
    universe. *)
Theorem material_cell_unknown_material (st : State) (cell_card : string)
        (cell_card_splitter : regex) (w cell_name univ_name mat : string)
        (rest : list string) :
  PyStr.split cell_card = w :: cell_name :: univ_name :: mat :: rest ->
  mat_dict st !! mat = None ->
  let r := construct_openmc_cell cell_card cell_card_splitter "material" st in
  snd r = Err (KeyError mat) /\
  surf_dict (fst r) = surf_dict st /\
  cell_dict (fst r) = cell_dict st /\
  mat_dict (fst r) = mat_dict st /\
  fst r = with_next_cell_id
            (next_cell_id st + 1)
            (fst (add_cell_name_to_universe univ_name cell_name st)) /\
  universe_to_cell_names_dict (fst r) !! univ_name
  = Some (match universe_to_cell_names_dict st !! univ_name with
          | Some cells => cells
          | None => []
          end ++ [cell_name])%list.
Proof.
  intros Hsplit Hmat r. subst r.
  unfold construct_openmc_cell. rewrite Hsplit.
  unfold add_cell_name_to_universe, bind, lift, get, modify, new_universe,
    new_cell, ret, raise, dict_get.
  cbn [py_index nth_error fst snd].
  destruct (universe_to_cell_names_dict st !! univ_name) as [[|c cs]|] eqn:Hu;
    cbn; rewrite Hmat; cbn; rewrite ?Hu;
    repeat split; try reflexivity; apply lookup_insert_eq.
Qed.

(** The statement above at the card [cell C1 U1 M1 -S1 S2]. *)
Lemma material_cell_unknown_material_witness :
  let st := initial_state ∅ [] ["vacuum"] "0" in
  let r := construct_openmc_cell "cell C1 U1 M1 -S1 S2" CELL_REGEX1_CORE
                                 "material" st in
  snd r = Err (KeyError "M1") /\
  universe_to_cell_names_dict (fst r) !! "U1" = Some ["C1"].
Proof.
  intros st r.
  destruct (material_cell_unknown_material
              st "cell C1 U1 M1 -S1 S2" CELL_REGEX1_CORE
              "cell" "C1" "U1" "M1" ["-S1"; "S2"])
    as (He & _ & _ & _ & _ & Hu).
  - vm_compute. reflexivity.
  - vm_compute. reflexivity.
  - split; [exact He | exact Hu].
Defined.


(* ===================================================================== *)
(** * Lattice cards: the kinds *)
(* ===================================================================== *)



















(* ===================================================================== *)
(** * Lattice cards: the square lattice *)
(* ===================================================================== *)

Lemma rows_concat {A} (r c : nat) (data : list A) :
  List.length data = (r * c)%nat ->
  List.concat (rows r c data) = data.
Proof.
  revert data. induction r as [|r IH]; intros data Hlen; cbn [rows List.concat].
  - destruct data; [reflexivity|discriminate Hlen].
  - rewrite IH.
    + apply firstn_skipn.
    + rewrite length_skipn. lia.
Qed.

Lemma length_concat_rev {A} (l : list (list A)) :
  List.length (List.concat (List.rev l)) = List.length (List.concat l).
Proof.
  induction l as [|x l IH]; [reflexivity|].
  cbn [List.rev List.concat]. rewrite concat_app, !length_app, IH.
  cbn [List.concat]. rewrite app_nil_r. lia.
Qed.

Lemma in_insert_sorted (x y : string) (l : list string) :
  In x (insert_sorted y l) <-> x = y \/ In x l.
Proof.
  induction l as [|z l IH]; cbn [insert_sorted In]; [intuition congruence|].
  destruct (String.compare y z) eqn:Hc; cbn [In].
  - apply String.compare_eq_iff in Hc. subst z. intuition congruence.
  - intuition congruence.
  - rewrite IH. intuition congruence.
Qed.

Lemma in_unique (a : ndarray string) (x : string) :
  In x (unique a) <-> In x (arr_data a).
Proof.
  unfold unique. induction (arr_data a) as [|y l IH];
    cbn [List.fold_right In]; [tauto|].
  rewrite in_insert_sorted, IH. intuition congruence.
Qed.

Lemma assign_where_resolved ud done names n u :
  ud !! n = Some u ->
  assign_where names n u (resolved ud done names)
  = resolved ud (n :: done) names.
Proof.
  intros Hn. induction names as [|m names IH]; [reflexivity|].
  unfold resolved in *. cbn [List.map assign_where List.existsb].
  rewrite IH. f_equal.
  destruct (String.eqb_spec m n) as [->|Hne]; cbn [orb]; [now rewrite Hn|].
  reflexivity.
Qed.

Lemma fill_universes_resolved ud names uniq done :
  (forall n, In n uniq -> is_Some (ud !! n)) ->
  fill_universes ud names uniq (resolved ud done names)
  = Ok (resolved ud (List.rev uniq ++ done) names).
Proof.
  revert done. induction uniq as [|n uniq IH]; intros done Hall;
    cbn [fill_universes List.rev]; [reflexivity|].
  destruct (Hall n (or_introl eq_refl)) as [u Hu].
  unfold dict_get. rewrite Hu. cbn [rbind].
  rewrite (assign_where_resolved _ _ _ _ _ Hu), IH.
  - now rewrite <- app_assoc.
  - intros m Hm. apply Hall. now right.
Qed.

Lemma resolved_all ud done names :
  (forall m, In m names -> In m done) ->
  resolved ud done names = List.map (fun m => ud !! m) names.
Proof.
  intros Hall. unfold resolved. apply map_ext_in. intros m Hm.
  destruct (List.existsb (String.eqb m) done) eqn:He; [reflexivity|].
  exfalso. assert (Ht : List.existsb (String.eqb m) done = true).
  { apply existsb_exists. exists m. split; [now apply Hall|].
    apply String.eqb_refl. }
  congruence.
Qed.

Lemma resolved_nil ud names :
  resolved ud [] names = List.repeat None (List.length names).
Proof.
  unfold resolved. induction names as [|m names IH]; [reflexivity|].
  cbn [List.map List.length List.repeat]. rewrite IH. reflexivity.
Qed.

Lemma fill_universes_all ud (a : ndarray string) :
  (forall n, In n (arr_data a) -> is_Some (ud !! n)) ->
  fill_universes ud (arr_data a) (unique a)
                 (List.repeat None (List.length (arr_data a)))
  = Ok (List.map (fun m => ud !! m) (arr_data a)).
Proof.
  intros Hall. rewrite <- (resolved_nil ud), fill_universes_resolved.
  - f_equal. apply resolved_all. intros m Hm.
    rewrite app_nil_r, <- in_rev. now apply in_unique.
  - intros n Hn. apply Hall. now apply in_unique.
Qed.







Section SquareLattice.

Local Open Scope float_scope.


End SquareLattice.

(* ===================================================================== *)
(** * Lattice cards: the kinds and the card of the specification *)
(* ===================================================================== *)


Section LatticeKinds.

Local Open Scope float_scope.


(** C2 (the code differs): the card of the specification,
    [lat L 1 0 0 2 2 10 A B C D], raises: the names are read from index 8
    of the arguments, a single name is found, and the reshape to (2, 2)
    fails. With the names on continuation lines the same card returns an
    origin whose second component is never set: with equal element counts
    the second round of the origin loop finds index 0 again. And a card of
    [Nx = 2] by [Ny = 3] elements, laid out in three rows of two names, is
    reshaped to (Nx, Ny) = (2, 3) and not to (Ny, Nx): the rows of the
    result, [D E F] and [A B C], are not the rows of the card in reverse
    order. *)
Theorem square_lattice_card_diverges :
  get_lattice_univ_array (lattice_state inline_lattice) "1" inline_args 0
  = Err (RaisedBy "numpy.reshape") /\
  origin_of (get_lattice_univ_array (lattice_state square_lattice) "1"
                                    square_args 0)
  = Some [Some 10; None] /\
  get_lattice_univ_array (lattice_state rows_lattice) "1" multiline_args 0
  = Ok ([Some 10; Some 15], (10, 10),
        mkArr [2; 3]%Z
              [Some (mkUniverse 4 "D"); Some (mkUniverse 5 "E");
               Some (mkUniverse 6 "F"); Some (mkUniverse 1 "A");
               Some (mkUniverse 2 "B"); Some (mkUniverse 3 "C")]).
Proof. repeat split; vm_compute; reflexivity. Qed.

End LatticeKinds.

(* ===================================================================== *)
(** * The state monad: what a computation keeps, what a result tells *)
(* ===================================================================== *)

Lemma preserves_ret {A} I (a : A) : preserves I (ret a).
Proof. intros st H. exact H. Qed.

Lemma preserves_raise {A} I e : preserves I (@raise A e).
Proof. intros st H. exact H. Qed.

Lemma preserves_lift {A} I (r : result A) : preserves I (lift r).
Proof. intros st H. exact H. Qed.

Lemma preserves_get I : preserves I get.
Proof. intros st H. exact H. Qed.

Lemma preserves_bind {A B} I (m : M A) (f : A -> M B) :
  preserves I m -> (forall a, preserves I (f a)) -> preserves I (bind m f).
Proof.
  intros Hm Hf st H. unfold bind. specialize (Hm st H).
  destruct (m st) as [st' [a|e]]; cbn [fst] in *; [now apply Hf|exact Hm].
Qed.

Lemma bind_at {A B} (I : State -> Prop) (m : M A) (f : A -> M B)
      (st : State) :
  I (fst (m st)) -> (forall a, preserves I (f a)) -> I (fst (bind m f st)).
Proof.
  intros Hm Hf. unfold bind.
  destruct (m st) as [st' [a|e]]; cbn [fst] in *; [now apply Hf|exact Hm].
Qed.

Lemma preserves_bind_get {B} I (f : State -> M B) :
  (forall st, I st -> I (fst (f st st))) -> preserves I (bind get f).
Proof. intros Hf st H. unfold bind, get. now apply Hf. Qed.

Lemma preserves_modify I (f : State -> State) :
  (forall st, I st -> I (f st)) -> preserves I (modify f).
Proof. intros Hf st H. now apply Hf. Qed.

Lemma preserves_openmc_call (I : State -> Prop) c args :
  (forall n s, I s -> I (with_next_surface_id n s)) ->
  preserves I (openmc_call c args).
Proof.
  intros H s Hs. unfold openmc_call.
  destruct (accepts c args); cbn [fst]; [now apply H|exact Hs].
Qed.

Lemma bind_ok_inv {A B} (m : M A) (k : A -> M B) (st st' : State) (b : B) :
  bind m k st = (st', Ok b) ->
  exists st1 a, m st = (st1, Ok a) /\ k a st1 = (st', Ok b).
Proof.
  unfold bind. destruct (m st) as [st1 [a|e]]; [eauto|discriminate].
Qed.

Lemma lift_ok_inv {A} (r : result A) (st st' : State) (a : A) :
  lift r st = (st', Ok a) -> st' = st /\ r = Ok a.
Proof. unfold lift. intros H. injection H as <- <-. auto. Qed.

Lemma ret_ok_inv {A} (x : A) (st st' : State) (a : A) :
  ret x st = (st', Ok a) -> st' = st /\ a = x.
Proof. unfold ret. intros H. injection H as <- <-. auto. Qed.

Lemma get_ok_inv (st st' a : State) :
  get st = (st', Ok a) -> st' = st /\ a = st.
Proof. unfold get. intros H. injection H as <- <-. auto. Qed.

Lemma rbind_ok_inv {A B} (r : result A) (f : A -> result B) (b : B) :
  rbind r f = Ok b -> exists a, r = Ok a /\ f a = Ok b.
Proof. destruct r as [a|e]; cbn [rbind]; [eauto|discriminate]. Qed.

(* ===================================================================== *)
(** * Surface cards: frame and stored entries *)
(* ===================================================================== *)

(** A surface card touches nothing but the surface table and the surface
    id counter. *)
Lemma surface_card_same_but_surfaces (surf_card : string) (st : State) :
  same_but_surfaces st (fst (construct_and_store_openmc_surface surf_card st)).
Proof.
  unfold construct_and_store_openmc_surface, bind, lift, ret, raise, modify,
    openmc_call, same_but_surfaces.
  repeat (break_match; cbn [fst snd]);
    repeat match goal with
           | H : (_, _) = (_, _) |- _ => injection H as <- <-
           end;
    cbn [fst snd cell_dict mat_dict universe_dict
         universe_to_cell_names_dict geo_data n_bcs surface_bc root_name
         next_universe_id next_cell_id
         with_surf_dict with_next_surface_id];
    repeat split; reflexivity.
Qed.

(** The surface id counter never goes back, and a card that raises leaves
    the surface table as it was. *)
Lemma surface_card_effect (surf_card : string) (st : State) :
  let r := construct_and_store_openmc_surface surf_card st in
  same_but_surfaces st (fst r) /\
  next_surface_id st <= next_surface_id (fst r) /\
  (is_ok (snd r) = false ->
   surf_dict (fst r) = surf_dict st).
Proof.
  unfold construct_and_store_openmc_surface, bind, lift, ret, raise, modify,
    openmc_call, same_but_surfaces.
  repeat (break_match; cbn [fst snd is_ok]);
    repeat match goal with
           | H : (_, _) = (_, _) |- _ => injection H as <- <-
           end;
    cbn [fst snd is_ok cell_dict mat_dict universe_dict
         universe_to_cell_names_dict geo_data n_bcs surface_bc root_name
         next_universe_id next_cell_id next_surface_id surf_dict
         with_surf_dict with_next_surface_id];
    repeat split; try reflexivity; try discriminate; try lia.
Qed.

(** X1: a surface card changes the surface table and the surface id counter
    and nothing else; the counter never goes back. A card that returns has
    bound its name, the second word of the card, and has left every other
    name of the surface table as it was; a card that raises leaves the
    whole surface table as it was. *)
Theorem surface_card_frame (surf_card : string) (st : State) :
  let r := construct_and_store_openmc_surface surf_card st in
  same_but_surfaces st (fst r) /\
  next_surface_id st <= next_surface_id (fst r) /\
  match snd r with
  | Ok _ =>
      exists name entry,
        py_index (PyStr.split surf_card) 1 = Ok name /\
        surf_dict (fst r) = <[name := entry]> (surf_dict st)
  | Err _ => surf_dict (fst r) = surf_dict st
  end.
Proof.
  intros r.
  destruct (surface_card_effect surf_card st) as (Hsame & Hid & Herr).
  fold r in Hsame, Hid, Herr.
  split; [exact Hsame|]. split; [exact Hid|].
  destruct r as [st' [[]|e]] eqn:Hr; cbn [fst snd is_ok] in *;
    [|now apply Herr].
  clear Hsame Hid Herr. subst r.
  unfold construct_and_store_openmc_surface in Hr.
  apply bind_ok_inv in Hr as (? & name & H1 & Hr).
  apply lift_ok_inv in H1 as [-> Hname].
  apply bind_ok_inv in Hr as (? & surf_type & H1 & Hr).
  apply lift_ok_inv in H1 as [-> _].
  apply bind_ok_inv in Hr as (? & params & H1 & Hr).
  apply lift_ok_inv in H1 as [-> _].
  apply bind_ok_inv in Hr as (? & [[sp sa] hs] & H1 & Hr).
  apply lift_ok_inv in H1 as [-> _].
  apply bind_ok_inv in Hr as (s1 & entry & H2 & Hr).
  unfold modify in Hr. injection Hr as <-.
  exists name, entry. split; [exact Hname|].
  cbn [surf_dict with_surf_dict]. f_equal.
  match type of H2 with
  | ?m st = _ =>
      assert (Hp : preserves (fun s => surf_dict s = surf_dict st) m)
  end.
  { destruct sa.
    - destruct sp as [pargs|]; [|apply preserves_raise].
      apply preserves_bind; [apply preserves_lift|intros c].
      apply preserves_bind;
        [apply preserves_openmc_call; intros n s Hs; exact Hs|].
      intros [obj faces].
      apply preserves_bind.
      + destruct (s_id (set_s_name name obj)); [apply preserves_ret|].
        apply preserves_bind; [apply preserves_lift|intros i].
        apply preserves_ret.
      + intros obj'. destruct hs; apply preserves_ret.
    - destruct hs; [apply preserves_raise|apply preserves_ret]. }
  specialize (Hp st eq_refl). now rewrite H2 in Hp.
Qed.



(** X3: no [plane] card is ever stored, and the state is left as it was:
    with nine parameters the index into the scalar raises, with any other
    number the parameters stay [None] and [tuple(None)] raises. *)
Theorem plane_card_never_stored (st : State) (surf_card w name : string)
      (args : list string) :
  PyStr.split surf_card = w :: name :: "plane" :: args ->
  let r := construct_and_store_openmc_surface surf_card st in
  is_ok (snd r) = false /\ fst r = st.
Proof.
  intros Hsplit r. subst r.
  unfold construct_and_store_openmc_surface. rewrite Hsplit.
  unfold bind, lift, raise. cbn [py_index nth_error py_slice_from skipn].
  rewrite ?drop_0.
  destruct (parse_floats args) as [params|e]; [|split; reflexivity].
  unfold _get_openmc_surface_params.
  change (0 <? count_eq special_case_surfaces "plane")%nat with false.
  change (geo_dict_surf "plane") with (Some (Some Plane)).
  change ("plane" =? "plane")%string with true. cbv iota.
  destruct (Nat.eqb_spec (List.length params) 9) as [H9|_].
  - rewrite (plane_from_points_raises params H9). split; reflexivity.
  - split; reflexivity.
Qed.

Lemma plane_card_never_stored_witness :
  let r := construct_and_store_openmc_surface
             "surf p1 plane 1 1 1 3"
             (initial_state ∅ [] ["vacuum"] "0") in
  is_ok (snd r) = false /\ fst r = initial_state ∅ [] ["vacuum"] "0".
Proof.
  apply (plane_card_never_stored
           (initial_state ∅ [] ["vacuum"] "0")
           "surf p1 plane 1 1 1 3" "surf" "p1" ["1"; "1"; "1"; "3"]).
  vm_compute. reflexivity.
Defined.

(** X4: an [inf] card stores the string ["inf"] under its name and builds
    no object: no surface id is used. *)
Theorem inf_card_sentinel (st : State) (surf_card w name : string)
      (args : list string) (params : list float) :
  PyStr.split surf_card = w :: name :: "inf" :: args ->
  parse_floats args = Ok params ->
  construct_and_store_openmc_surface surf_card st
  = (with_surf_dict (<[name := SEStr "inf"]> (surf_dict st)) st, Ok tt).
Proof.
  intros Hsplit Hparse.
  unfold construct_and_store_openmc_surface. rewrite Hsplit.
  unfold bind, lift. cbn [py_index nth_error py_slice_from skipn].
  rewrite ?drop_0.
  rewrite Hparse. reflexivity.
Qed.

Lemma inf_card_sentinel_witness :
  surf_dict (fst (construct_and_store_openmc_surface
                    "surf i1 inf" (initial_state ∅ [] ["vacuum"] "0")))
    !! "i1"
  = Some (SEStr "inf").
Proof.
  rewrite (inf_card_sentinel (initial_state ∅ [] ["vacuum"] "0")
                             "surf i1 inf" "surf" "i1" [] []);
    [|vm_compute; reflexivity|reflexivity].
  cbn [fst surf_dict with_surf_dict]. apply lookup_insert_eq.
Defined.

(** X5: a card type that is no key of the table, or a key bound to [None]
    ([octa], [pad]), raises the unsupported-type error and nothing
    changes. *)
Theorem unsupported_surface_type (st : State)
      (surf_card w name surf_type : string) (args : list string)
      (params : list float) :
  PyStr.split surf_card = w :: name :: surf_type :: args ->
  parse_floats args = Ok params ->
  surf_type <> "inf" ->
  (geo_dict_surf surf_type = None \/ geo_dict_surf surf_type = Some None) ->
  construct_and_store_openmc_surface surf_card st
  = (st, Err (ValueError ("Surfaces of type " ++ surf_type
                          ++ " are currently unsupported"))).
Proof.
  intros Hsplit Hparse Hinf Hgeo.
  unfold construct_and_store_openmc_surface. rewrite Hsplit.
  unfold bind, lift. cbn [py_index nth_error py_slice_from skipn].
  rewrite ?drop_0.
  rewrite Hparse.
  unfold _get_openmc_surface_params, count_eq, special_case_surfaces.
  cbn [List.filter].
  destruct (String.eqb_spec surf_type "inf") as [|_]; [contradiction|].
  cbn [List.length Nat.ltb Nat.leb].
  destruct Hgeo as [-> | ->]; reflexivity.
Qed.

Lemma unsupported_surface_type_witness :
  construct_and_store_openmc_surface
    "surf o1 octa 0 0 0 1 2" (initial_state ∅ [] ["vacuum"] "0")
  = (initial_state ∅ [] ["vacuum"] "0",
     Err (ValueError "Surfaces of type octa are currently unsupported")).
Proof.
  apply (unsupported_surface_type
           (initial_state ∅ [] ["vacuum"] "0")
           "surf o1 octa 0 0 0 1 2" "surf" "o1" "octa"
           ["0"; "0"; "0"; "1"; "2"] [0; 0; 0; 1; 2]%float).
  - vm_compute. reflexivity.
  - vm_compute. reflexivity.
  - discriminate.
  - right. reflexivity.
Defined.

Section SquarePrism.

Local Open Scope float_scope.

(** X6: a [sqc] card whose name is an integer literal stores four faces,
    two x planes and two y planes in this order, with the next four
    surface ids and names that end in the name of the card; the prism is
    built with width and height twice the half width. *)
Theorem square_prism_card (st : State) (surf_card w name sx sy sh : string)
      (x y h : float) (n : Z) :
  PyStr.split surf_card = [w; name; "sqc"; sx; sy; sh] ->
  PyFloat.of_string sx = Some x ->
  PyFloat.of_string sy = Some y ->
  PyFloat.of_string sh = Some h ->
  PyStr.int name = Some n ->
  let args := [VFloat (h * 2); VFloat (h * 2); VStr "z"; VSeq [x; y]] in
  let i := next_surface_id st in
  let face k c nm :=
    ((i + k)%Z,
     mkSurface c args (Some (Z.to_nat k))
               (nm ++ "_" ++ name ++ "_sub")%string
               (Some (i + k)%Z) "transmission") in
  construct_and_store_openmc_surface surf_card st
  = (with_surf_dict
       (<[name := SESubs [face 0%Z XPlane "minimum x"%string;
                          face 1%Z XPlane "maximum x"%string;
                          face 2%Z YPlane "minimum y"%string;
                          face 3%Z YPlane "maximum y"%string]]>
          (surf_dict st))
       (with_next_surface_id (i + 4)%Z st),
     Ok tt).
Proof.
  intros Hsplit Hx Hy Hh Hn args i face.
  unfold construct_and_store_openmc_surface. rewrite Hsplit.
  unfold bind, lift. cbn [py_index nth_error py_slice_from skipn].
    rewrite ?drop_0.
  cbn [parse_floats]. unfold PyFloat.parse. rewrite Hx, Hy, Hh.
  cbn [rbind].
  change (_get_openmc_surface_params "sqc" [x; y; h])
    with (Ok (Some args, true, true)).
  cbv iota. cbn [geo_dict_surf String.eqb Ascii.eqb Bool.eqb].
  unfold openmc_call. cbn [ids_used prism_faces List.length has_id_attr].
  cbn [set_s_name s_class s_args s_face s_name s_id s_boundary_type].
  unfold surface_id_of_name. rewrite Hn. unfold ret.
  cbn [number_faces List.map rename_sub key_by_id set_s_name s_class s_args
       s_face s_name s_id s_boundary_type].
  unfold modify. subst face i. cbn [Z.to_nat Pos.to_nat Pos.iter_op Nat.add].
  rewrite Z.add_0_r.
  replace (next_surface_id st + 1 + 1)%Z with (next_surface_id st + 2)%Z
    by lia.
  replace (next_surface_id st + 2 + 1)%Z with (next_surface_id st + 3)%Z
    by lia.
  reflexivity.
Qed.

Lemma square_prism_card_witness :
  sub_classes
    (fst (construct_and_store_openmc_surface
            "surf 10 sqc 0 0 5" (initial_state ∅ [] ["vacuum"] "0")))
    "10"
  = [XPlane; XPlane; YPlane; YPlane].
Proof.
  rewrite (square_prism_card (initial_state ∅ [] ["vacuum"] "0")
             "surf 10 sqc 0 0 5" "surf" "10" "0" "0" "5" 0 0 5 10%Z);
    try (vm_compute; reflexivity).
Defined.

End SquarePrism.

Lemma composite_params (surf_type : string) (surf_params : list float)
      (sp : option (list pyval)) (sa hs : bool) :
  In surf_type composite_types ->
  _get_openmc_surface_params surf_type surf_params = Ok (sp, sa, hs) ->
  sa = true /\ exists args, sp = Some args.
Proof.
  unfold composite_types. cbn [In].
  intros [<-|[<-|[<-|[<-|[<-|[<-|[]]]]]]]; unfold _get_openmc_surface_params;
    cbn [count_eq special_case_surfaces List.filter String.eqb Ascii.eqb
         Bool.eqb List.length Nat.ltb Nat.leb geo_dict_surf orb];
    intros H;
    repeat match type of H with
           | rbind ?r _ = Ok _ =>
               let a := fresh "a" in
               let Ha := fresh "Ha" in
               apply rbind_ok_inv in H as (a & Ha & H)
           end;
    injection H as <- <- <-; eauto.
Qed.

Lemma composite_class (surf_type : string) :
  In surf_type composite_types ->
  exists c, geo_dict_surf surf_type = Some (Some c) /\ has_id_attr c = false.
Proof.
  unfold composite_types. cbn [In].
  intros [<-|[<-|[<-|[<-|[<-|[<-|[]]]]]]]; eexists; split; reflexivity.
Qed.

(** X7: a prism or box card ([sqc], [rect], [hexxc], [hexyc], [cube],
    [cuboid]) whose name is no integer literal is never stored: the id is
    then to come from [int.from_bytes] with the byte order ['litle'], which
    raises. *)
Theorem composite_surface_needs_integer_name (st : State)
        (surf_card w name surf_type : string) (args : list string) :
  PyStr.split surf_card = w :: name :: surf_type :: args ->
  In surf_type composite_types ->
  PyStr.int name = None ->
  let r := construct_and_store_openmc_surface surf_card st in
  is_ok (snd r) = false /\ surf_dict (fst r) = surf_dict st.
Proof.
  intros Hsplit Hty Hint r.
  assert (Hfail : is_ok (snd r) = false).
  { destruct r as [st' [[]|e]] eqn:Hr; [|reflexivity]. exfalso.
    subst r. unfold construct_and_store_openmc_surface in Hr.
    rewrite Hsplit in Hr.
    apply bind_ok_inv in Hr as (? & n1 & H1 & Hr).
    apply lift_ok_inv in H1 as [-> H1]. injection H1 as <-.
    apply bind_ok_inv in Hr as (? & t1 & H1 & Hr).
    apply lift_ok_inv in H1 as [-> H1]. injection H1 as <-.
    apply bind_ok_inv in Hr as (? & params & H1 & Hr).
    apply lift_ok_inv in H1 as [-> _].
    apply bind_ok_inv in Hr as (? & [[sp sa] hs] & H1 & Hr).
    apply lift_ok_inv in H1 as [-> H1].
    destruct (composite_params _ _ _ _ _ Hty H1) as (-> & pargs & ->).
    apply bind_ok_inv in Hr as (s1 & entry & H2 & _).
    apply bind_ok_inv in H2 as (? & c & Hc & H2).
    apply lift_ok_inv in Hc as [-> Hc].
    destruct (composite_class _ Hty) as (c' & Hc' & Hid).
    rewrite Hc' in Hc. injection Hc as <-.
    apply bind_ok_inv in H2 as (s2 & [obj faces] & Hcall & H2).
    unfold openmc_call in Hcall. rewrite Hid in Hcall.
    destruct (accepts _ _); [|discriminate Hcall].
    injection Hcall as <- <- <-.
    cbn [s_id set_s_name] in H2.
    apply bind_ok_inv in H2 as (? & obj' & Hobj & _).
    apply bind_ok_inv in Hobj as (? & i & Hi & _).
    apply lift_ok_inv in Hi as [_ Hi].
    rewrite (surface_id_of_name_not_int _ Hint) in Hi. discriminate Hi. }
  split; [exact Hfail|].
  now apply surface_card_effect.
Qed.

Lemma composite_surface_needs_integer_name_witness :
  let r := construct_and_store_openmc_surface
             "surf box cuboid 0 1 0 1 0 1"
             (initial_state ∅ [] ["vacuum"] "0") in
  is_ok (snd r) = false /\
  surf_dict (fst r) = surf_dict (initial_state ∅ [] ["vacuum"] "0").
Proof.
  apply (composite_surface_needs_integer_name
           (initial_state ∅ [] ["vacuum"] "0")
           "surf box cuboid 0 1 0 1 0 1" "surf" "box" "cuboid"
           ["0"; "1"; "0"; "1"; "0"; "1"]).
  - vm_compute. reflexivity.
  - vm_compute. tauto.
  - vm_compute. reflexivity.
Defined.

(* ===================================================================== *)
(** * Cell cards: what every step keeps *)
(* ===================================================================== *)

(** A card that is not an [outside] card changes nothing while its surfaces
    are collected. *)
Lemma collect_surface_preserves_any (I : State -> Prop)
      (cell_type name : string) (t : cell_tables) :
  cell_type <> "outside" ->
  preserves I (collect_surface cell_type name t).
Proof.
  intros Hct. unfold collect_surface.
  destruct (String.eqb_spec cell_type "outside") as [|_]; [contradiction|].
  apply preserves_bind; [apply preserves_get|intros st0].
  apply preserves_bind; [apply preserves_lift|intros entry].
  apply preserves_bind; [apply preserves_ret|intros d].
  apply preserves_bind; [apply preserves_lift|intros csd].
  apply preserves_bind; [|intros ?; apply preserves_ret].
  destruct entry; [| |apply preserves_lift];
    (apply preserves_bind; [apply preserves_lift|intros v];
     apply preserves_bind; [apply preserves_lift|intros i];
     apply preserves_ret).
Qed.

(** An [outside] card rebinds names of the surface table that are bound
    already, and changes nothing else. *)
Lemma collect_surface_outside_preserves (I : State -> Prop)
      (name : string) (t : cell_tables) :
  (forall st e e',
      I st -> surf_dict st !! name = Some e ->
      I (with_surf_dict (<[name := e']> (surf_dict st)) st)) ->
  preserves I (collect_surface "outside" name t).
Proof.
  intros Hclosed st HI.
  destruct (surf_dict st !! name) as [e|] eqn:He.
  - set (J := fun s => I s /\ is_Some (surf_dict s !! name)).
    assert (HJ : preserves J (collect_surface "outside" name t)).
    { unfold collect_surface.
      change ("outside" =? "outside")%string with true. cbv iota.
      apply preserves_bind; [apply preserves_get|intros st0].
      apply preserves_bind; [apply preserves_lift|intros entry].
      apply preserves_bind.
      - apply preserves_bind; [apply preserves_lift|intros d'].
        apply preserves_bind; [|intros ?; apply preserves_ret].
        apply preserves_modify. intros s [HIs [e0 He0]]. split.
        + now apply (Hclosed s e0).
        + cbn [surf_dict with_surf_dict]. rewrite lookup_insert_eq. eauto.
      - intros d.
        apply preserves_bind; [apply preserves_lift|intros csd].
        apply preserves_bind; [|intros ?; apply preserves_ret].
        destruct entry; [| |apply preserves_lift];
          (apply preserves_bind; [apply preserves_lift|intros v];
           apply preserves_bind; [apply preserves_lift|intros i];
           apply preserves_ret). }
    apply HJ. split; [exact HI|eauto].
  - unfold collect_surface, bind, get, lift, dict_get. cbn [fst snd].
    rewrite He. exact HI.
Qed.

(** The cell builder keeps every property that its four kinds of steps
    keep. *)
Lemma construct_openmc_cell_preserves (I : State -> Prop)
      (cell_card : string) (splitter : regex) (cell_type : string) :
  (forall u c, preserves I (add_cell_name_to_universe u c)) ->
  preserves I new_cell ->
  (forall n st, I st -> universe_dict st !! n = None ->
                I (fst (register_new_universe n st))) ->
  (forall name t, preserves I (collect_surface cell_type name t)) ->
  preserves I (construct_openmc_cell cell_card splitter cell_type).
Proof.
  intros Hadd Hcell Hreg Hsurf. unfold construct_openmc_cell.
  assert (Hall : forall names t,
             preserves I (collect_surfaces cell_type names t)).
  { induction names as [|n names IH]; intros t; cbn [collect_surfaces];
      [apply preserves_ret|].
    apply preserves_bind; [apply Hsurf|intros t'; apply IH]. }
  apply preserves_bind; [apply preserves_lift|intros cell_name].
  apply preserves_bind; [apply preserves_lift|intros cell_universe_name].
  apply preserves_bind; [apply Hadd|intros _].
  apply preserves_bind; [apply Hcell|intros cell_object].
  apply preserves_bind.
  - destruct (cell_type =? "outside")%string; [apply preserves_ret|].
    destruct (cell_type =? "material")%string.
    { apply preserves_bind; [apply preserves_lift|intros ?].
      apply preserves_bind; [apply preserves_get|intros ?].
      apply preserves_bind; [apply preserves_lift|intros ?].
      apply preserves_ret. }
    destruct (cell_type =? "fill")%string; [|apply preserves_raise].
    apply preserves_bind; [apply preserves_lift|intros n].
    apply preserves_bind_get. intros st0 HI.
    apply bind_at.
    + destruct (universe_dict st0 !! n) eqn:Hn; [exact HI|].
      destruct (negb _); [now apply Hreg|exact HI].
    + intros _.
      apply preserves_bind; [apply preserves_lift|intros ?].
      apply preserves_bind; [apply preserves_get|intros ?].
      apply preserves_bind; [apply preserves_lift|intros ?].
      apply preserves_ret.
  - intros cell_fill_object.
    apply preserves_bind.
    + destruct (_ && _); [|apply preserves_ret].
      apply preserves_bind; [apply preserves_lift|intros ?].
      apply preserves_bind; [apply preserves_get|intros ?].
      apply preserves_bind; [apply preserves_lift|intros ?].
      apply preserves_ret.
    + intros [|].
      * apply preserves_bind; [apply Hcell|intros ?; apply preserves_ret].
      * apply preserves_bind; [apply Hall|intros ?].
        apply preserves_bind; [apply preserves_lift|intros ?].
        apply preserves_ret.
Qed.

Lemma add_cell_name_to_universe_cases (u c : string) (st : State) :
  let st' := fst (add_cell_name_to_universe u c st) in
  (exists c0 cs,
      universe_to_cell_names_dict st !! u = Some (c0 :: cs) /\
      st' = with_universe_to_cell_names_dict
              (<[u := ((c0 :: cs) ++ [c])%list]>
                 (universe_to_cell_names_dict st)) st) \/
  ((universe_to_cell_names_dict st !! u = None \/
    universe_to_cell_names_dict st !! u = Some []) /\
   st' = with_universe_dict
           (<[u := mkUniverse (next_universe_id st) u]> (universe_dict st))
           (with_next_universe_id
              (next_universe_id st + 1)
              (with_universe_to_cell_names_dict
                 (<[u := [c]]> (universe_to_cell_names_dict st)) st))).
Proof.
  unfold add_cell_name_to_universe, bind, get.
  destruct (universe_to_cell_names_dict st !! u) as [[|c0 cs]|] eqn:Hu;
    cbn [fst snd].
  - right. split; [now right|reflexivity].
  - left. exists c0, cs. split; reflexivity.
  - right. split; [now left|reflexivity].
Qed.

Lemma add_cell_name_to_universe_other (u c other : string) (st : State) :
  other <> u ->
  let st' := fst (add_cell_name_to_universe u c st) in
  universe_to_cell_names_dict st' !! other
  = universe_to_cell_names_dict st !! other /\
  universe_dict st' !! other = universe_dict st !! other.
Proof.
  intros Hne.
  destruct (add_cell_name_to_universe_cases u c st)
    as [(c0 & cs & Hu & ->)|(Hu & ->)]; cbn.
  - now rewrite lookup_insert_ne by congruence.
  - now rewrite !lookup_insert_ne by congruence.
Qed.

Lemma add_cell_name_to_universe_returns (u c : string) (st : State) :
  snd (add_cell_name_to_universe u c st) = Ok tt.
Proof.
  unfold add_cell_name_to_universe, bind, get, modify, new_universe.
  destruct (universe_to_cell_names_dict st !! u) as [[|? ?]|]; reflexivity.
Qed.

Lemma cell_frame_refl st : cell_frame st st.
Proof. unfold cell_frame. repeat split; try reflexivity; lia. Qed.

Lemma cell_frame_preserved (st0 : State) (cell_card : string)
      (splitter : regex) (cell_type : string) :
  preserves (cell_frame st0)
            (construct_openmc_cell cell_card splitter cell_type).
Proof.
  apply construct_openmc_cell_preserves.
  - intros u c st H.
    destruct (add_cell_name_to_universe_cases u c st)
      as [(c0 & cs & _ & ->)|(_ & ->)];
      unfold cell_frame in *; cbn; intuition lia.
  - intros st H. unfold cell_frame in *; cbn; intuition lia.
  - intros n st H _. unfold cell_frame in *; cbn; intuition lia.
  - intros name t.
    destruct (String.eqb_spec cell_type "outside") as [->|Hne].
    + apply collect_surface_outside_preserves.
      intros st e e' H He. unfold cell_frame in *. cbn.
      rewrite dom_insert_L.
      assert (name ∈ dom (surf_dict st)) by (apply elem_of_dom; eauto).
      destruct H as (H1 & H2 & H3 & H4 & H5 & H6 & H7 & Hd & H9 & H10).
      repeat split; try assumption. rewrite <- Hd.
      apply subseteq_union_1_L, singleton_subseteq_l. assumption.
    + now apply collect_surface_preserves_any.
Qed.

Lemma registry_step_add (st0 : State) (u c : string) :
  preserves (fun s => registry_ok s /\ registry_grows st0 s)
            (add_cell_name_to_universe u c).
Proof.
  intros st [[Hfresh Hreg] [Hext Hkept]].
  destruct (add_cell_name_to_universe_cases u c st)
    as [(c0 & cs & Hu & ->)|(Hu & ->)].
  - repeat split.
    + exact Hfresh.
    + intros n c1 cs1. cbn. intros Hn.
      destruct (decide (u = n)) as [<-|Hne]; [exact (Hreg u c0 cs Hu)|].
      rewrite lookup_insert_ne in Hn by exact Hne. eauto.
    + intros n l Hn. destruct (Hext n l Hn) as (l' & Hl'). cbn.
      destruct (decide (u = n)) as [<-|Hne].
      * rewrite lookup_insert_eq. rewrite Hu in Hl'. injection Hl' as Hl'.
        exists (l' ++ [c])%list. rewrite app_assoc, <- Hl'. reflexivity.
      * rewrite lookup_insert_ne by exact Hne. eauto.
    + exact Hkept.
  - repeat split.
    + intros n x. cbn. intros Hn.
      destruct (decide (u = n)) as [<-|Hne].
      * rewrite lookup_insert_eq in Hn. injection Hn as <-. cbn. lia.
      * rewrite lookup_insert_ne in Hn by exact Hne.
        specialize (Hfresh n x Hn). lia.
    + intros n c1 cs1. cbn. intros Hn.
      destruct (decide (u = n)) as [<-|Hne].
      * rewrite lookup_insert_eq. eauto.
      * rewrite lookup_insert_ne in Hn by exact Hne.
        rewrite lookup_insert_ne by exact Hne. eauto.
    + intros n l Hn. destruct (Hext n l Hn) as (l' & Hl'). cbn.
      destruct (decide (u = n)) as [<-|Hne].
      * rewrite lookup_insert_eq. exists [c].
        destruct Hu as [Hu|Hu]; rewrite Hu in Hl'; [discriminate Hl'|].
        injection Hl' as Hl'. symmetry in Hl'.
        apply app_eq_nil in Hl' as [-> _]. reflexivity.
      * rewrite lookup_insert_ne by exact Hne. eauto.
    + intros n c1 cs1 Hn. cbn.
      destruct (decide (u = n)) as [<-|Hne].
      * destruct (Hext u _ Hn) as (l' & Hl').
        destruct Hu as [Hu|Hu]; rewrite Hu in Hl'; discriminate Hl'.
      * rewrite lookup_insert_ne by exact Hne. eauto.
Qed.

Lemma registry_step_register (st0 : State) (n : string) (st : State) :
  registry_ok st /\ registry_grows st0 st ->
  universe_dict st !! n = None ->
  let st' := fst (register_new_universe n st) in
  registry_ok st' /\ registry_grows st0 st'.
Proof.
  intros [[Hfresh Hreg] [Hext Hkept]] Hnone. cbn. repeat split.
  - intros m x. cbn. intros Hm.
    destruct (decide (n = m)) as [<-|Hne].
    + rewrite lookup_insert_eq in Hm. injection Hm as <-. cbn. lia.
    + rewrite lookup_insert_ne in Hm by exact Hne.
      specialize (Hfresh m x Hm). lia.
  - intros m c cs. cbn. intros Hm.
    destruct (decide (n = m)) as [<-|Hne].
    + rewrite lookup_insert_eq. eauto.
    + rewrite lookup_insert_ne by exact Hne. eauto.
  - exact Hext.
  - intros m c cs Hm. cbn.
    destruct (decide (n = m)) as [<-|Hne].
    + destruct (Hext n _ Hm) as (l' & Hl').
      destruct (Hreg n c (cs ++ l')%list Hl') as [x Hx]. congruence.
    + rewrite lookup_insert_ne by exact Hne. eauto.
Qed.

Lemma registry_preserved (st0 : State) (cell_card : string)
      (splitter : regex) (cell_type : string) :
  preserves (fun s => registry_ok s /\ registry_grows st0 s)
            (construct_openmc_cell cell_card splitter cell_type).
Proof.
  apply construct_openmc_cell_preserves.
  - intros u c. apply registry_step_add.
  - intros st H. exact H.
  - intros n st H Hn. now apply registry_step_register.
  - intros name t.
    destruct (String.eqb_spec cell_type "outside") as [->|Hne].
    + apply collect_surface_outside_preserves. intros st e e' H _. exact H.
    + now apply collect_surface_preserves_any.
Qed.

Lemma registry_grows_refl st : registry_grows st st.
Proof.
  split.
  - intros n l Hn. exists []. now rewrite app_nil_r.
  - intros n c cs _. reflexivity.
Qed.

Lemma registry_ok_initial mats geo bcs root :
  registry_ok (initial_state mats geo bcs root).
Proof.
  split.
  - intros n u H. cbn in H. rewrite lookup_empty in H. discriminate H.
  - intros n c cs H. cbn in H. rewrite lookup_empty in H. discriminate H.
Qed.

Lemma registry_ok_after_surfaces cards st :
  registry_ok st -> registry_ok (after_surfaces cards st).
Proof.
  revert st. induction cards as [|card cards IH]; intros st Hok;
    [exact Hok|].
  cbn [after_surfaces List.fold_left]. apply IH.
  pose proof (surface_card_same_but_surfaces card st) as Hf.
  destruct Hf as (_ & _ & Hu & Hm & _ & _ & _ & _ & Hn & _).
  destruct Hok as [Hfresh Hreg]. split.
  - intros n u. rewrite Hu, Hn. apply Hfresh.
  - intros n c cs. rewrite Hu, Hm. apply Hreg.
Qed.

(* ===================================================================== *)
(** * Cell cards: frame, universe registry, errors *)
(* ===================================================================== *)

(** X8: adding a cell puts its name at the end of the member list of its
    universe and leaves every other universe as it is, member list and
    object. *)
Theorem add_cell_name_appends (st : State) (univ_name cell_name : string) :
  let st' := fst (add_cell_name_to_universe univ_name cell_name st) in
  universe_to_cell_names_dict st' !! univ_name
  = Some (match universe_to_cell_names_dict st !! univ_name with
          | Some cells => cells
          | None => []
          end ++ [cell_name])%list /\
  forall other,
    other <> univ_name ->
    universe_to_cell_names_dict st' !! other
    = universe_to_cell_names_dict st !! other /\
    universe_dict st' !! other = universe_dict st !! other.
Proof.
  destruct (add_cell_name_to_universe_cases univ_name cell_name st)
    as [(c0 & cs & Hu & ->)|(Hu & ->)]; cbn.
  - rewrite Hu. split; [apply lookup_insert_eq|].
    intros other Hne. now rewrite lookup_insert_ne by congruence.
  - split.
    + rewrite lookup_insert_eq. destruct Hu as [-> | ->]; reflexivity.
    + intros other Hne. now rewrite !lookup_insert_ne by congruence.
Qed.

(** X9: a registered universe that has no member cell yet (a placeholder)
    is replaced when its first cell is added: the object registered
    afterwards is a new one. *)
Theorem placeholder_replaced (st : State) (univ_name cell_name : string)
        (u : Universe) :
  universes_fresh st ->
  universe_dict st !! univ_name = Some u ->
  universe_to_cell_names_dict st !! univ_name = None ->
  exists u',
    universe_dict (fst (add_cell_name_to_universe univ_name cell_name st))
      !! univ_name = Some u' /\
    u_id u' <> u_id u.
Proof.
  intros Hfresh Hu Hnone.
  exists (mkUniverse (next_universe_id st) univ_name). split.
  - now apply add_cell_name_to_universe_new_object.
  - cbn. specialize (Hfresh _ _ Hu). lia.
Qed.

Lemma placeholder_replaced_witness :
  let st := fst (construct_openmc_cell "cell c1 0 fill U5 -1"
                                       CELL_REGEX2_CORE "fill"
                                       forward_reference_state) in
  exists u',
    universe_dict (fst (add_cell_name_to_universe "U5" "c2" st)) !! "U5"
    = Some u' /\
    u_id u' <> 2.
Proof.
  intros st.
  apply (placeholder_replaced st "U5" "c2" (mkUniverse 2 "U5")).
  - apply (registry_preserved forward_reference_state _ _ _
                              forward_reference_state).
    split; [|apply registry_grows_refl].
    apply registry_ok_after_surfaces, registry_ok_initial.
  - vm_compute. reflexivity.
  - vm_compute. reflexivity.
Defined.

(** X10: a cell card never touches the cell table, the material table, the
    lines, the boundary entries, the root name, or the surface id counter;
    it keeps the names of the surface table; the id counters of universes
    and cells never go back; and a card that is not an [outside] card
    leaves the surface table as it is. *)
Theorem cell_card_frame (st : State) (cell_card : string) (splitter : regex)
        (cell_type : string) :
  let st' := fst (construct_openmc_cell cell_card splitter cell_type st) in
  cell_frame st st' /\
  (cell_type <> "outside" -> surf_dict st' = surf_dict st).
Proof.
  split.
  - apply cell_frame_preserved, cell_frame_refl.
  - intros Hct.
    apply (construct_openmc_cell_preserves
             (fun s => surf_dict s = surf_dict st)); try reflexivity.
    + intros u c s Hs.
      destruct (add_cell_name_to_universe_cases u c s)
        as [(c0 & cs & _ & ->)|(_ & ->)]; exact Hs.
    + intros s Hs. exact Hs.
    + intros n s Hs _. exact Hs.
    + intros name t. now apply collect_surface_preserves_any.
Qed.

(** X11: the registry invariant (every registered universe object is older
    than the id counter, every universe with member cells has an object) is
    kept by every cell card, whether it returns or raises; the member lists
    only grow at their end, and a universe that has member cells keeps its
    object. *)
Theorem cell_card_registry (st : State) (cell_card : string)
        (splitter : regex) (cell_type : string) :
  registry_ok st ->
  let st' := fst (construct_openmc_cell cell_card splitter cell_type st) in
  registry_ok st' /\ registry_grows st st'.
Proof.
  intros Hok.
  apply (registry_preserved st cell_card splitter cell_type st).
  split; [exact Hok|apply registry_grows_refl].
Qed.

Lemma cell_card_registry_witness :
  let st := forward_reference_state in
  let st' := fst (construct_openmc_cell "cell c1 0 fill U5 -1"
                                        CELL_REGEX2_CORE "fill" st) in
  registry_ok st' /\ registry_grows st st'.
Proof.
  apply cell_card_registry.
  apply registry_ok_after_surfaces, registry_ok_initial.
Defined.

(** X12: a cell type other than [outside], [material] and [fill] raises the
    erroneous-type error, after the cell name was added to its universe. *)
Theorem erroneous_cell_type (st : State) (cell_card : string)
        (splitter : regex) (cell_type w cell_name univ_name : string)
        (rest : list string) :
  PyStr.split cell_card = w :: cell_name :: univ_name :: rest ->
  cell_type <> "outside" -> cell_type <> "material" -> cell_type <> "fill" ->
  let st1 := fst (add_cell_name_to_universe univ_name cell_name st) in
  construct_openmc_cell cell_card splitter cell_type st
  = (with_next_cell_id (next_cell_id st1 + 1) st1,
     Err (ValueError ("cell_type: " ++ cell_type ++ " is erroneous"))).
Proof.
  intros Hsplit Ho Hm Hf st1. subst st1.
  unfold construct_openmc_cell. rewrite Hsplit.
  destruct (String.eqb_spec cell_type "outside") as [|_]; [contradiction|].
  destruct (String.eqb_spec cell_type "material") as [|_]; [contradiction|].
  destruct (String.eqb_spec cell_type "fill") as [|_]; [contradiction|].
  unfold bind, lift, new_cell, raise. cbn [py_index nth_error].
  destruct (add_cell_name_to_universe univ_name cell_name st) as [st1 [[]|e]]
    eqn:Hadd; [reflexivity|].
  exfalso. revert Hadd.
  unfold add_cell_name_to_universe, bind, get, modify, new_universe.
  destruct (universe_to_cell_names_dict st !! univ_name) as [[|? ?]|];
    cbn; discriminate.
Qed.

Lemma erroneous_cell_type_witness :
  snd (construct_openmc_cell "cell c1 0 m1 -1" CELL_REGEX1_CORE "lattice"
                             forward_reference_state)
  = Err (ValueError "cell_type: lattice is erroneous").
Proof.
  rewrite (erroneous_cell_type forward_reference_state "cell c1 0 m1 -1"
             CELL_REGEX1_CORE "lattice" "cell" "c1" "0" ["m1"; "-1"]);
    [reflexivity|vm_compute; reflexivity|discriminate..].
Defined.

(** X13: a card with fewer than three tokens raises [IndexError] and changes
    nothing. *)
Theorem short_cell_card (st : State) (cell_card : string) (splitter : regex)
        (cell_type : string) :
  (List.length (PyStr.split cell_card) < 3)%nat ->
  construct_openmc_cell cell_card splitter cell_type st = (st, Err IndexError).
Proof.
  intros Hlen. unfold construct_openmc_cell.
  destruct (PyStr.split cell_card) as [|w [|n [|u rest]]]; try reflexivity.
  cbn in Hlen. lia.
Qed.

Lemma short_cell_card_witness :
  construct_openmc_cell "cell c1" CELL_REGEX1_CORE "material"
                        forward_reference_state
  = (forward_reference_state, Err IndexError).
Proof.
  apply short_cell_card. vm_compute. lia.
Defined.

(** X14: a fill card whose target is the root universe, when the root has no
    universe object and is not the universe of the card, raises [KeyError]
    on the root name: no placeholder is made for the root. *)
Theorem fill_with_unregistered_root (st : State) (cell_card : string)
        (splitter : regex) (w cell_name univ_name kw target : string)
        (rest : list string) :
  PyStr.split cell_card = w :: cell_name :: univ_name :: kw :: target :: rest ->
  target = root_name st ->
  target <> univ_name ->
  universe_dict st !! target = None ->
  let r := construct_openmc_cell cell_card splitter "fill" st in
  snd r = Err (KeyError target) /\ universe_dict (fst r) !! target = None.
Proof.
  intros Hsplit Hroot Hne Hnone r. subst r.
  destruct (add_cell_name_to_universe_other univ_name cell_name target st
              Hne) as [_ Hud].
  assert (Hr : root_name (fst (add_cell_name_to_universe univ_name cell_name
                                                         st))
               = root_name st).
  { destruct (add_cell_name_to_universe_cases univ_name cell_name st)
      as [(c0 & cs & _ & ->)|(_ & ->)]; reflexivity. }
  destruct (add_cell_name_to_universe univ_name cell_name st)
    as [st1 [[]|e]] eqn:Hadd.
  2:{ exfalso. revert Hadd.
      unfold add_cell_name_to_universe, bind, get, modify, new_universe.
      destruct (universe_to_cell_names_dict st !! univ_name) as [[|? ?]|];
        cbn; discriminate. }
  cbn [fst] in Hud, Hr.
  assert (Heq : construct_openmc_cell cell_card splitter "fill" st
                = (with_next_cell_id (next_cell_id st1 + 1) st1,
                   Err (KeyError target))).
  { unfold construct_openmc_cell. rewrite Hsplit.
    change ("fill" =? "outside")%string with false.
    change ("fill" =? "material")%string with false.
    change ("fill" =? "fill")%string with true. cbv iota.
    unfold bind at 1 2 3. unfold lift at 1 2. cbn [py_index nth_error].
    rewrite Hadd.
    unfold bind, lift, new_cell, get, dict_get, ret.
    cbn [py_index nth_error fst snd].
    change (universe_dict (with_next_cell_id (next_cell_id st1 + 1) st1))
      with (universe_dict st1).
    change (root_name (with_next_cell_id (next_cell_id st1 + 1) st1))
      with (root_name st1).
    rewrite Hud, Hnone, Hr, <- Hroot, String.eqb_refl.
    cbn [negb fst snd].
    change (universe_dict (with_next_cell_id (next_cell_id st1 + 1) st1))
      with (universe_dict st1).
    rewrite Hud, Hnone. reflexivity. }
  rewrite Heq. cbn [fst snd].
  change (universe_dict (with_next_cell_id (next_cell_id st1 + 1) st1))
    with (universe_dict st1).
  split; [reflexivity|]. now rewrite Hud.
Qed.

Lemma fill_with_unregistered_root_witness :
  let r := construct_openmc_cell "cell c1 5 fill 0 -1" CELL_REGEX2_CORE "fill"
                                 forward_reference_state in
  snd r = Err (KeyError "0") /\ universe_dict (fst r) !! "0" = None.
Proof.
  apply (fill_with_unregistered_root forward_reference_state
           "cell c1 5 fill 0 -1" CELL_REGEX2_CORE "cell" "c1" "5" "fill" "0"
           ["-1"]);
    [vm_compute; reflexivity | vm_compute; reflexivity | discriminate
    | vm_compute; reflexivity].
Defined.

(* ===================================================================== *)
(** * Cell cards: the surfaces of a region *)
(* ===================================================================== *)

Lemma same_kinds_refl st : same_kinds st st.
Proof. intros n. reflexivity. Qed.

Lemma same_kinds_trans a b c :
  same_kinds a b -> same_kinds b c -> same_kinds a c.
Proof. intros H1 H2 n. now rewrite H2, H1. Qed.

Lemma same_kinds_bound st st' n :
  same_kinds st st' -> bound_to_surface st' n -> bound_to_surface st n.
Proof.
  intros H. specialize (H n). unfold bound_to_surface.
  destruct (surf_dict st' !! n) as [[]|], (surf_dict st !! n) as [[]|];
    cbn in H; try discriminate H; tauto.
Qed.

Lemma entry_kind_of_dict e d : entry_kind (entry_of_dict e d) = entry_kind e.
Proof.
  destruct e; cbn [entry_of_dict]; try reflexivity.
  destruct d as [|[k [s|s]] [|? ?]]; reflexivity.
Qed.

Lemma apply_boundary_string n bcs o s v :
  apply_boundary n bcs o (DStr s) = Ok v -> v = DStr s.
Proof.
  unfold apply_boundary.
  repeat match goal with
         | |- (if ?c then _ else _) = _ -> _ => destruct c
         | |- rbind (py_index ?l ?i) _ = _ -> _ =>
             destruct (py_index l i); cbn [rbind assign_boundary_type]
         end; intros H; first [discriminate H | now injection H as <-].
Qed.

(** A round of the first loop that returns has found a surface object or
    the faces of a prism under the name, and has at most rebound that name
    to an entry of the same kind. *)
Lemma collect_surface_ok cell_type name t st st' t' :
  collect_surface cell_type name t st = (st', Ok t') ->
  bound_to_surface st name /\ same_kinds st st'.
Proof.
  intros H. unfold collect_surface in H.
  apply bind_ok_inv in H as (s1 & st0 & Hget & H).
  apply get_ok_inv in Hget as [-> ->].
  apply bind_ok_inv in H as (s2 & entry & Hl & H).
  apply lift_ok_inv in Hl as [-> Hl]. unfold dict_get in Hl.
  destruct (surf_dict st !! name) as [e|] eqn:He; [|discriminate Hl].
  injection Hl as ->.
  apply bind_ok_inv in H as (s3 & d & Hd & H).
  apply bind_ok_inv in H as (s4 & csd & Hs & H).
  apply lift_ok_inv in Hs as [-> Hs].
  apply bind_ok_inv in H as (s5 & sid & Hsid & H).
  apply ret_ok_inv in H as [-> _].
  assert (Hs5 : s5 = s3).
  { destruct entry.
    - apply bind_ok_inv in Hsid as (? & ? & Hv & Hsid).
      apply lift_ok_inv in Hv as [-> _].
      apply bind_ok_inv in Hsid as (? & ? & Hv & Hsid).
      apply lift_ok_inv in Hv as [-> _].
      now apply ret_ok_inv in Hsid as [-> _].
    - apply bind_ok_inv in Hsid as (? & ? & Hv & Hsid).
      apply lift_ok_inv in Hv as [-> _].
      apply bind_ok_inv in Hsid as (? & ? & Hv & Hsid).
      apply lift_ok_inv in Hv as [-> _].
      now apply ret_ok_inv in Hsid as [-> _].
    - now apply lift_ok_inv in Hsid as [-> _]. }
  subst s5.
  assert (Hd' : (s3 = st \/
                 exists d', s3 = with_surf_dict
                                   (<[name := entry_of_dict entry d']>
                                      (surf_dict st)) st) /\
                (forall s, entry = SEStr s -> d = [(KStr name, DStr s)])).
  { destruct (cell_type =? "outside")%string.
    - apply bind_ok_inv in Hd as (? & d' & Hb & Hd).
      apply lift_ok_inv in Hb as [-> Hb].
      apply bind_ok_inv in Hd as (? & [] & Hm & Hd).
      unfold modify in Hm. injection Hm as <-.
      apply ret_ok_inv in Hd as [-> ->]. split; [right; eauto|].
      intros s ->. cbn [apply_boundary_all] in Hb.
      destruct (apply_boundary _ _ _ (DStr s)) as [v|] eqn:Hv;
        [|discriminate Hb].
      apply apply_boundary_string in Hv as ->.
      cbn [rbind] in Hb. now injection Hb as <-.
    - apply ret_ok_inv in Hd as [-> ->]. split; [now left|].
      now intros s ->. }
  destruct Hd' as [Hstate Hstr]. split.
  - unfold bound_to_surface. rewrite He.
    destruct entry as [s| |]; [|exact I..].
    rewrite (Hstr s eq_refl) in Hs. discriminate Hs.
  - destruct Hstate as [->|(d' & ->)]; [apply same_kinds_refl|].
    intros n. cbn [surf_dict with_surf_dict].
    destruct (decide (n = name)) as [->|Hne].
    + rewrite lookup_insert_eq, He. cbn [option_map].
      now rewrite entry_kind_of_dict.
    + now rewrite lookup_insert_ne by congruence.
Qed.

Lemma collect_surfaces_ok cell_type names t st st' t' :
  collect_surfaces cell_type names t st = (st', Ok t') ->
  List.Forall (bound_to_surface st) names /\ same_kinds st st'.
Proof.
  revert t st. induction names as [|n names IH]; intros t st H;
    cbn [collect_surfaces] in H.
  - apply ret_ok_inv in H as [-> _]. split; [constructor|].
    apply same_kinds_refl.
  - apply bind_ok_inv in H as (s1 & t1 & H1 & H).
    apply collect_surface_ok in H1 as [Hn Hk].
    apply IH in H as [Hall Hk']. split.
    + constructor; [exact Hn|].
      eapply List.Forall_impl; [|exact Hall].
      intros m. now apply same_kinds_bound.
    + eapply same_kinds_trans; eassumption.
Qed.

(** How a cell card that returns has got its region. *)
Lemma construct_openmc_cell_ok_inv st cell_card splitter cell_type st' c n f
      reg :
  construct_openmc_cell cell_card splitter cell_type st
  = (st', Ok (c, n, f, reg)) ->
  let names := _strip_csg_operators (split_last splitter cell_card) in
  exists s4,
    (surf_dict s4 = surf_dict st /\ n_bcs s4 = n_bcs st /\
     surface_bc s4 = surface_bc st) /\
    match reg with
    | None =>
        cell_type = "material" /\
        exists name, names = [name] /\
                     surf_dict st !! name = Some (SEStr "inf")
    | Some _ =>
        exists t,
          collect_surfaces cell_type names (mkTables ∅ ∅ ∅) s4 = (st', Ok t)
    end.
Proof.
  intros H names. unfold construct_openmc_cell in H. fold names in H.
  apply bind_ok_inv in H as (s0 & cell_name & H0 & H).
  apply lift_ok_inv in H0 as [-> _].
  apply bind_ok_inv in H as (s0 & univ_name & H0 & H).
  apply lift_ok_inv in H0 as [-> _].
  apply bind_ok_inv in H as (s1 & [] & H1 & H).
  set (I := fun s => surf_dict s = surf_dict st /\ n_bcs s = n_bcs st /\
                     surface_bc s = surface_bc st).
  assert (Hs1 : I s1).
  { change s1 with (fst (s1, @Ok unit tt)). rewrite <- H1.
    destruct (add_cell_name_to_universe_cases univ_name cell_name st)
      as [(c0 & cs & _ & ->)|(_ & ->)]; repeat split. }
  apply bind_ok_inv in H as (s2 & cell_object & H2 & H).
  assert (Hs2 : I s2).
  { unfold new_cell in H2. injection H2 as <- _. exact Hs1. }
  apply bind_ok_inv in H as (s3 & fill_object & H3 & H).
  assert (Hs3 : I s3).
  { match type of H3 with
    | ?m s2 = _ => assert (Hp : preserves I m)
    end.
    { destruct (cell_type =? "outside")%string; [apply preserves_ret|].
      destruct (cell_type =? "material")%string.
      { apply preserves_bind; [apply preserves_lift|intros ?].
        apply preserves_bind; [apply preserves_get|intros ?].
        apply preserves_bind; [apply preserves_lift|intros ?].
        apply preserves_ret. }
      destruct (cell_type =? "fill")%string; [|apply preserves_raise].
      apply preserves_bind; [apply preserves_lift|intros fn].
      apply preserves_bind_get. intros st0 HI.
      apply bind_at.
      - destruct (universe_dict st0 !! fn); [exact HI|].
        destruct (negb _); exact HI.
      - intros _.
        apply preserves_bind; [apply preserves_lift|intros ?].
        apply preserves_bind; [apply preserves_get|intros ?].
        apply preserves_bind; [apply preserves_lift|intros ?].
        apply preserves_ret. }
    specialize (Hp s2 Hs2). now rewrite H3 in Hp. }
  apply bind_ok_inv in H as (s4 & null_region & H4 & H).
  assert (Hs4 : s4 = s3 /\
                (null_region = true ->
                 cell_type = "material" /\
                 exists name, names = [name] /\
                              surf_dict s3 !! name = Some (SEStr "inf"))).
  { destruct (String.eqb_spec cell_type "material") as [Hm|Hm];
      cbn [andb] in H4.
    - destruct (Nat.eqb_spec (List.length names) 1) as [Hlen|Hlen].
      + apply bind_ok_inv in H4 as (? & n0 & Hn0 & H4).
        apply lift_ok_inv in Hn0 as [-> Hn0].
        apply bind_ok_inv in H4 as (? & st0 & Hg & H4).
        apply get_ok_inv in Hg as [-> ->].
        apply bind_ok_inv in H4 as (? & entry & He & H4).
        apply lift_ok_inv in He as [-> He].
        apply ret_ok_inv in H4 as [-> ->]. split; [reflexivity|].
        intros Heq. split; [exact Hm|].
        destruct names as [|name [|? ?]]; try discriminate Hlen.
        cbn in Hn0. injection Hn0 as <-. exists name.
        split; [reflexivity|].
        unfold dict_get in He.
        destruct (surf_dict s3 !! name) as [e|]; [|discriminate He].
        injection He as ->.
        destruct entry as [s| |]; cbn in Heq; try discriminate Heq.
        apply String.eqb_eq in Heq. now subst s.
      + apply ret_ok_inv in H4 as [-> ->]. split; [reflexivity|].
        discriminate.
    - apply ret_ok_inv in H4 as [-> ->]. split; [reflexivity|].
      discriminate. }
  destruct Hs4 as [-> Hnull].
  exists s3. split; [exact Hs3|].
  destruct null_region.
  - apply bind_ok_inv in H as (? & mat_null_cell & _ & H).
    apply ret_ok_inv in H as [_ H]. injection H as _ _ _ ->.
    destruct (Hnull eq_refl) as (Hm & name & Hnames & Hinf).
    destruct Hs3 as [Hs3 _]. rewrite Hs3 in Hinf. eauto.
  - apply bind_ok_inv in H as (s5 & t & Hc & H).
    apply bind_ok_inv in H as (? & e & He & H).
    apply lift_ok_inv in He as [-> _].
    apply ret_ok_inv in H as [-> H]. injection H as _ _ _ ->.
    eauto.
Qed.

(** X15: when the cell builder returns a cell with a region, every surface
    name of the cell's expression is bound, in the surface table the card
    was read with, to a surface object or to the faces of a prism: an
    unknown name and the [inf] sentinel both make the card fail. *)
Theorem cell_region_surfaces_bound (st : State) (cell_card : string)
        (splitter : regex) (cell_type : string) (st' : State) (c : Cell)
        (n : string) (f : fill) (region : Region) :
  construct_openmc_cell cell_card splitter cell_type st
  = (st', Ok (c, n, f, Some region)) ->
  List.Forall (bound_to_surface st)
              (_strip_csg_operators (split_last splitter cell_card)).
Proof.
  intros H.
  apply construct_openmc_cell_ok_inv in H as (s4 & (Hs4 & _) & t & Hc).
  apply collect_surfaces_ok in Hc as [Hall _].
  eapply List.Forall_impl; [|exact Hall].
  intros m. unfold bound_to_surface. now rewrite Hs4.
Qed.

Lemma cell_region_surfaces_bound_witness :
  List.Forall (bound_to_surface forward_reference_state)
              (_strip_csg_operators
                 (split_last CELL_REGEX1_CORE "cell c1 0 m1 -1")).
Proof.
  eapply (cell_region_surfaces_bound forward_reference_state
            "cell c1 0 m1 -1" CELL_REGEX1_CORE "material").
  vm_compute. reflexivity.
Defined.

(** X16: the cell builder returns a cell without a region only for a
    material cell whose expression names a single surface, one declared
    by an [inf] card. *)
Theorem cell_without_region (st : State) (cell_card : string)
        (splitter : regex) (cell_type : string) (st' : State) (c : Cell)
        (n : string) (f : fill) :
  construct_openmc_cell cell_card splitter cell_type st
  = (st', Ok (c, n, f, None)) ->
  cell_type = "material" /\
  exists name,
    _strip_csg_operators (split_last splitter cell_card) = [name] /\
    surf_dict st !! name = Some (SEStr "inf").
Proof.
  intros H.
  apply construct_openmc_cell_ok_inv in H as (s4 & _ & H). exact H.
Qed.

Lemma cell_without_region_witness :
  "material" = "material" /\
  exists name,
    _strip_csg_operators (split_last CELL_REGEX1_CORE "cell c1 0 m1 -1")
    = [name] /\
    surf_dict inf_state !! name = Some (SEStr "inf").
Proof.
  eapply (cell_without_region inf_state "cell c1 0 m1 -1" CELL_REGEX1_CORE
                              "material").
  vm_compute. reflexivity.
Defined.

(* ===================================================================== *)
(** * Outside cells and the boundary entries *)
(* ===================================================================== *)

Lemma apply_boundary_all_unchanged (n : Z) (bcs : list string)
      (o d : list (dkey * dval)) :
  n <> 1 -> apply_boundary_all n bcs (ObjDict o) d = Ok d.
Proof.
  intros Hn. induction d as [|[k v] d IH]; [reflexivity|].
  cbn [apply_boundary_all].
  rewrite (apply_boundary_2_3_unchanged n bcs o v Hn). cbn [rbind].
  rewrite IH. reflexivity.
Qed.

Lemma entry_of_dict_same (name : string) (e : surf_entry) :
  entry_of_dict e
    match e with
    | SESubs od => List.map (fun p => (KInt (fst p), DSurf (snd p))) od
    | SEObj o => [(KStr name, DSurf o)]
    | SEStr s => [(KStr name, DStr s)]
    end = e.
Proof.
  destruct e as [s|o|od]; cbn [entry_of_dict]; try reflexivity.
  f_equal. induction od as [|[i s] od IH]; [reflexivity|].
  cbn [List.map List.flat_map fst snd app]. now rewrite IH.
Qed.

(** With a number of boundary entries other than one, a round of the first
    loop of an [outside] cell leaves the surface table as it is. *)
Lemma collect_surface_outside_unchanged (st0 : State) (name : string)
      (t : cell_tables) :
  n_bcs st0 <> 1 ->
  preserves (fun s => surf_dict s = surf_dict st0 /\ n_bcs s = n_bcs st0)
            (collect_surface "outside" name t).
Proof.
  intros Hn.
  set (I := fun s => surf_dict s = surf_dict st0 /\ n_bcs s = n_bcs st0).
  intros s HI. assert (HI' := HI). destruct HI' as [Hs Hb].
  unfold collect_surface.
  change ("outside" =? "outside")%string with true. cbv iota.
  unfold bind at 1. unfold get at 1. unfold bind at 1.
  unfold lift at 1, dict_get.
  destruct (surf_dict s !! name) as [entry|] eqn:He; [|exact HI].
  apply bind_at.
  - unfold bind at 1. unfold lift at 1.
    rewrite apply_boundary_all_unchanged by (rewrite Hb; exact Hn).
    unfold bind, modify, ret. cbn [fst].
    rewrite entry_of_dict_same. subst I. cbn beta.
    cbn [surf_dict n_bcs with_surf_dict].
    rewrite insert_id by exact He. now split.
  - intros d.
    apply preserves_bind; [apply preserves_lift|intros csd].
    apply preserves_bind; [|intros ?; apply preserves_ret].
    destruct entry; [| |apply preserves_lift];
      (apply preserves_bind; [apply preserves_lift|intros v];
       apply preserves_bind; [apply preserves_lift|intros i];
       apply preserves_ret).
Qed.

(** X17: when the number of boundary entries is not one, an [outside] cell
    card assigns no boundary type: the surface table after the card is the
    surface table before it. *)
Theorem outside_cell_assigns_nothing (st : State) (cell_card : string)
        (splitter : regex) :
  n_bcs st <> 1 ->
  surf_dict (fst (construct_openmc_cell cell_card splitter "outside" st))
  = surf_dict st.
Proof.
  intros Hn.
  apply (construct_openmc_cell_preserves
           (fun s => surf_dict s = surf_dict st /\ n_bcs s = n_bcs st)).
  - intros u c s Hs.
    destruct (add_cell_name_to_universe_cases u c s)
      as [(c0 & cs & _ & ->)|(_ & ->)]; exact Hs.
  - intros s Hs. exact Hs.
  - intros n s Hs _. exact Hs.
  - intros name t. now apply collect_surface_outside_unchanged.
  - now split.
Qed.

Lemma outside_cell_assigns_nothing_witness :
  let st := after_surfaces axis_surfaces
              (initial_state ∅ [] ["reflective"; "reflective"; "vacuum"]
                             "0") in
  surf_dict (fst (construct_openmc_cell outside_card CELL_REGEX3_CORE
                                        "outside" st))
  = surf_dict st.
Proof.
  intros st.
  apply (outside_cell_assigns_nothing st outside_card CELL_REGEX3_CORE).
  vm_compute. discriminate.
Defined.

Lemma apply_boundary_all_one (bcs : list string) (b : string)
      (rest : list string) (o : pyobj) (d d' : list (dkey * dval)) :
  bcs = b :: rest ->
  apply_boundary_all 1 bcs o d = Ok d' ->
  List.Forall2 (fun kv kv' =>
                  fst kv' = fst kv /\
                  exists s, snd kv = DSurf s /\
                            snd kv' = DSurf (set_s_boundary_type b s))
               d d'.
Proof.
  intros ->. revert d'. induction d as [|[k v] d IH]; intros d' H;
    cbn [apply_boundary_all] in H.
  - injection H as <-. constructor.
  - apply rbind_ok_inv in H as (v' & Hv & H).
    apply rbind_ok_inv in H as (r' & Hr & H). injection H as <-.
    constructor; [|now apply IH]. cbn [fst snd]. split; [reflexivity|].
    unfold apply_boundary in Hv. cbn [Z.eqb Pos.eqb py_index nth_error rbind]
      in Hv.
    destruct v as [s|s]; cbn [assign_boundary_type] in Hv;
      [|discriminate Hv].
    injection Hv as <-. eauto.
Qed.

Lemma entry_of_dict_boundary (name b : string) (e : surf_entry)
      (d' : list (dkey * dval)) :
  List.Forall2 (fun kv kv' =>
                  fst kv' = fst kv /\
                  exists s, snd kv = DSurf s /\
                            snd kv' = DSurf (set_s_boundary_type b s))
               match e with
               | SESubs od =>
                   List.map (fun p => (KInt (fst p), DSurf (snd p))) od
               | SEObj o => [(KStr name, DSurf o)]
               | SEStr s => [(KStr name, DStr s)]
               end d' ->
  entry_boundary b (entry_of_dict e d').
Proof.
  destruct e as [s|o|od]; intros H.
  - inversion H as [|? [k' v'] ? ? [_ (s0 & Hs0 & _)] _]; subst.
    discriminate Hs0.
  - inversion H as [|? [k' v'] ? l' [_ (s0 & Hs0 & Hv')] Hl]; subst.
    inversion Hl; subst. cbn [snd] in Hs0, Hv'. subst v'.
    injection Hs0 as <-. reflexivity.
  - cbn [entry_of_dict entry_boundary]. revert d' H.
    induction od as [|[i s] od IH]; intros d' H; cbn [List.map] in H.
    + inversion H; subst. constructor.
    + inversion H as [|? [k' v'] ? l' [Hk (s0 & Hs0 & Hv')] Hl]; subst.
      cbn [fst snd] in Hk, Hs0, Hv'. subst k' v'. injection Hs0 as <-.
      cbn [List.flat_map app]. constructor; [reflexivity|]. now apply IH.
Qed.

(** With a single boundary entry [b], a round of the first loop of an
    [outside] cell that returns has rebound the name to the same surface,
    or the same faces, with the boundary type [b]. *)
Lemma collect_surface_outside_one (b : string) (rest : list string)
      (name : string) (t : cell_tables) (st st' : State) (t' : cell_tables) :
  n_bcs st = 1 -> surface_bc st = b :: rest ->
  collect_surface "outside" name t st = (st', Ok t') ->
  exists e', entry_boundary b e' /\
             st' = with_surf_dict (<[name := e']> (surf_dict st)) st.
Proof.
  intros Hn Hbc H. unfold collect_surface in H.
  change ("outside" =? "outside")%string with true in H. cbv iota in H.
  apply bind_ok_inv in H as (s1 & st0 & Hget & H).
  apply get_ok_inv in Hget as [-> ->].
  apply bind_ok_inv in H as (s2 & entry & Hl & H).
  apply lift_ok_inv in Hl as [-> _].
  apply bind_ok_inv in H as (s3 & d & Hd & H).
  apply bind_ok_inv in Hd as (? & d' & Hb & Hd).
  apply lift_ok_inv in Hb as [-> Hb].
  apply bind_ok_inv in Hd as (? & [] & Hm & Hd).
  unfold modify in Hm. injection Hm as <-.
  apply ret_ok_inv in Hd as [-> ->].
  apply bind_ok_inv in H as (s4 & csd & Hs & H).
  apply lift_ok_inv in Hs as [-> _].
  apply bind_ok_inv in H as (s5 & sid & Hsid & H).
  apply ret_ok_inv in H as [-> _].
  assert (Hs5 : s5 = with_surf_dict
                       (<[name := entry_of_dict entry d']> (surf_dict st)) st).
  { destruct entry.
    - apply bind_ok_inv in Hsid as (? & ? & Hv & Hsid).
      apply lift_ok_inv in Hv as [-> _].
      apply bind_ok_inv in Hsid as (? & ? & Hv & Hsid).
      apply lift_ok_inv in Hv as [-> _].
      now apply ret_ok_inv in Hsid as [-> _].
    - apply bind_ok_inv in Hsid as (? & ? & Hv & Hsid).
      apply lift_ok_inv in Hv as [-> _].
      apply bind_ok_inv in Hsid as (? & ? & Hv & Hsid).
      apply lift_ok_inv in Hv as [-> _].
      now apply ret_ok_inv in Hsid as [-> _].
    - now apply lift_ok_inv in Hsid as [-> _]. }
  exists (entry_of_dict entry d'). split; [|exact Hs5].
  rewrite Hn in Hb.
  apply (apply_boundary_all_one _ b rest _ _ _ Hbc) in Hb.
  now apply (entry_of_dict_boundary name).
Qed.

Lemma collect_surfaces_outside_one (b : string) (rest : list string)
      (names : list string) (t : cell_tables) (st st' : State)
      (t' : cell_tables) :
  n_bcs st = 1 -> surface_bc st = b :: rest ->
  collect_surfaces "outside" names t st = (st', Ok t') ->
  List.Forall (name_boundary st' b) names /\
  (forall m, name_boundary st b m -> name_boundary st' b m).
Proof.
  revert t st. induction names as [|n names IH]; intros t st Hn Hbc H;
    cbn [collect_surfaces] in H.
  - apply ret_ok_inv in H as [-> _]. split; [constructor|auto].
  - apply bind_ok_inv in H as (s1 & t1 & H1 & H).
    destruct (collect_surface_outside_one _ _ _ _ _ _ _ Hn Hbc H1)
      as (e' & He' & ->).
    apply IH in H as [Hall Hmono]; [|exact Hn|exact Hbc].
    assert (Hstep : forall m,
               name_boundary st b m \/ m = n ->
               name_boundary
                 (with_surf_dict (<[n := e']> (surf_dict st)) st) b m).
    { intros m Hm. unfold name_boundary. cbn [surf_dict with_surf_dict].
      destruct (decide (m = n)) as [->|Hne].
      - now rewrite lookup_insert_eq.
      - rewrite lookup_insert_ne by congruence.
        destruct Hm as [Hm|Hm]; [exact Hm|contradiction]. }
    split.
    + constructor; [|exact Hall]. apply Hmono, Hstep. now right.
    + intros m Hm. apply Hmono, Hstep. now left.
Qed.

(** X18: with a single boundary entry, an [outside] cell card that returns
    has given that boundary type to every surface its expression names, and
    to every face of every prism it names. *)
Theorem outside_cell_single_boundary (st : State) (cell_card : string)
        (splitter : regex) (st' : State) (c : Cell) (n : string) (f : fill)
        (reg : option Region) (b : string) (rest : list string) :
  n_bcs st = 1 ->
  surface_bc st = b :: rest ->
  construct_openmc_cell cell_card splitter "outside" st
  = (st', Ok (c, n, f, reg)) ->
  List.Forall (name_boundary st' b)
              (_strip_csg_operators (split_last splitter cell_card)).
Proof.
  intros Hn Hbc H.
  apply construct_openmc_cell_ok_inv in H as (s4 & (Hs4 & Hn4 & Hbc4) & H).
  destruct reg as [region|]; [|destruct H as [H _]; discriminate H].
  destruct H as (t & Hc).
  apply (collect_surfaces_outside_one b rest) in Hc as [Hall _];
    [exact Hall|congruence|congruence].
Qed.

Lemma outside_cell_single_boundary_witness :
  let st := after_surfaces axis_surfaces
              (initial_state ∅ [] ["reflective"] "0") in
  List.Forall
    (name_boundary
       (fst (construct_openmc_cell outside_card CELL_REGEX3_CORE "outside"
                                   st))
       "reflective")
    (_strip_csg_operators (split_last CELL_REGEX3_CORE outside_card)).
Proof.
  intros st.
  eapply (outside_cell_single_boundary st outside_card CELL_REGEX3_CORE
            _ _ _ _ _ "reflective" []).
  - vm_compute. reflexivity.
  - vm_compute. reflexivity.
  - vm_compute. reflexivity.
Defined.

(* ===================================================================== *)
(** * Surface names and region expressions *)
(* ===================================================================== *)

Lemma chars_append (u v : string) : chars (u ++ v) = (chars u ++ chars v)%list.
Proof.
  induction u as [|c u IH]; [reflexivity|].
  rewrite append_cons. unfold chars in *.
  cbn [list_ascii_of_string app]. f_equal. exact IH.
Qed.

Lemma chars_snoc (u : string) (c : ascii) :
  chars (PyStr.snoc u c) = (chars u ++ [c])%list.
Proof. unfold PyStr.snoc. now rewrite chars_append. Qed.

Lemma snoc_not_empty (u : string) (c : ascii) : PyStr.snoc u c <> "".
Proof. destruct u; discriminate. Qed.

(** The words of [split] are not empty and are made of characters of the
    text that are not white space. *)
Lemma split_aux_words (cur s : string) :
  (forall c, In c (chars cur) -> PyStr.is_space c = false) ->
  List.Forall (fun w => w <> "" /\
                        forall c, In c (chars w) ->
                                  PyStr.is_space c = false /\
                                  (In c (chars cur) \/ In c (chars s)))
              (PyStr.split_aux cur s).
Proof.
  revert cur. induction s as [|a s IH]; intros cur Hcur;
    cbn [PyStr.split_aux].
  - destruct cur as [|c0 cur]; cbn [PyStr.is_empty]; constructor;
      [|constructor].
    split; [discriminate|]. intros c Hc. split; [now apply Hcur|now left].
  - destruct (PyStr.is_space a) eqn:Ha.
    + assert (Hrest : List.Forall
                (fun w => w <> "" /\
                          forall c, In c (chars w) ->
                                    PyStr.is_space c = false /\
                                    (In c (chars cur)
                                     \/ In c (chars (String a s))))
                (PyStr.split_aux "" s)).
      { eapply List.Forall_impl; [|apply (IH ""); intros c []].
        intros w [Hw Hc]. split; [exact Hw|]. intros c Hin.
        destruct (Hc c Hin) as [Hsp [[]|Hs]]. split; [exact Hsp|].
        right. now right. }
      destruct cur as [|c0 cur]; cbn [PyStr.is_empty]; [exact Hrest|].
      constructor; [|exact Hrest].
      split; [discriminate|]. intros c Hc. split; [now apply Hcur|now left].
    + eapply List.Forall_impl; [|apply (IH (PyStr.snoc cur a))].
      * intros w [Hw Hc]. split; [exact Hw|]. intros c Hin.
        destruct (Hc c Hin) as [Hsp Hor]. split; [exact Hsp|].
        rewrite chars_snoc, in_app_iff in Hor. cbn [In] in Hor.
        cbn [chars list_ascii_of_string In]. fold (chars s). tauto.
      * intros c. rewrite chars_snoc, in_app_iff. cbn [In].
        intros [Hc|[<-|[]]]; [now apply Hcur|exact Ha].
Qed.

(** Replacing a character by a space leaves no occurrence of it and adds
    nothing but spaces. *)
Lemma replace_char (a : ascii) (s : string) (c : ascii) :
  In c (chars (PyStr.replace s (String a "") " ")) ->
  c = " "%char \/ (c <> a /\ In c (chars s)).
Proof.
  unfold PyStr.replace. cbn [PyStr.is_empty].
  induction s as [|b s IH]; cbn [PyStr.replace_aux]; [intros []|].
  cbn [String.prefix String.length Nat.pred].
  destruct (ascii_dec a b) as [<-|Hne].
  - assert (Hp : String.prefix "" s = true) by (destruct s; reflexivity).
    rewrite Hp. rewrite append_cons, append_nil_l.
    cbn [chars list_ascii_of_string In]. fold (chars s).
    intros [<-|Hc]; [now left|].
    destruct (IH Hc) as [->|[Hca Hin]]; [now left|]. right. tauto.
  - cbn [chars list_ascii_of_string In]. fold (chars s).
    intros [<-|Hc]; [right; split; [congruence|now left]|].
    destruct (IH Hc) as [->|[Hca Hin]]; [now left|]. right. tauto.
Qed.

(** X19: the names [_strip_csg_operators] returns are not empty and are made
    of characters of the expression that are neither white space nor one of
    the five operator characters [- : # ( )]. (A [+] is no operator
    character for this function.) *)
Theorem strip_csg_operators_names (csg_expression : string) :
  List.Forall
    (fun name =>
       name <> "" /\
       forall c, In c (chars name) ->
                 In c (chars csg_expression) /\
                 PyStr.is_space c = false /\
                 ~ In c csg_operators)
    (_strip_csg_operators csg_expression).
Proof.
  unfold _strip_csg_operators, PyStr.split.
  eapply List.Forall_impl; [|apply split_aux_words; intros c []].
  intros name [Hne Hc]. split; [exact Hne|]. intros c Hin.
  destruct (Hc c Hin) as [Hsp [[]|H5]].
  assert (Hns : c <> " "%char) by (intros ->; discriminate Hsp).
  apply replace_char in H5 as [|[Hn5 H4]]; [contradiction|].
  apply replace_char in H4 as [|[Hn4 H3]]; [contradiction|].
  apply replace_char in H3 as [|[Hn3 H2]]; [contradiction|].
  apply replace_char in H2 as [|[Hn2 H1]]; [contradiction|].
  apply replace_char in H1 as [|[Hn1 H0]]; [contradiction|].
  split; [exact H0|]. split; [exact Hsp|].
  unfold csg_operators. cbn [In]. intuition congruence.
Qed.

(** X20: the region expression of the faces of a prism is only built for
    four faces. Six faces raise [UnboundLocalError] (neither comparison of
    the first face with a class holds), and every other number of faces,
    smaller ones too, raises the "too many subsurfaces" error. *)
Theorem region_expr_face_count (subsurf_dict : list (Z * Surface)) :
  match _get_subsurf_region_expr subsurf_dict with
  | Ok _ => List.length subsurf_dict = 4%nat
  | Err e =>
      (List.length subsurf_dict = 6%nat ->
       e = UnboundLocalError "match_pos_hs") /\
      (List.length subsurf_dict <> 4%nat ->
       List.length subsurf_dict <> 6%nat ->
       e = ValueError ("There were too many "
                       ++ "                         "
                       ++ "subsurfaces in the region"))
  end.
Proof.
  unfold _get_subsurf_region_expr.
  destruct (Nat.eqb_spec (List.length subsurf_dict) 4) as [H4|H4].
  - cbn [rbind]. destruct (_get_subsurf_region_expr_helper _ _ _ _ _ _);
      cbn [rbind]; [exact H4|].
    split; [intros H6; rewrite H6 in H4; discriminate H4|contradiction].
  - destruct (Nat.eqb_spec (List.length subsurf_dict) 6) as [H6|H6].
    + destruct subsurf_dict as [|p rest]; [discriminate H6|].
      cbn [rbind py_eq]. split; [reflexivity|contradiction].
    + cbn [rbind]. split; [contradiction|reflexivity].
Qed.

(* ===================================================================== *)
(** * Lattice cards: what a returned lattice holds *)
(* ===================================================================== *)

Lemma read_multiline_rows_all_match (lines : list string) :
  (forall line, In line lines ->
                Re.search LAT_MULTILINE_REGEX line <> None) ->
  read_multiline_rows lines = Err IndexError.
Proof.
  induction lines as [|l lines IH]; intros Hall; cbn [read_multiline_rows];
    [reflexivity|].
  destruct (Re.search LAT_MULTILINE_REGEX l) eqn:Hl.
  - rewrite IH; [reflexivity|]. intros line Hin. apply Hall. now right.
  - exfalso. apply (Hall l); [now left|exact Hl].
Qed.

(** X21: the names of a lattice are only read when a line that does not
    match the continuation pattern follows them: for a lattice card on the
    last line of the file, and for continuation lines that run to the end
    of the file, the read of the next line raises [IndexError]. *)
Theorem lattice_names_need_next_line (geo_data : list string)
        (current_line_idx : nat) (lattice_args : list string)
        (lat_univ_index : nat) :
  (forall line, In line (skipn (current_line_idx + 1) geo_data) ->
                Re.search LAT_MULTILINE_REGEX line <> None) ->
  _get_lattice_universe_names geo_data current_line_idx lattice_args
                              lat_univ_index
  = Err IndexError.
Proof.
  intros Hall. unfold _get_lattice_universe_names, py_index.
  destruct (nth_error geo_data (current_line_idx + 1)) as [l|] eqn:Hnth;
    [|reflexivity].
  cbn [rbind].
  assert (Hin : In l (skipn (current_line_idx + 1) geo_data)).
  { apply nth_error_split in Hnth as (l1 & l2 & -> & <-).
    rewrite skipn_app, Nat.sub_diag, skipn_all. now left. }
  destruct (Re.search LAT_MULTILINE_REGEX l) eqn:Hl.
  - now rewrite (read_multiline_rows_all_match _ Hall).
  - exfalso. exact (Hall l Hin Hl).
Qed.

Lemma lattice_names_need_next_line_witness :
  _get_lattice_universe_names
    ["lat L 1 0 0 2 2 10"; ("A B" ++ nl)%string; ("C D" ++ nl)%string]
    0 ["0"; "0"; "2"; "2"; "10"] 8
  = Err IndexError.
Proof.
  apply lattice_names_need_next_line.
  intros line [<-|[<-|[]]]; vm_compute; discriminate.
Defined.

Lemma fill_universes_ok_inv ud names uniq out res :
  fill_universes ud names uniq out = Ok res ->
  forall n, In n uniq -> is_Some (ud !! n).
Proof.
  revert out. induction uniq as [|m uniq IH]; intros out H n Hin;
    [destruct Hin|].
  cbn [fill_universes] in H.
  apply rbind_ok_inv in H as (u & Hu & H).
  unfold dict_get in Hu. destruct (ud !! m) as [u'|] eqn:Hm;
    [|discriminate Hu].
  destruct Hin as [<-|Hin]; [rewrite Hm; eauto|].
  now apply (IH _ H).
Qed.

(** What is known of a lattice that is returned. *)
Lemma get_lattice_univ_array_ok_inv st lattice_type lattice_args idx origin
      pitch arr :
  get_lattice_univ_array st lattice_type lattice_args idx
  = Ok (origin, pitch, arr) ->
  exists Nx Ny p names o1 filled,
    read_int lattice_args 2 = Ok Nx /\
    read_int lattice_args 3 = Ok Ny /\
    read_float lattice_args 4 = Ok p /\
    pitch = (p, p) /\
    0 <= Nx /\ 0 <= Ny /\
    Nx * Ny = Z.of_nat (List.length (arr_data names)) /\
    set_origin (Nx, Ny) (p, p) Nx [None; None] = Ok o1 /\
    set_origin (Nx, Ny) (p, p) Ny o1 = Ok origin /\
    fill_universes (universe_dict st)
                   (arr_data (flip0 (mkArr [Nx; Ny] (arr_data names))))
                   (unique (flip0 (mkArr [Nx; Ny] (arr_data names))))
                   (List.repeat None (Z.to_nat (Nx * Ny)))
    = Ok filled /\
    arr = mkArr [Nx; Ny] filled.
Proof.
  intros H. unfold get_lattice_univ_array in H.
  apply rbind_ok_inv in H as (x0 & _ & H).
  apply rbind_ok_inv in H as (y0 & _ & H).
  destruct (matches_start LAT_123 lattice_type); [|discriminate H].
  apply rbind_ok_inv in H as (Nx & HNx & H).
  apply rbind_ok_inv in H as (Ny & HNy & H).
  apply rbind_ok_inv in H as (p & Hp & H).
  apply rbind_ok_inv in H as (names & _ & H).
  apply rbind_ok_inv in H as (a & Ha & H).
  destruct (matches_start LAT_1_6_11 lattice_type); [|discriminate H].
  apply rbind_ok_inv in H as (o1 & Ho1 & H).
  apply rbind_ok_inv in H as (o2 & Ho2 & H).
  apply rbind_ok_inv in H as (e & He & H).
  apply rbind_ok_inv in H as (filled & Hf & H).
  injection H as <- <- <-.
  unfold NpArr.empty in He. cbn [List.forallb List.fold_right] in He.
  destruct (Z.leb_spec 0 Nx) as [HNx0|]; [|discriminate He].
  destruct (Z.leb_spec 0 Ny) as [HNy0|]; [|discriminate He].
  cbn [andb] in He. injection He as <-. cbn [arr_data arr_shape] in Hf.
  unfold reshape in Ha.
  destruct (Z.leb_spec 0 Nx) as [_|]; [|lia].
  destruct (Z.leb_spec 0 Ny) as [_|]; [|lia].
  cbn [andb] in Ha.
  destruct (Z.eqb_spec (Nx * Ny) (Z.of_nat (List.length (arr_data names))))
    as [Hsize|]; [|discriminate Ha].
  injection Ha as <-.
  exists Nx, Ny, p, names, o1, filled.
  replace (Nx * (Ny * 1)) with (Nx * Ny) in Hf by lia.
  repeat split; assumption.
Qed.

(** X22: a lattice that is returned has the shape [(Nx, Ny)] of the card,
    and every one of its [Nx * Ny] elements is a universe that was
    registered before the card was read: the lattice builder creates no
    universe and leaves no element unset. *)
Theorem lattice_array_complete (st : State) (lattice_type : string)
        (lattice_args : list string) (current_line_idx : nat)
        (origin : list (option float)) (pitch : float * float)
        (arr : ndarray (option Universe)) :
  get_lattice_univ_array st lattice_type lattice_args current_line_idx
  = Ok (origin, pitch, arr) ->
  exists Nx Ny,
    read_int lattice_args 2 = Ok Nx /\
    read_int lattice_args 3 = Ok Ny /\
    arr_shape arr = [Nx; Ny] /\
    List.length (arr_data arr) = Z.to_nat (Nx * Ny) /\
    List.Forall (fun o => exists n u, o = Some u /\
                                      universe_dict st !! n = Some u)
                (arr_data arr).
Proof.
  intros H.
  apply get_lattice_univ_array_ok_inv in H
    as (Nx & Ny & p & names & o1 & filled & HNx & HNy & _ & _ & H0x & H0y
        & Hsize & _ & _ & Hf & ->).
  exists Nx, Ny. repeat split; try assumption; cbn [arr_data].
  - set (a := flip0 _) in Hf.
    assert (Hlen : Z.to_nat (Nx * Ny) = List.length (arr_data a)).
    { subst a. unfold flip0, rows_of. cbn [arr_shape arr_data].
      rewrite length_concat_rev, rows_concat; lia. }
    pose proof (fill_universes_ok_inv _ _ _ _ _ Hf) as Hreg.
    rewrite Hlen in Hf.
    rewrite fill_universes_all in Hf
      by (intros n Hn; apply Hreg; now apply in_unique).
    injection Hf as <-. now rewrite length_map, Hlen.
  - set (a := flip0 _) in Hf.
    assert (Hlen : Z.to_nat (Nx * Ny) = List.length (arr_data a)).
    { subst a. unfold flip0, rows_of. cbn [arr_shape arr_data].
      rewrite length_concat_rev, rows_concat; lia. }
    pose proof (fill_universes_ok_inv _ _ _ _ _ Hf) as Hreg.
    rewrite Hlen in Hf.
    rewrite fill_universes_all in Hf
      by (intros n Hn; apply Hreg; now apply in_unique).
    injection Hf as <-.
    apply List.Forall_forall. intros o Ho.
    apply in_map_iff in Ho as (n & <- & Hn).
    destruct (Hreg n (proj2 (in_unique a n) Hn)) as [u Hu].
    exists n, u. now rewrite Hu.
Qed.

Lemma lattice_array_complete_witness :
  exists Nx Ny,
    read_int multiline_args 2 = Ok Nx /\
    read_int multiline_args 3 = Ok Ny /\
    arr_shape (mkArr [2; 3]
                 [Some (mkUniverse 4 "D"); Some (mkUniverse 5 "E");
                  Some (mkUniverse 6 "F"); Some (mkUniverse 1 "A");
                  Some (mkUniverse 2 "B"); Some (mkUniverse 3 "C")])
    = [Nx; Ny] /\
    List.length [Some (mkUniverse 4 "D"); Some (mkUniverse 5 "E");
                 Some (mkUniverse 6 "F"); Some (mkUniverse 1 "A");
                 Some (mkUniverse 2 "B"); Some (mkUniverse 3 "C")]
    = Z.to_nat (Nx * Ny) /\
    List.Forall (fun o => exists n u,
                     o = Some u /\
                     universe_dict (lattice_state multiline_lattice) !! n
                     = Some u)
                [Some (mkUniverse 4 "D"); Some (mkUniverse 5 "E");
                 Some (mkUniverse 6 "F"); Some (mkUniverse 1 "A");
                 Some (mkUniverse 2 "B"); Some (mkUniverse 3 "C")].
Proof.
  apply (lattice_array_complete
           (lattice_state multiline_lattice) "1" multiline_args 0
           [Some 10%float; Some 15%float] (10%float, 10%float)
           (mkArr [2; 3]
              [Some (mkUniverse 4 "D"); Some (mkUniverse 5 "E");
               Some (mkUniverse 6 "F"); Some (mkUniverse 1 "A");
               Some (mkUniverse 2 "B"); Some (mkUniverse 3 "C")])).
  vm_compute. reflexivity.
Defined.

Section LatticeOrigin.

Local Open Scope float_scope.

(** X23: the origin of a lattice that is returned is computed from the
    element counts and the pitch alone, and the two origin arguments of the
    card are not used. Its first component is [Nx * 0.5 * pitch]; its
    second component is [Ny * 0.5 * pitch] when [Nx <> Ny], and is left
    unset when [Nx = Ny], where the index of [Ny] in the pair of counts is
    found to be 0 again. *)
Theorem lattice_origin_of_counts (st : State) (lattice_type : string)
        (lattice_args : list string) (current_line_idx : nat)
        (origin : list (option float)) (pitch : float * float)
        (arr : ndarray (option Universe)) :
  get_lattice_univ_array st lattice_type lattice_args current_line_idx
  = Ok (origin, pitch, arr) ->
  exists Nx Ny fx fy p,
    read_int lattice_args 2 = Ok Nx /\
    read_int lattice_args 3 = Ok Ny /\
    read_float lattice_args 4 = Ok p /\
    PyFloat.of_int Nx = Ok fx /\
    PyFloat.of_int Ny = Ok fy /\
    pitch = (p, p) /\
    origin = if (Nx =? Ny)%Z then [Some (fx * 0.5 * p); None]
             else [Some (fx * 0.5 * p); Some (fy * 0.5 * p)].
Proof.
  intros H.
  apply get_lattice_univ_array_ok_inv in H
    as (Nx & Ny & p & names & o1 & filled & HNx & HNy & Hp & -> & _ & _
        & _ & Ho1 & Ho2 & _ & _).
  unfold set_origin, pair_index in Ho1, Ho2. cbn [fst snd] in Ho1, Ho2.
  rewrite Z.eqb_refl in Ho1.
  apply rbind_ok_inv in Ho1 as (fx & Hfx & Ho1).
  apply rbind_ok_inv in Ho2 as (fy & Hfy & Ho2).
  injection Ho1 as <-. 
  exists Nx, Ny, fx, fy, p. repeat split; try assumption.
  destruct (Z.eqb_spec Nx Ny) as [Heq|Hne].
  - subst Ny. rewrite Hfx in Hfy. injection Hfy as <-.
    injection Ho2 as <-. reflexivity.
  - injection Ho2 as <-. reflexivity.
Qed.

Lemma lattice_origin_of_counts_witness :
  exists Nx Ny fx fy p,
    read_int square_args 2 = Ok Nx /\
    read_int square_args 3 = Ok Ny /\
    read_float square_args 4 = Ok p /\
    PyFloat.of_int Nx = Ok fx /\
    PyFloat.of_int Ny = Ok fy /\
    (10, 10) = (p, p) /\
    [Some 10; None]
    = if (Nx =? Ny)%Z then [Some (fx * 0.5 * p); None]
      else [Some (fx * 0.5 * p); Some (fy * 0.5 * p)].
Proof.
  apply (lattice_origin_of_counts
           (lattice_state square_lattice) "1" square_args 0
           [Some 10; None] (10, 10)
           (mkArr [2; 2]%Z
              [Some (mkUniverse 3 "C"); Some (mkUniverse 4 "D");
               Some (mkUniverse 1 "A"); Some (mkUniverse 2 "B")])).
  vm_compute. reflexivity.
Defined.

End LatticeOrigin.

(* ===================================================================== *)
(** * The scan for the boundary card and the root card *)
(* ===================================================================== *)

Lemma scan_cards_app (pre post : list string) (bc0 rc0 : string) :
  ~ (rc0 <> "" /\ bc0 <> "") ->
  fst (scan_cards pre bc0 rc0) <> "" ->
  snd (scan_cards pre bc0 rc0) <> "" ->
  scan_cards (pre ++ post) bc0 rc0 = scan_cards pre bc0 rc0.
Proof.
  revert bc0 rc0. induction pre as [|line pre IH]; intros bc0 rc0 Hnot Hb Hr.
  - cbn [scan_cards fst snd] in Hb, Hr. tauto.
  - cbn [app scan_cards] in *.
    destruct (match Re.search BC_REGEX line with
              | Some m => (m, rc0)
              | None => match Re.search ROOT_REGEX line with
                        | Some m => (bc0, m)
                        | None => (bc0, rc0)
                        end
              end) as [bc1 rc1].
    destruct (negb (PyStr.is_empty rc1) && negb (PyStr.is_empty bc1)) eqn:Hc;
      [reflexivity|].
    apply IH; [|exact Hb|exact Hr].
    intros [Hr1 Hb1]. apply is_empty_false in Hr1, Hb1.
    rewrite Hr1, Hb1 in Hc. discriminate Hc.
Qed.

(** X24: once a boundary card and a root card are both found, the rest of the
    file is not read: the lines that follow change nothing in the
    result, whatever cards they hold. *)
Theorem cards_scan_stops (pre post : list string) :
  fst (scan_cards pre "" "") <> "" ->
  snd (scan_cards pre "" "") <> "" ->
  get_boundary_conditions_and_root (pre ++ post)
  = get_boundary_conditions_and_root pre.
Proof.
  intros Hb Hr. unfold get_boundary_conditions_and_root.
  rewrite scan_cards_app; [reflexivity| |exact Hb|exact Hr].
  intros [H _]. now apply H.
Qed.

Lemma cards_scan_stops_witness :
  get_boundary_conditions_and_root
    (["set root 4"; "set bc 2"] ++ ["set bc 1 white"; "set root 7"])
  = get_boundary_conditions_and_root ["set root 4"; "set bc 2"].
Proof.
  apply cards_scan_stops; vm_compute; discriminate.
Defined.

Lemma scan_cards_no_root_card (lines : list string) (bc0 : string) :
  (forall line, In line lines -> Re.search ROOT_REGEX line = None) ->
  scan_cards lines bc0 "" = (last_bc_card lines bc0, "").
Proof.
  revert bc0. induction lines as [|line lines IH]; intros bc0 Hno;
    [reflexivity|].
  cbn [scan_cards last_bc_card List.fold_left].
  rewrite (Hno line (or_introl eq_refl)).
  assert (Hrest : forall l, In l lines -> Re.search ROOT_REGEX l = None)
    by (intros l Hl; apply Hno; now right).
  destruct (Re.search BC_REGEX line) as [m|]; cbn [PyStr.is_empty negb andb];
    now apply IH.
Qed.

(** X25: in a file without root card the scan reads every line, and a later
    boundary card takes the place of an earlier one: the boundary entries
    are those of the last boundary card of the file. *)
Theorem last_boundary_card_counts (pre post : list string)
        (line card : string) :
  (forall l, In l (pre ++ line :: post) -> Re.search ROOT_REGEX l = None) ->
  Re.search BC_REGEX line = Some card ->
  (forall l, In l post -> Re.search BC_REGEX l = None) ->
  get_boundary_conditions_and_root (pre ++ line :: post)
  = let? surface_bc := surface_bc_of_card card in Ok (surface_bc, "0").
Proof.
  intros Hroot Hline Hpost. unfold get_boundary_conditions_and_root.
  rewrite (scan_cards_no_root_card _ _ Hroot).
  assert (Hlast : last_bc_card (pre ++ line :: post) "" = card).
  { unfold last_bc_card. rewrite fold_left_app. cbn [List.fold_left].
    rewrite Hline. clear Hroot Hline.
    induction post as [|l post IH]; [reflexivity|].
    cbn [List.fold_left]. rewrite (Hpost l (or_introl eq_refl)).
    apply IH. intros l' Hl'. apply Hpost. now right. }
  rewrite Hlast. reflexivity.
Qed.

Lemma last_boundary_card_counts_witness :
  get_boundary_conditions_and_root
    (["set bc 1"; "surf 1 px 1"] ++ "set bc 2 3" :: ["surf 2 py 1"])
  = Ok (["reflective"; "periodic"], "0").
Proof.
  rewrite (last_boundary_card_counts
             ["set bc 1"; "surf 1 px 1"] ["surf 2 py 1"]
             "set bc 2 3" "set bc 2 3").
  - vm_compute. reflexivity.
  - intros l [<-|[<-|[<-|[<-|[]]]]]; vm_compute; reflexivity.
  - vm_compute. reflexivity.
  - intros l [<-|[]]. vm_compute. reflexivity.
Defined.

Lemma in_chars_sconcat (c : ascii) (ws : list string) :
  In c (chars (sconcat ws)) -> exists w, In w ws /\ In c (chars w).
Proof.
  induction ws as [|w ws IH]; cbn [sconcat]; [intros []|].
  rewrite chars_append, in_app_iff. intros [H|H].
  - exists w. split; [now left|exact H].
  - destruct (IH H) as (w' & Hw' & Hc). exists w'. split; [now right|exact Hc].
Qed.

(** A word of a pattern holds no character that every class of the
    pattern rejects. *)
Lemma lang_rejects (c : ascii) (r : regex) (w : string) :
  rejects c r = true -> Lang r w -> ~ In c (chars w).
Proof.
  revert w. induction r as [| |p|a IHa b IHb|a IHa b IHb|a IHa lo hi|a IHa];
    intros w Hrej Hw; cbn [rejects Lang] in *.
  - subst w. intros [].
  - subst w. intros [].
  - destruct Hw as (d & -> & Hp). cbn [chars list_ascii_of_string In].
    intros [<-|[]]. rewrite Hp in Hrej. discriminate Hrej.
  - apply andb_true_iff in Hrej as [Ha Hb].
    destruct Hw as (u & v & -> & Hu & Hv).
    rewrite chars_append, in_app_iff.
    intros [H|H]; [exact (IHa u Ha Hu H)|exact (IHb v Hb Hv H)].
  - apply andb_true_iff in Hrej as [Ha Hb].
    destruct Hw as [Hw|Hw]; [now apply IHa|now apply IHb].
  - destruct Hw as (ws & -> & Hall & _). intros Hin.
    apply in_chars_sconcat in Hin as (w & Hw & Hc).
    rewrite List.Forall_forall in Hall.
    exact (IHa w Hrej (Hall w Hw) Hc).
  - subst w. intros [].
Qed.

(** X26: the text of a boundary card or of a root card is the start of its
    line and holds no [%]: the comment of the line is never part of the
    card. *)
Theorem card_text_excludes_comment (line card : string) :
  Re.search BC_REGEX line = Some card \/
  Re.search ROOT_REGEX line = Some card ->
  (exists rest, line = card ++ rest) /\ ~ In "%"%char (chars card).
Proof.
  intros [H|H].
  - split.
    + exact (search_anchored_prefix _ _ _ bc_regex_anchored H).
    + apply (lang_rejects _ BC_REGEX); [reflexivity|].
      exact (search_anchored _ _ _ bc_regex_anchored H).
  - split.
    + exact (search_anchored_prefix _ _ _ root_regex_anchored H).
    + apply (lang_rejects _ ROOT_REGEX); [reflexivity|].
      exact (search_anchored _ _ _ root_regex_anchored H).
Qed.

Lemma card_text_excludes_comment_witness :
  (exists rest, "set root 4 % core" = "set root 4 " ++ rest) /\
  ~ In "%"%char (chars "set root 4 ").
Proof.
  apply (card_text_excludes_comment "set root 4 % core" "set root 4 ").
  right. vm_compute. reflexivity.
Defined.
